(** * arxiv-daily: the merge-and-render pipeline of [daily_arxiv.py]

    A shallow embedding of the keyword formatter, the item fetcher, the
    record store (merge and code-link backfill) and the Markdown renderer,
    followed by the properties of the specification that were checked
    against it.

    Conventions of the embedding:
    - a Python [str] is a [string]; an [ascii] stands for one code point
      below 256, and the character classes ([str.isspace], [\d],
      [str.lower]) are the ones Python uses on that range;
    - a Python [dict] is an association list in insertion order (the
      renderer and [json.dump] depend on that order); lookup returns the
      first binding, assignment overwrites in place or appends;
    - code that can raise returns [exn + A], [inl] carrying the exception;
    - the JSON library, the clock, the file system and the two network
      services are the environment: they appear as explicit arguments. *)

From Stdlib Require Import String Ascii List ZArith Lia Bool Arith.
From Stdlib Require Import Sorted Permutation.
Import ListNotations.
Open Scope list_scope.
Open Scope string_scope.

(** ** Python string primitives *)

Module PyStr.

Definition QUOTE_CHAR : ascii := "034"%char.
Definition NEWLINE : ascii := "010"%char.

(** [c.isspace()] for a code point below 256. *)
Definition isspace (c : ascii) : bool :=
  let n := nat_of_ascii c in
  (((9 <=? n) && (n <=? 13)) || ((28 <=? n) && (n <=? 32))
   || (n =? 133) || (n =? 160))%nat.

(** Membership in the regular-expression class [\d] below 256. *)
Definition isdigit (c : ascii) : bool :=
  let n := nat_of_ascii c in ((48 <=? n) && (n <=? 57))%nat.

(** [c.lower()] for a code point below 256. *)
Definition lower_char (c : ascii) : ascii :=
  let n := nat_of_ascii c in
  if (((65 <=? n) && (n <=? 90))
      || ((192 <=? n) && (n <=? 214)) || ((216 <=? n) && (n <=? 222)))%nat
  then ascii_of_nat (n + 32) else c.

Fixpoint lower (s : string) : string :=
  match s with
  | EmptyString => EmptyString
  | String c s' => String (lower_char c) (lower s')
  end.

(** [bool(s)]: a string is truthy when it is not empty. *)
Definition truthy (s : string) : bool :=
  match s with EmptyString => false | _ => true end.

Fixpoint rev_onto (s acc : string) : string :=
  match s with
  | EmptyString => acc
  | String c s' => rev_onto s' (String c acc)
  end.

Definition rev (s : string) : string := rev_onto s EmptyString.

Fixpoint lstrip (s : string) : string :=
  match s with
  | String c s' => if isspace c then lstrip s' else s
  | EmptyString => EmptyString
  end.

(** [s.strip()] *)
Definition strip (s : string) : string := rev (lstrip (rev (lstrip s))).

(** [s.split()] with no separator: the maximal runs of characters that
    are not whitespace.  [tok] is the run being read. *)
Fixpoint split_ws_from (s tok : string) : list string :=
  match s with
  | EmptyString => if truthy tok then [tok] else []
  | String c s' =>
      if isspace c
      then (if truthy tok then tok :: split_ws_from s' "" else split_ws_from s' "")
      else split_ws_from s' (tok ++ String c "")
  end.

Definition split_ws (s : string) : list string := split_ws_from s "".

(** [s.split(sep)] for a one-character separator: always at least one
    field.  [fld] is the field being read. *)
Fixpoint split_char_from (sep : ascii) (s fld : string) : list string :=
  match s with
  | EmptyString => [fld]
  | String c s' =>
      if Ascii.eqb c sep
      then fld :: split_char_from sep s' ""
      else split_char_from sep s' (fld ++ String c "")
  end.

Definition split_char (sep : ascii) (s : string) : list string :=
  split_char_from sep s "".

Fixpoint drop (n : nat) (s : string) : string :=
  match n, s with
  | O, _ => s
  | S n', String _ s' => drop n' s'
  | S _, EmptyString => EmptyString
  end.

Fixpoint take (n : nat) (s : string) : string :=
  match n, s with
  | S n', String c s' => String c (take n' s')
  | _, _ => EmptyString
  end.

(** [s.find(sub)], counting from [i]: the least index at which [sub]
    occurs, [-1] when it does not. *)
Fixpoint find_from (sub s : string) (i : Z) : Z :=
  if prefix sub s then i
  else match s with
       | EmptyString => (-1)%Z
       | String _ s' => find_from sub s' (i + 1)%Z
       end.

Definition find (s sub : string) : Z := find_from sub s 0%Z.

(** [s[:n]] with Python's reading of a negative bound. *)
Definition slice_to (s : string) (n : Z) : string :=
  if (n <? 0)%Z
  then take (Z.to_nat (Z.of_nat (String.length s) + n)) s
  else take (Z.to_nat n) s.

(** [s.replace(old, new)] for a non-empty [old]: the occurrences are
    replaced from the left and do not overlap.  After an occurrence has
    been replaced, [skip] counts the characters of it still to pass. *)
Fixpoint replace_go (old new s : string) (skip : nat) : string :=
  match s with
  | EmptyString => EmptyString
  | String c s' =>
      match skip with
      | S k => replace_go old new s' k
      | O =>
          if prefix old s
          then new ++ replace_go old new s' (String.length old - 1)
          else String c (replace_go old new s' 0)
      end
  end.

Definition replace (s old new : string) : string := replace_go old new s 0.

(** [s.replace(a, b)] for single characters. *)
Fixpoint replace_char (a : ascii) (b : string) (s : string) : string :=
  match s with
  | EmptyString => EmptyString
  | String c s' =>
      (if Ascii.eqb c a then b else String c "") ++ replace_char a b s'
  end.

End PyStr.

(** ** Python exceptions, dictionaries and JSON values *)

Module Py.

(** The exception classes the program can meet.  All of them derive from
    [Exception], so [except Exception] catches every one. *)
Inductive exn : Type :=
| IndexError
| KeyError
| TypeError
| FileNotFoundError
| JSONDecodeError
| ConnectionError
| HTTPError
| SearchError.

Definition result (A : Type) : Type := (exn + A)%type.

Definition bind {A B : Type} (r : result A) (k : A -> result B) : result B :=
  match r with
  | inl e => inl e
  | inr a => k a
  end.

Definition succeeded {A : Type} (r : result A) : bool :=
  match r with inl _ => false | inr _ => true end.

(** [l[i]] on a list: [IndexError] out of range. *)
Definition getitem {A : Type} (l : list A) (i : nat) : result A :=
  match nth_error l i with
  | Some a => inr a
  | None => inl IndexError
  end.

Section Dict.
Context {V : Type}.

Definition dict : Type := list (string * V).

(** [d.get(k)] *)
Fixpoint dict_get (d : dict) (k : string) : option V :=
  match d with
  | [] => None
  | (k', v) :: d' => if String.eqb k' k then Some v else dict_get d' k
  end.

(** [k in d] *)
Definition dict_mem (k : string) (d : dict) : bool :=
  match dict_get d k with Some _ => true | None => false end.

(** [d[k] = v]: an existing key keeps its place, a new one goes last. *)
Fixpoint dict_set (d : dict) (k : string) (v : V) : dict :=
  match d with
  | [] => [(k, v)]
  | (k', v') :: d' =>
      if String.eqb k' k then (k', v) :: d' else (k', v') :: dict_set d' k v
  end.

(** [d.update(other)] *)
Definition dict_update (d other : dict) : dict :=
  fold_left (fun acc kv => dict_set acc (fst kv) (snd kv)) other d.

(** [d.keys()] *)
Definition dict_keys (d : dict) : list string := map fst d.

(** The invariant of a dictionary: no key occurs twice. *)
Definition wf_dict (d : dict) : Prop := NoDup (dict_keys d).
End Dict.

Arguments dict V : clear implicits.

(** A parsed JSON value, as [response.json()] returns it. *)
#[local] Set Warnings "-register-all".
Inductive json : Type :=
| JNull
| JBool (b : bool)
| JNum (z : Z)
| JStr (s : string)
| JArr (l : list json)
| JObj (o : list (string * json)).

(** [bool(v)] *)
Definition json_truthy (v : json) : bool :=
  match v with
  | JNull => false
  | JBool b => b
  | JNum z => negb (z =? 0)%Z
  | JStr s => PyStr.truthy s
  | JArr l => match l with [] => false | _ => true end
  | JObj o => match o with [] => false | _ => true end
  end.

Definition is_str (key : string) (v : json) : bool :=
  match v with JStr s => String.eqb s key | _ => false end.

(** [key in v] for a string [key]: key membership in an object, element
    membership in an array, substring test in a string, [TypeError] for
    the values that are not containers. *)
Definition json_contains (key : string) (v : json) : result bool :=
  match v with
  | JObj o => inr (dict_mem key o)
  | JArr l => inr (existsb (is_str key) l)
  | JStr s => inr (negb (PyStr.find s key =? -1)%Z)
  | JNull | JBool _ | JNum _ => inl TypeError
  end.

(** [v[key]] for a string [key]. *)
Definition json_getitem (v : json) (key : string) : result json :=
  match v with
  | JObj o =>
      match dict_get o key with
      | Some x => inr x
      | None => inl KeyError
      end
  | _ => inl TypeError
  end.

(** What [requests.get] hands back when it does not raise: whether the
    status is a success ([raise_for_status] raises otherwise) and the
    body as JSON ([None] when [response.json()] raises). *)
Record http_response : Type := {
  status_ok : bool;
  body : option json
}.

Definition raise_for_status (r : http_response) : result unit :=
  if status_ok r then inr tt else inl HTTPError.

Definition response_json (r : http_response) : result json :=
  match body r with
  | Some j => inr j
  | None => inl JSONDecodeError
  end.

End Py.

(** ** The program *)

Module Arxiv.
Import Py.

Definition nl : string := String PyStr.NEWLINE "".
Definition QUOTE : string := String PyStr.QUOTE_CHAR "".
Definition OR_SEPARATOR : string := " OR ".

Definition PAPERS_WITH_CODE_BASE_URL : string :=
  "https://arxiv.paperswithcode.com/api/v0/papers/".
Definition ARXIV_BASE_URL : string := "http://arxiv.org/".

(** A topic's entries (identifier to rendered text) and a store document
    (topic name to entries). *)
Definition entries : Type := dict string.
Definition document : Type := dict entries.

(** [doc[topic][paper_id]], [None] when either key is missing. *)
Definition lookup_entry (doc : document) (topic paper_id : string)
  : option string :=
  match dict_get doc topic with
  | Some papers => dict_get papers paper_id
  | None => None
  end.

Definition wf_document (doc : document) : Prop :=
  wf_dict doc /\ Forall (fun tp => wf_dict (snd tp)) doc.

(** *** Keyword formatter *)

(** One turn of the loop of [parse_filter_keywords]: [idx] is the index
    of [filter_word] and [n] is [len(filters)]. *)
Definition parse_filter_step (n idx : Z) (formatted_filter filter_word : string)
  : string :=
  let formatted_filter :=
    if (1 <? List.length (PyStr.split_ws filter_word))%nat
    then formatted_filter ++ QUOTE ++ filter_word ++ QUOTE
    else formatted_filter ++ filter_word in
  if negb (idx =? n - 1)%Z
  then formatted_filter ++ OR_SEPARATOR
  else formatted_filter.

Fixpoint parse_filter_loop (n idx : Z) (rest : list string)
  (formatted_filter : string) : string :=
  match rest with
  | [] => formatted_filter
  | filter_word :: rest' =>
      parse_filter_loop n (idx + 1)%Z rest'
        (parse_filter_step n idx formatted_filter filter_word)
  end.

Definition parse_filter_keywords (filters : list string) : string :=
  parse_filter_loop (Z.of_nat (List.length filters)) 0%Z filters "".

(** *** Small helpers *)

Definition format_authors (authors : list string) (only_first_author : bool)
  : string :=
  let author_names := authors in
  if only_first_author
  then match author_names with
       | first :: _ => first ++ " et.al."
       | [] => "Unknown Author"
       end
  else match author_names with
       | _ :: _ => String.concat ", " author_names
       | [] => "Unknown Authors"
       end.

(** [sorted(keys, reverse=True)]: descending code-point order, equal keys
    in their original order. *)
Fixpoint insert_desc (k : string) (sorted : list string) : list string :=
  match sorted with
  | [] => [k]
  | k' :: rest =>
      if String.leb k' k then k :: sorted else k' :: insert_desc k rest
  end.

Definition sorted_desc (keys : list string) : list string :=
  fold_right insert_desc [] keys.

(** The comprehension reads [papers[paper_id]] for keys taken from
    [papers] itself, so the lookup cannot miss. *)
Definition sort_papers_by_id_desc (papers : entries) : entries :=
  let sorted_paper_ids := sorted_desc (dict_keys papers) in
  fold_left
    (fun acc paper_id =>
       match dict_get papers paper_id with
       | Some text => dict_set acc paper_id text
       | None => acc
       end)
    sorted_paper_ids [].

(** *** Code-link lookup *)

(** The body of the [try] of [fetch_daily_arxiv_papers]: the value left
    in [code_url], or the exception raised on the way. *)
Definition fetch_try (outcome : result http_response) : result (option json) :=
  bind outcome (fun response =>
  bind (raise_for_status response) (fun _ =>
  bind (response_json response) (fun pwc_data =>
  bind (json_contains "official" pwc_data) (fun has_official =>
  if has_official
  then bind (json_getitem pwc_data "official") (fun official =>
       if json_truthy official
       then bind (json_getitem official "url") (fun url => inr (Some url))
       else inr None)
  else inr None)))).

(** [try ... except Exception]: an exception leaves [code_url] at [None]. *)
Definition fetch_code_url (outcome : result http_response) : option json :=
  match fetch_try outcome with
  | inr code_url => code_url
  | inl _ => None
  end.

Definition code_url_truthy (code_url : option json) : bool :=
  match code_url with
  | Some v => json_truthy v
  | None => false
  end.

(** *** Identifier normalisation *)

Definition clean_id (raw_paper_id : string) : string :=
  let version_pos := PyStr.find raw_paper_id "v" in
  if negb (version_pos =? -1)%Z
  then PyStr.slice_to raw_paper_id version_pos
  else raw_paper_id.

(** *** Item fetcher *)

(** The fields of a search result that the fetcher reads.  The two dates
    are the texts that formatting [paper.published.date()] and
    [paper.updated.date()] gives. *)
Record paper : Type := {
  short_id : string;
  title : string;
  entry_id : string;
  summary : string;
  authors : list string;
  primary_category : string;
  published : string;
  updated : string;
  comment : option string
}.

Section Fetch.
(** The answer of the service to a GET of a URL: an exception raised by
    [requests.get], or a response. *)
Variable requests_get : string -> result http_response.
(** [str(v)] for a JSON value that is not a string. *)
Variable str_of_json : json -> string.
(** The items [arxiv.Search(...).results()] yields for a query and a
    maximum count, and the exception that ends the iteration, if any. *)
Variable arxiv_results : string -> Z -> list paper * option exn.

Definition format_value (v : option json) : string :=
  match v with
  | Some (JStr s) => s
  | Some v' => str_of_json v'
  | None => "None"
  end.

Definition table_row_of (update_date paper_title first_author clean_paper_id
    clean_arxiv_url : string) (code_url : option json) : string :=
  if code_url_truthy code_url
  then "|**" ++ update_date ++ "**|**" ++ paper_title ++ "**|" ++ first_author
       ++ "|[" ++ clean_paper_id ++ "](" ++ clean_arxiv_url ++ ")|**[link]("
       ++ format_value code_url ++ ")**|" ++ nl
  else "|**" ++ update_date ++ "**|**" ++ paper_title ++ "**|" ++ first_author
       ++ "|[" ++ clean_paper_id ++ "](" ++ clean_arxiv_url ++ ")|null|" ++ nl.

Definition list_item_of (update_date paper_title first_author
    clean_arxiv_url : string) (code_url : option json)
    (paper_comments : option string) : string :=
  let list_item :=
    if code_url_truthy code_url
    then "- " ++ update_date ++ ", **" ++ paper_title ++ "**, " ++ first_author
         ++ ", Paper: [" ++ clean_arxiv_url ++ "](" ++ clean_arxiv_url
         ++ "), Code: **[" ++ format_value code_url ++ "]("
         ++ format_value code_url ++ ")**"
    else "- " ++ update_date ++ ", **" ++ paper_title ++ "**, " ++ first_author
         ++ ", Paper: [" ++ clean_arxiv_url ++ "](" ++ clean_arxiv_url ++ ")" in
  match paper_comments with
  | Some c => if PyStr.truthy c then list_item ++ ", " ++ c ++ nl
              else list_item ++ nl
  | None => list_item ++ nl
  end.

(** The body of the loop over the search results, on the pair
    [(markdown_table_data, markdown_list_data)]. *)
Definition fetch_item (acc : entries * entries) (p : paper)
  : entries * entries :=
  let raw_paper_id := short_id p in
  let paper_title := title p in
  let first_author := format_authors (authors p) true in
  let update_date := updated p in
  let paper_comments := comment p in
  let clean_paper_id := clean_id raw_paper_id in
  let clean_arxiv_url := ARXIV_BASE_URL ++ "abs/" ++ clean_paper_id in
  let papers_with_code_api := PAPERS_WITH_CODE_BASE_URL ++ clean_paper_id in
  let code_url := fetch_code_url (requests_get papers_with_code_api) in
  let table_row :=
    table_row_of update_date paper_title first_author clean_paper_id
      clean_arxiv_url code_url in
  let list_item :=
    list_item_of update_date paper_title first_author clean_arxiv_url
      code_url paper_comments in
  (dict_set (fst acc) clean_paper_id table_row,
   dict_set (snd acc) clean_paper_id list_item).

Definition fetch_daily_arxiv_papers (topic search_query : string)
    (max_results : Z) : result (document * document) :=
  let '(found, failure) := arxiv_results search_query max_results in
  let '(markdown_table_data, markdown_list_data) :=
    fold_left fetch_item found ([], []) in
  match failure with
  | Some e => inl e
  | None => inr ([(topic, markdown_table_data)], [(topic, markdown_list_data)])
  end.
End Fetch.

(** *** Record store: code-link backfill *)

(** The group of a match of [\[(.*?)\]] that begins right after an
    opening bracket: the characters up to the next closing bracket, none
    of them a newline. *)
Fixpoint until_close (s group : string) : option string :=
  match s with
  | EmptyString => None
  | String c s' =>
      if Ascii.eqb c "]" then Some group
      else if Ascii.eqb c PyStr.NEWLINE then None
      else until_close s' (group ++ String c "")
  end.

(** The first element of [re.findall(r'\[(.*?)\]', s)], if there is one. *)
Fixpoint first_bracketed (s : string) : option string :=
  match s with
  | EmptyString => None
  | String c s' =>
      if Ascii.eqb c "["
      then match until_close s' "" with
           | Some group => Some group
           | None => first_bracketed s'
           end
      else first_bracketed s'
  end.

Definition starts_with_digit (s : string) : bool :=
  match s with
  | String d _ => PyStr.isdigit d
  | EmptyString => false
  end.

(** [re.sub(r'v\d+', '', s)]: every [v] followed by digits goes, with its
    digits.  [eating] holds while the digits of a match are being passed. *)
Fixpoint sub_version_go (s : string) (eating : bool) : string :=
  match s with
  | EmptyString => EmptyString
  | String c s' =>
      if eating && PyStr.isdigit c then sub_version_go s' true
      else if Ascii.eqb c "v" && starts_with_digit s' then sub_version_go s' true
      else String c (sub_version_go s' false)
  end.

Definition sub_version (s : string) : string := sub_version_go s false.

Definition parse_paper_info_from_markdown (markdown_row : string)
  : result (string * string * string * string * string) :=
  let parts := map PyStr.strip (PyStr.split_char "|" markdown_row) in
  bind (getitem parts 1) (fun update_date =>
  bind (getitem parts 2) (fun title =>
  bind (getitem parts 3) (fun authors =>
  bind (getitem parts 4) (fun id_cell =>
  bind (match first_bracketed id_cell with
        | Some group => inr group
        | None => inl IndexError
        end) (fun bracketed =>
  let paper_id := sub_version bracketed in
  bind (getitem parts 5) (fun code_link =>
  inr (update_date, title, authors, paper_id, code_link))))))).

(** The body of the [try] of [update_paper_code_links]: the rewritten row
    when an official link is reported, [None] when the row stays. *)
Definition backfill_try (str_of_json : json -> string)
    (outcome : result http_response) (markdown_row : string)
  : result (option string) :=
  bind outcome (fun response =>
  bind (raise_for_status response) (fun _ =>
  bind (response_json response) (fun pwc_data =>
  bind (json_contains "official" pwc_data) (fun has_official =>
  if has_official
  then bind (json_getitem pwc_data "official") (fun official =>
       if json_truthy official
       then bind (json_getitem official "url") (fun url =>
            let new_code_link :=
              "**[link](" ++ match url with
                             | JStr u => u
                             | _ => str_of_json url
                             end ++ ")**" in
            inr (Some (PyStr.replace markdown_row "|null|"
                         ("|" ++ new_code_link ++ "|"))))
       else inr None)
  else inr None)))).

Section Backfill.
Variable requests_get : string -> result http_response.
Variable str_of_json : json -> string.

(** The state of the pass: the URLs requested so far, latest first, and
    the document being patched. *)
Definition backfill_state : Type := (list string * document)%type.

(** [paper_data[topic][paper_id] = new_markdown_row] *)
Definition set_entry (doc : document) (topic paper_id row : string)
  : document :=
  match dict_get doc topic with
  | Some papers => dict_set doc topic (dict_set papers paper_id row)
  | None => doc
  end.

(** The body of the inner loop, for one entry of one topic. *)
Definition backfill_entry (topic : string) (st : backfill_state)
    (entry : string * string) : result backfill_state :=
  let '(requested, paper_data) := st in
  let '(paper_id, markdown_row) := entry in
  bind (parse_paper_info_from_markdown markdown_row) (fun info =>
  let '(_, _, _, clean_paper_id, old_code_link) := info in
  if String.eqb old_code_link "null"
  then
    let pwc_api := PAPERS_WITH_CODE_BASE_URL ++ clean_paper_id in
    let requested := pwc_api :: requested in
    match backfill_try str_of_json (requests_get pwc_api) markdown_row with
    | inr (Some new_markdown_row) =>
        inr (requested, set_entry paper_data topic paper_id new_markdown_row)
    | inr None => inr (requested, paper_data)
    | inl _ => inr (requested, paper_data)
    end
  else inr (requested, paper_data)).

(** A loop whose body can raise: the first exception ends it. *)
Fixpoint for_each {A S : Type} (body : S -> A -> result S) (l : list A)
    (st : S) : result S :=
  match l with
  | [] => inr st
  | a :: l' => bind (body st a) (for_each body l')
  end.

Definition backfill_topic (st : backfill_state) (tp : string * entries)
  : result backfill_state :=
  let '(topic, papers) := tp in
  for_each (backfill_entry topic) papers st.

(** The two nested loops, over the items of the document as loaded:
    the pass rebinds values only, so the keys visited are those. *)
Definition backfill_document (requested : list string) (paper_data : document)
  : result backfill_state :=
  for_each backfill_topic paper_data (requested, paper_data).
End Backfill.

(** *** Record store: merge *)

(** The body of the inner loop of [update_papers_json_file].  A topic
    that is new to the store is bound to the mapping of the batch itself,
    not to a copy; the mappings of a batch are separate objects, each
    built by its own fetch, so the store read after the merge is the one
    computed here. *)
Definition merge_topic (existing_data : document) (tp : string * entries)
  : document :=
  let '(topic, new_papers) := tp in
  match dict_get existing_data topic with
  | Some stored => dict_set existing_data topic (dict_update stored new_papers)
  | None => dict_set existing_data topic new_papers
  end.

Definition merge_batch (existing_data : document)
    (new_papers_data : list document) : document :=
  fold_left
    (fun acc new_topic_data => fold_left merge_topic new_topic_data acc)
    new_papers_data existing_data.

(** *** Renderer *)

(** The closing dollar of a match of [\$.*\$] whose opening dollar has just
    been read: the offset in [s] of the last dollar before the first
    newline ([.*] is greedy and does not cross a newline).  [i] is the
    offset of the head of [s], [best] the last dollar seen. *)
Fixpoint last_dollar (s : string) (i : nat) (best : option nat) : option nat :=
  match s with
  | EmptyString => best
  | String c s' =>
      if Ascii.eqb c PyStr.NEWLINE then best
      else last_dollar s' (S i) (if Ascii.eqb c "$" then Some i else best)
  end.

(** [re.search(r"\$.*\$", text).span()]: the leftmost dollar that has
    another one after it on its line, through the last dollar of that
    line.  [pos] is the offset of the head of [text]. *)
Fixpoint search_formula (text : string) (pos : nat) : option (nat * nat) :=
  match text with
  | EmptyString => None
  | String c text' =>
      if Ascii.eqb c "$"
      then match last_dollar text' 0 None with
           | Some j => Some (pos, pos + j + 2)
           | None => search_formula text' (S pos)
           end
      else search_formula text' (S pos)
  end.

(** [text[i] not in (" ", "*")] *)
Definition not_space_or_star (c : ascii) : bool :=
  negb (Ascii.eqb c " " || Ascii.eqb c "*").

Definition format_latex_formula (text : string) : string :=
  match search_formula text 0 with
  | None => text
  | Some (formula_start, formula_end) =>
      let group := substring formula_start (formula_end - formula_start) text in
      let trailing_space :=
        if (0 <? formula_start)%nat
        then match String.get (formula_start - 1) text with
             | Some c => if not_space_or_star c then " " else ""
             | None => ""
             end
        else "" in
      let leading_space :=
        if (formula_end <? String.length text)%nat
        then match String.get formula_end text with
             | Some c => if not_space_or_star c then " " else ""
             | None => ""
             end
        else "" in
      PyStr.take formula_start text
      ++ trailing_space ++ "$"
      ++ PyStr.strip (substring 1 (String.length group - 2) group)
      ++ "$" ++ leading_space
      ++ PyStr.drop formula_end text
  end.

Definition toc_entry (topic : string) : string :=
  let topic_link := PyStr.lower (PyStr.replace_char " " "-" topic) in
  "    <li><a href=#" ++ topic_link ++ ">" ++ topic ++ "</a></li>" ++ nl.

Definition table_of_contents (paper_data : document) : string :=
  "<details>" ++ nl ++ "  <summary>Table of Contents</summary>" ++ nl
  ++ "  <ol>" ++ nl
  ++ String.concat "" (map toc_entry (dict_keys paper_data))
  ++ "  </ol>" ++ nl ++ "</details>" ++ nl ++ nl.

Definition table_header (to_web use_title : bool) : string :=
  if use_title && negb to_web
  then "|Publish Date|Title|Authors|PDF|Code|" ++ nl
       ++ "|---|---|---|---|---|" ++ nl
  else if use_title && to_web
  then "| Publish Date | Title | Authors | PDF | Code |" ++ nl
       ++ "|:---------|:-----------------------|:---------|:------|:------|"
       ++ nl
  else "".

Definition render_entry (entry : string * string) : string :=
  let markdown_content := snd entry in
  if PyStr.truthy markdown_content
  then format_latex_formula markdown_content
  else "".

(** What the loop over the topics writes for one topic. *)
Definition render_topic (to_web use_title use_back_to_top : bool)
    (current_date : string) (tp : string * entries) : string :=
  let '(topic, papers) := tp in
  match papers with
  | [] => ""
  | _ :: _ =>
      "## " ++ topic ++ nl ++ nl
      ++ table_header to_web use_title
      ++ String.concat "" (map render_entry (sort_papers_by_id_desc papers))
      ++ nl
      ++ (if use_back_to_top
          then let top_link :=
                 "#updated-on-" ++ PyStr.replace_char "." "" current_date in
               "<p align=right>(<a href=" ++ top_link ++ ">back to top</a>)</p>"
               ++ nl ++ nl
          else "")
  end.

Definition badge_template : string :=
  "[contributors-shield]: https://img.shields.io/github/contributors/Vincentqyw/cv-arxiv-daily.svg?style=for-the-badge" ++ nl
  ++ "[contributors-url]: https://github.com/Vincentqyw/cv-arxiv-daily/graphs/contributors" ++ nl
  ++ "[forks-shield]: https://img.shields.io/github/forks/Vincentqyw/cv-arxiv-daily.svg?style=for-the-badge" ++ nl
  ++ "[forks-url]: https://github.com/Vincentqyw/cv-arxiv-daily/network/members" ++ nl
  ++ "[stars-shield]: https://img.shields.io/github/stars/Vincentqyw/cv-arxiv-daily.svg?style=for-the-badge" ++ nl
  ++ "[stars-url]: https://github.com/Vincentqyw/cv-arxiv-daily/stargazers" ++ nl
  ++ "[issues-shield]: https://img.shields.io/github/issues/Vincentqyw/cv-arxiv-daily.svg?style=for-the-badge" ++ nl
  ++ "[issues-url]: https://github.com/Vincentqyw/cv-arxiv-daily/issues" ++ nl ++ nl.

(** Everything [convert_json_to_markdown] writes to the Markdown file, in
    order, for the document it has loaded and the date of the day. *)
Definition render_markdown (paper_data : document) (current_date : string)
    (to_web use_title use_toc show_badge use_back_to_top : bool) : string :=
  (if to_web && use_title
   then "---" ++ nl ++ "layout: default" ++ nl ++ "---" ++ nl ++ nl
   else "")
  ++ (if use_title
      then "## Updated on " ++ current_date ++ nl
      else "> Updated on " ++ current_date ++ nl)
  ++ "> Usage instructions: [here](./docs/README.md#usage)" ++ nl ++ nl
  ++ (if use_toc then table_of_contents paper_data else "")
  ++ String.concat ""
       (map (render_topic to_web use_title use_back_to_top current_date)
            paper_data)
  ++ (if show_badge then badge_template else "").

(** *** Files *)

(** The files of the run, by path.  Reading a path that has no file
    raises, as [open(path, "r")] does. *)
Definition file_system : Type := string -> option string.

Definition read_file (fs : file_system) (path : string) : result string :=
  match fs path with
  | Some content => inr content
  | None => inl FileNotFoundError
  end.

(** The files once [content] has been written to [path]. *)
Definition put_file (fs : file_system) (path content : string)
  : file_system :=
  fun p => if String.eqb p path then Some content else fs p.

(** [open(path, "w")] and the write.  Opening a path for writing raises
    when its directory is missing or the path cannot be written:
    [write_error path] is that exception, if any, and the files are then
    as they were. *)
Definition write_file (write_error : string -> option exn)
    (fs : file_system) (path content : string) : result file_system :=
  match write_error path with
  | Some e => inl e
  | None => inr (put_file fs path content)
  end.

Section Files.
(** [json.loads] on the text of a store document and
    [json.dumps(_, indent=2)]. *)
Variable json_loads : string -> result document.
Variable json_dumps : document -> string.
Variable requests_get : string -> result http_response.
Variable str_of_json : json -> string.
Variable write_error : string -> option exn.

(** The three readers open the file and take an empty text for the
    empty document: [json.loads(content) if content else {}]. *)
Definition load_store (fs : file_system) (json_file_path : string)
  : result document :=
  bind (read_file fs json_file_path) (fun content =>
  if PyStr.truthy content then json_loads content else inr []).

Definition update_papers_json_file (fs : file_system)
    (json_file_path : string) (new_papers_data : list document)
  : result file_system :=
  bind (load_store fs json_file_path) (fun existing_data =>
  write_file write_error fs json_file_path
    (json_dumps (merge_batch existing_data new_papers_data))).

Definition update_paper_code_links (fs : file_system)
    (json_file_path : string) : result file_system :=
  bind (load_store fs json_file_path) (fun paper_data =>
  bind (backfill_document requests_get str_of_json [] paper_data)
    (fun st =>
  write_file write_error fs json_file_path (json_dumps (snd st)))).

(** The Markdown file is opened for writing once the store has been
    read. *)
Definition convert_json_to_markdown (fs : file_system)
    (json_file_path md_file_path current_date : string)
    (to_web use_title use_toc show_badge use_back_to_top : bool)
  : result file_system :=
  bind (load_store fs json_file_path) (fun paper_data =>
  write_file write_error fs md_file_path
    (render_markdown paper_data current_date to_web use_title use_toc
       show_badge use_back_to_top)).
End Files.

(** *** Specification-side vocabulary

    The definitions below come from the wording of the specification, not
    from the code; the theorems compare the code with them. *)

(** How the keyword formatter is said to emit one phrase: in double
    quotes when it splits into several words, bare otherwise. *)
Definition format_phrase (phrase : string) : string :=
  if (1 <? List.length (PyStr.split_ws phrase))%nat
  then QUOTE ++ phrase ++ QUOTE
  else phrase.

(** The phrase has a character that is not whitespace. *)
Fixpoint has_word (s : string) : bool :=
  match s with
  | EmptyString => false
  | String c s' => negb (PyStr.isspace c) || has_word s'
  end.

(** The character [c] occurs in [s]. *)
Fixpoint occurs (c : ascii) (s : string) : bool :=
  match s with
  | EmptyString => false
  | String c' s' => Ascii.eqb c' c || occurs c s'
  end.

(** The last character of [s]. *)
Fixpoint last_char (s : string) : option ascii :=
  match s with
  | EmptyString => None
  | String c EmptyString => Some c
  | String _ s' => last_char s'
  end.

(** The space to put before the opening dollar, after the text [pre]. *)
Definition space_before (pre : string) : string :=
  match last_char pre with
  | Some c => if not_space_or_star c then " " else ""
  | None => ""
  end.

(** The space to put after the closing dollar, before the text [post]. *)
Definition space_after (post : string) : string :=
  match post with
  | String c _ => if not_space_or_star c then " " else ""
  | EmptyString => ""
  end.

(** A dollar occurs in [s] before its first newline. *)
Fixpoint dollar_on_first_line (s : string) : bool :=
  match s with
  | EmptyString => false
  | String c s' =>
      if Ascii.eqb c PyStr.NEWLINE then false
      else Ascii.eqb c "$" || dollar_on_first_line s'
  end.

(** The text that one mapping of the batch, then a whole batch, gives to
    identifier [paper_id] of [topic], over the text [cur] held before. *)
Definition overlay_topic (topic paper_id : string) (cur : option string)
    (tp : string * entries) : option string :=
  if String.eqb (fst tp) topic
  then match dict_get (snd tp) paper_id with
       | Some text => Some text
       | None => cur
       end
  else cur.

Definition overlay (topic paper_id : string) (cur : option string)
    (new_topic_data : document) : option string :=
  fold_left (overlay_topic topic paper_id) new_topic_data cur.

(** Some mapping of the batch has an entry for [paper_id] under [topic]. *)
Definition mentions (batch : list document) (topic paper_id : string) : Prop :=
  exists new_topic_data new_papers text,
    In new_topic_data batch
    /\ In (topic, new_papers) new_topic_data
    /\ In (paper_id, text) new_papers.

(** A response that reports no official link: status 200, body [{}]. *)
Definition no_link_response : http_response :=
  {| status_ok := true; body := Some (JObj []) |}.

(** The service [requests_get] with every answer on which the lookup
    raises replaced by [no_link_response]. *)
Definition quiet (requests_get : string -> result http_response)
  : string -> result http_response :=
  fun url =>
    match fetch_try (requests_get url) with
    | inl _ => inr no_link_response
    | inr _ => requests_get url
    end.

(** What the backfill makes of one stored row: the row rewritten when its
    code-link cell is the sentinel and an official link is reported, the
    row itself otherwise. *)
Definition patch_row (requests_get : string -> result http_response)
    (str_of_json : json -> string) (markdown_row : string) : string :=
  match parse_paper_info_from_markdown markdown_row with
  | inr (_, _, _, clean_paper_id, old_code_link) =>
      if String.eqb old_code_link "null"
      then match backfill_try str_of_json
                   (requests_get (PAPERS_WITH_CODE_BASE_URL ++ clean_paper_id))
                   markdown_row with
           | inr (Some new_markdown_row) => new_markdown_row
           | _ => markdown_row
           end
      else markdown_row
  | inl _ => markdown_row
  end.

(** The request the backfill sends for one stored row: one when the
    code-link cell is the sentinel, none otherwise. *)
Definition row_requests (markdown_row : string) : list string :=
  match parse_paper_info_from_markdown markdown_row with
  | inr (_, _, _, clean_paper_id, old_code_link) =>
      if String.eqb old_code_link "null"
      then [PAPERS_WITH_CODE_BASE_URL ++ clean_paper_id]
      else []
  | inl _ => []
  end.

Definition patch_entries (requests_get : string -> result http_response)
    (str_of_json : json -> string) (papers : entries) : entries :=
  map (fun entry => (fst entry, patch_row requests_get str_of_json (snd entry)))
      papers.

Definition patch_document (requests_get : string -> result http_response)
    (str_of_json : json -> string) (paper_data : document) : document :=
  map (fun tp => (fst tp, patch_entries requests_get str_of_json (snd tp)))
      paper_data.

Definition entries_requests (papers : entries) : list string :=
  flat_map (fun entry => row_requests (snd entry)) papers.

Definition document_requests (paper_data : document) : list string :=
  flat_map (fun tp => entries_requests (snd tp)) paper_data.

Definition entries_parse (papers : entries) : bool :=
  forallb (fun entry => succeeded (parse_paper_info_from_markdown (snd entry)))
          papers.

Definition document_parses (paper_data : document) : bool :=
  forallb (fun tp => entries_parse (snd tp)) paper_data.

(** The text put for a reported link value. *)
Definition link_text (str_of_json : json -> string) (url : json) : string :=
  match url with
  | JStr u => u
  | _ => str_of_json url
  end.

(** The code-link cell of a table row that holds a link. *)
Definition link_cell (str_of_json : json -> string) (url : json) : string :=
  "|**[link](" ++ link_text str_of_json url ++ ")**|".

(** *** Configuration and workflow *)

(** [process_config_keywords]: the search string of every topic of
    [config["keywords"]], each topic given by its list of filters. *)
Definition process_config_keywords (keywords : dict (list string))
  : dict string :=
  fold_left
    (fun formatted_keywords topic_config =>
       dict_set formatted_keywords (fst topic_config)
         (parse_filter_keywords (snd topic_config)))
    keywords [].

(** The keys [main_workflow] reads from the configuration. *)
Record config : Type := {
  formatted_keywords : dict string;
  max_results : Z;
  update_paper_links : bool;
  publish_readme : bool;
  publish_gitpage : bool;
  publish_wechat : bool;
  show_badge : bool;
  json_readme_path : string;
  md_readme_path : string;
  json_gitpage_path : string;
  md_gitpage_path : string;
  json_wechat_path : string;
  md_wechat_path : string
}.

Section Workflow.
Variable json_loads : string -> result document.
Variable json_dumps : document -> string.
Variable requests_get : string -> result http_response.
Variable str_of_json : json -> string.
Variable arxiv_results : string -> Z -> list paper * option exn.
Variable write_error : string -> option exn.

(** The loop over the topics of step 1: the tables and the lists of the
    topics fetched, in order; the first exception ends it. *)
Fixpoint fetch_topics (keywords : list (string * string)) (count : Z)
  : result (list document * list document) :=
  match keywords with
  | [] => inr ([], [])
  | (topic, search_query) :: rest =>
      bind (fetch_daily_arxiv_papers requests_get str_of_json arxiv_results
              topic search_query count) (fun data =>
      bind (fetch_topics rest count) (fun more =>
      inr (fst data :: fst more, snd data :: snd more)))
  end.

(** One of the steps 2 to 4: the store of the target is merged or
    backfilled, then rendered.  The result is the files as the step
    leaves them and the exception that ended it, if any. *)
Definition run_target (fs : file_system) (update_only_links : bool)
    (json_path md_path : string) (new_data : list document)
    (current_date : string)
    (to_web use_title use_toc badge use_back_to_top : bool)
  : file_system * option exn :=
  match (if update_only_links
         then update_paper_code_links json_loads json_dumps requests_get
                str_of_json write_error fs json_path
         else update_papers_json_file json_loads json_dumps write_error fs
                json_path new_data) with
  | inl e => (fs, Some e)
  | inr fs1 =>
      match convert_json_to_markdown json_loads write_error fs1 json_path
              md_path current_date to_web use_title use_toc badge
              use_back_to_top with
      | inl e => (fs1, Some e)
      | inr fs2 => (fs2, None)
      end
  end.

(** [main_workflow], with the date each rendering reads from the clock. *)
Definition main_workflow (cfg : config) (fs : file_system)
    (date_readme date_gitpage date_wechat : string)
  : file_system * option exn :=
  let update_only_links := update_paper_links cfg in
  match (if negb update_only_links
         then fetch_topics (formatted_keywords cfg) (max_results cfg)
         else inr ([], [])) with
  | inl e => (fs, Some e)
  | inr (new_table_data, new_list_data) =>
      let step1 :=
        if publish_readme cfg
        then run_target fs update_only_links (json_readme_path cfg)
               (md_readme_path cfg) new_table_data date_readme
               false true true (show_badge cfg) true
        else (fs, None) in
      match snd step1 with
      | Some e => (fst step1, Some e)
      | None =>
          let step2 :=
            if publish_gitpage cfg
            then run_target (fst step1) update_only_links
                   (json_gitpage_path cfg) (md_gitpage_path cfg)
                   new_table_data date_gitpage
                   true true false (show_badge cfg) false
            else (fst step1, None) in
          match snd step2 with
          | Some e => (fst step2, Some e)
          | None =>
              if publish_wechat cfg
              then run_target (fst step2) update_only_links
                     (json_wechat_path cfg) (md_wechat_path cfg)
                     new_list_data date_wechat
                     false false false (show_badge cfg) false
              else (fst step2, None)
          end
      end
  end.
End Workflow.

(** *** Vocabulary of the further properties *)

(** The characters of [s] that are not whitespace, in order. *)
Definition visible (s : string) : list ascii :=
  filter (fun c => negb (PyStr.isspace c)) (list_ascii_of_string s).

End Arxiv.

(** * Properties *)

Import Py Arxiv.

(** ** Strings *)

Lemma append_nil_r (s : string) : s ++ "" = s.
Proof. induction s as [|c s IH]; simpl; [reflexivity | now rewrite IH]. Qed.

Lemma append_assoc (a b c : string) : (a ++ b) ++ c = a ++ b ++ c.
Proof. induction a as [|x a IH]; simpl; [reflexivity | now rewrite IH]. Qed.

Lemma length_append (a b : string) :
  String.length (a ++ b) = String.length a + String.length b.
Proof. induction a as [|x a IH]; simpl; [reflexivity | now rewrite IH]. Qed.

Lemma prefix_char (c x : ascii) (s : string) :
  prefix (String c "") (String x s) = Ascii.eqb x c.
Proof.
  simpl. destruct (ascii_dec c x) as [->|Hne].
  - rewrite Ascii.eqb_refl. now destruct s.
  - symmetry. apply Ascii.eqb_neq. congruence.
Qed.

(** ** Identifier normalisation *)

(** [find] answers [-1] or an offset, and the text before that offset has
    no occurrence of the character. *)
Lemma find_char_take (c : ascii) (s : string) (i : Z) :
  PyStr.find_from (String c "") s i = (-1)%Z
  \/ exists n : nat,
       PyStr.find_from (String c "") s i = (i + Z.of_nat n)%Z
       /\ forall j, PyStr.find_from (String c "") (PyStr.take n s) j = (-1)%Z.
Proof.
  revert i. induction s as [|x s IH]; intros i.
  - left. reflexivity.
  - cbn [PyStr.find_from]. rewrite prefix_char.
    destruct (Ascii.eqb x c) eqn:Hx.
    + right. exists 0%nat. split; [lia | reflexivity].
    + destruct (IH (i + 1)%Z) as [Hnone | (n & Hn & Htake)].
      * left. exact Hnone.
      * right. exists (S n). split; [lia |].
        intros j. cbn [PyStr.take PyStr.find_from].
        rewrite prefix_char, Hx. apply Htake.
Qed.

Lemma clean_id_without_v (s : string) :
  PyStr.find s "v" = (-1)%Z -> clean_id s = s.
Proof. intros H. unfold clean_id. now rewrite H. Qed.

Lemma find_char_first (c : ascii) (base rest : string) (i : Z) :
  occurs c base = false ->
  PyStr.find_from (String c "") (base ++ String c rest) i
  = (i + Z.of_nat (String.length base))%Z.
Proof.
  revert i. induction base as [|x base IH]; intros i Hbase;
    cbn [append PyStr.find_from String.length].
  - rewrite prefix_char, Ascii.eqb_refl. lia.
  - cbn [occurs] in Hbase. apply orb_false_iff in Hbase as [Hx Hbase].
    rewrite prefix_char, Hx, IH by assumption. lia.
Qed.

Lemma find_char_absent (c : ascii) (s : string) (i : Z) :
  occurs c s = false -> PyStr.find_from (String c "") s i = (-1)%Z.
Proof.
  revert i. induction s as [|x s IH]; intros i Hs; [reflexivity |].
  cbn [occurs] in Hs. apply orb_false_iff in Hs as [Hx Hs].
  cbn [PyStr.find_from]. rewrite prefix_char, Hx. now apply IH.
Qed.

(** On an identifier whose only [v] is the version marker, the cut at
    the first [v] is the removal of the version suffix. *)
Lemma clean_id_strips_version (base version : string) :
  occurs "v" base = false ->
  clean_id (base ++ "v" ++ version) = base
  /\ clean_id base = base.
Proof.
  intros Hbase. split.
  - unfold clean_id, PyStr.find.
    change (base ++ "v" ++ version) with (base ++ String "v" version).
    rewrite (find_char_first "v" base version 0 Hbase).
    replace (negb (0 + Z.of_nat (String.length base) =? -1)%Z) with true
      by (symmetry; apply negb_true_iff, Z.eqb_neq; lia).
    unfold PyStr.slice_to.
    replace (0 + Z.of_nat (String.length base) <? 0)%Z with false
      by (symmetry; apply Z.ltb_ge; lia).
    rewrite Z.add_0_l, Nat2Z.id.
    clear Hbase. induction base as [|x base IH]; cbn; [reflexivity |].
    now rewrite IH.
  - apply clean_id_without_v. now apply find_char_absent.
Qed.

(** C9. Identifier normalisation is idempotent: normalising a normalised
    identifier changes nothing; [2108.09112v2] gives [2108.09112], and
    [2108.09112] gives itself. *)
Theorem clean_id_idempotent :
  (forall raw_paper_id : string,
      clean_id (clean_id raw_paper_id) = clean_id raw_paper_id)
  /\ clean_id "2108.09112v2" = "2108.09112"
  /\ clean_id "2108.09112" = "2108.09112".
Proof.
  split; [| split; reflexivity].
  intros s.
  destruct (find_char_take "v" s 0) as [Hnone | (n & Hn & Htake)].
  - now rewrite !(clean_id_without_v s Hnone).
  - assert (Hs : clean_id s = PyStr.take n s).
    { unfold clean_id, PyStr.find. rewrite Hn.
      replace (negb (0 + Z.of_nat n =? -1)%Z) with true
        by (symmetry; apply negb_true_iff, Z.eqb_neq; lia).
      unfold PyStr.slice_to.
      replace (0 + Z.of_nat n <? 0)%Z with false
        by (symmetry; apply Z.ltb_ge; lia).
      now rewrite Z.add_0_l, Nat2Z.id. }
    rewrite Hs. apply clean_id_without_v, Htake.
Qed.

(** C5. The fetch cuts the identifier at its first [v], wherever it is:
    the identifier [solv-int/9901005v1] of the index does not lose its
    version suffix, it is cut down to [sol]. *)
Theorem clean_id_cuts_at_first_v :
  clean_id "solv-int/9901005v1" = "sol"
  /\ clean_id "solv-int/9901005" = "sol".
Proof. split; reflexivity. Qed.

(** ** Keyword formatter *)

Lemma parse_filter_loop_join (rest : list string) :
  forall (n idx : Z) (acc : string),
    (idx + Z.of_nat (List.length rest) = n)%Z ->
    parse_filter_loop n idx rest acc
    = acc ++ String.concat OR_SEPARATOR (map format_phrase rest).
Proof.
  induction rest as [|w rest IH]; intros n idx acc Hlen.
  - simpl. now rewrite append_nil_r.
  - cbn [parse_filter_loop]. rewrite (IH n (idx + 1)%Z).
    2:{ cbn [List.length] in Hlen. lia. }
    unfold parse_filter_step. fold (format_phrase w).
    assert (Hacc : (if (1 <? List.length (PyStr.split_ws w))%nat
                    then acc ++ QUOTE ++ w ++ QUOTE else acc ++ w)
                   = acc ++ format_phrase w).
    { unfold format_phrase.
      now destruct (1 <? List.length (PyStr.split_ws w))%nat. }
    rewrite Hacc. destruct rest as [|w' rest].
    + replace (idx =? n - 1)%Z with true
        by (symmetry; apply Z.eqb_eq; cbn [List.length] in Hlen; lia).
      simpl. now rewrite !append_nil_r.
    + replace (idx =? n - 1)%Z with false
        by (symmetry; apply Z.eqb_neq; cbn [List.length] in Hlen; lia).
      cbn [negb map String.concat]. now rewrite !append_assoc.
Qed.

Lemma split_ws_from_token (s tok : string) :
  PyStr.truthy tok = true ->
  (1 <= List.length (PyStr.split_ws_from s tok))%nat.
Proof.
  revert tok. induction s as [|c s IH]; intros tok Htok; simpl.
  - rewrite Htok. simpl. lia.
  - destruct (PyStr.isspace c).
    + rewrite Htok. simpl. lia.
    + apply IH. now destruct tok.
Qed.

Lemma split_ws_from_word (s tok : string) :
  has_word s = true ->
  (1 <= List.length (PyStr.split_ws_from s tok))%nat.
Proof.
  revert tok. induction s as [|c s IH]; intros tok Hs; simpl in *.
  - discriminate.
  - destruct (PyStr.isspace c); simpl in Hs.
    + destruct (PyStr.truthy tok); simpl; [lia | now apply IH].
    + apply split_ws_from_token. now destruct tok.
Qed.

Lemma split_ws_from_space (a b : string) (c : ascii) :
  PyStr.isspace c = true ->
  forall tok,
    PyStr.split_ws_from (a ++ String c b) tok
    = (PyStr.split_ws_from a tok ++ PyStr.split_ws_from b "")%list.
Proof.
  intros Hc. induction a as [|x a IH]; intros tok; simpl.
  - rewrite Hc. now destruct (PyStr.truthy tok).
  - destruct (PyStr.isspace x).
    + destruct (PyStr.truthy tok); simpl; now rewrite IH.
    + apply IH.
Qed.

Lemma format_phrase_internal_space (a b : string) :
  has_word a = true -> has_word b = true ->
  format_phrase (a ++ " " ++ b) = QUOTE ++ (a ++ " " ++ b) ++ QUOTE.
Proof.
  intros Ha Hb. unfold format_phrase, PyStr.split_ws.
  change (a ++ " " ++ b) with (a ++ String " " b).
  rewrite (split_ws_from_space a b " " eq_refl), length_app.
  pose proof (split_ws_from_word a "" Ha).
  pose proof (split_ws_from_word b "" Hb).
  replace (1 <? _)%nat with true; [reflexivity |].
  symmetry. apply Nat.ltb_lt. lia.
Qed.

(** C6, as the code has it.  The output is the phrases, each as
    [format_phrase] emits it, joined with [" OR "]; a phrase is put in one
    pair of double quotes exactly when it splits into more than one
    whitespace-separated word (so a phrase with a space between two words
    is quoted) and is emitted bare otherwise; one phrase gives no
    separator, no phrase gives the empty string, and [SLAM] and
    [3D reconstruction] give [SLAM OR "3D reconstruction"]. *)
Theorem parse_filter_keywords_join :
  (forall filters : list string,
      parse_filter_keywords filters
      = String.concat " OR " (map format_phrase filters))
  /\ (forall phrase : string,
         (1 < List.length (PyStr.split_ws phrase))%nat ->
         format_phrase phrase = QUOTE ++ phrase ++ QUOTE)
  /\ (forall phrase : string,
         (List.length (PyStr.split_ws phrase) <= 1)%nat ->
         format_phrase phrase = phrase)
  /\ (forall a b : string,
         has_word a = true -> has_word b = true ->
         format_phrase (a ++ " " ++ b) = QUOTE ++ (a ++ " " ++ b) ++ QUOTE)
  /\ (forall phrase : string,
         parse_filter_keywords [phrase] = format_phrase phrase)
  /\ parse_filter_keywords [] = ""
  /\ parse_filter_keywords ["SLAM"; "3D reconstruction"]
     = "SLAM OR " ++ QUOTE ++ "3D reconstruction" ++ QUOTE.
Proof.
  assert (Hjoin : forall filters,
             parse_filter_keywords filters
             = String.concat " OR " (map format_phrase filters)).
  { intros filters. unfold parse_filter_keywords.
    now rewrite (parse_filter_loop_join filters _ 0%Z "") by lia. }
  split; [exact Hjoin |].
  split.
  { intros phrase H. unfold format_phrase.
    now apply Nat.ltb_lt in H as ->. }
  split.
  { intros phrase H. unfold format_phrase.
    replace (1 <? _)%nat with false; [reflexivity |].
    symmetry. apply Nat.ltb_ge. exact H. }
  split; [exact format_phrase_internal_space |].
  split; [intros phrase; now rewrite Hjoin |].
  split; reflexivity.
Qed.

Lemma parse_filter_keywords_join_witness :
  (1 < List.length (PyStr.split_ws "3D reconstruction"))%nat
  /\ format_phrase "3D reconstruction" = QUOTE ++ "3D reconstruction" ++ QUOTE.
Proof.
  split.
  - simpl. lia.
  - apply (proj1 (proj2 parse_filter_keywords_join)). simpl. lia.
Defined.

(** C6, as stated, fails on its own example: [SLAM] is a single word and
    is not quoted.  A phrase with a space and a single word, [SLAM ]
    with a blank at its end, is not quoted either. *)
Lemma parse_filter_keywords_example_differs :
  parse_filter_keywords ["SLAM"; "3D reconstruction"]
  <> QUOTE ++ "SLAM" ++ QUOTE ++ " OR " ++ QUOTE ++ "3D reconstruction" ++ QUOTE
  /\ occurs " " "SLAM " = true
  /\ parse_filter_keywords ["SLAM "] = "SLAM ".
Proof. split; [discriminate | split; reflexivity]. Qed.

(** ** Dictionaries *)

Section DictFacts.
Context {V : Type}.
Implicit Types (d other : dict V) (k : string) (v : V).

Lemma dict_get_set_eq d k v : dict_get (dict_set d k v) k = Some v.
Proof.
  induction d as [|[k' v'] d IH]; simpl.
  - now rewrite String.eqb_refl.
  - destruct (String.eqb k' k) eqn:E; simpl; now rewrite E.
Qed.

Lemma dict_get_set_ne d k k' v :
  k <> k' -> dict_get (dict_set d k v) k' = dict_get d k'.
Proof.
  intros Hne. induction d as [|[k0 v0] d IH]; simpl.
  - now apply String.eqb_neq in Hne as ->.
  - destruct (String.eqb k0 k) eqn:E; simpl.
    + apply String.eqb_eq in E as ->.
      now apply String.eqb_neq in Hne as ->.
    + now rewrite IH.
Qed.

Lemma dict_keys_set d k v :
  dict_keys (dict_set d k v)
  = if dict_mem k d then dict_keys d else (dict_keys d ++ [k])%list.
Proof.
  unfold dict_mem. induction d as [|[k' v'] d IH]; simpl.
  - reflexivity.
  - destruct (String.eqb k' k) eqn:E; simpl; [reflexivity |].
    rewrite IH. now destruct (dict_get d k).
Qed.

Lemma dict_get_none d k : ~ In k (dict_keys d) -> dict_get d k = None.
Proof.
  induction d as [|[k' v'] d IH]; simpl; intros Hk; [reflexivity |].
  destruct (String.eqb_spec k' k) as [->|Hne]; [tauto |].
  apply IH. tauto.
Qed.

Lemma dict_get_in d k v : dict_get d k = Some v -> In (k, v) d.
Proof.
  induction d as [|[k' v'] d IH]; simpl; [discriminate |].
  destruct (String.eqb_spec k' k) as [->|Hne].
  - intros [= ->]. now left.
  - intros H. right. now apply IH.
Qed.

Lemma dict_get_some_key d k v : dict_get d k = Some v -> In k (dict_keys d).
Proof.
  intros H. apply dict_get_in in H.
  change k with (fst (k, v)). now apply in_map.
Qed.

(** [d.update(other)] read key by key. *)
Lemma dict_get_update other :
  wf_dict other ->
  forall d k,
    dict_get (dict_update d other) k
    = match dict_get other k with
      | Some v => Some v
      | None => dict_get d k
      end.
Proof.
  unfold wf_dict, dict_update.
  induction other as [|[k0 v0] other IH]; intros Hwf d k; simpl.
  - reflexivity.
  - inversion Hwf as [|? ? Hnotin Hwf']; subst.
    rewrite (IH Hwf').
    destruct (String.eqb_spec k0 k) as [->|Hne].
    + now rewrite (dict_get_none other k Hnotin), dict_get_set_eq.
    + now rewrite dict_get_set_ne.
Qed.
End DictFacts.

(** ** Record store: merge *)

Lemma lookup_entry_merge_topic (doc : document) (tp : string * entries)
    (topic paper_id : string) :
  wf_dict (snd tp) ->
  lookup_entry (merge_topic doc tp) topic paper_id
  = overlay_topic topic paper_id (lookup_entry doc topic paper_id) tp.
Proof.
  destruct tp as [t new_papers]. intros Hwf.
  unfold merge_topic, overlay_topic, lookup_entry. cbn [fst snd] in *.
  destruct (String.eqb_spec t topic) as [->|Hne].
  - destruct (dict_get doc topic) as [stored|] eqn:Hdoc.
    + now rewrite dict_get_set_eq, dict_get_update.
    + rewrite dict_get_set_eq. now destruct (dict_get new_papers paper_id).
  - destruct (dict_get doc t); now rewrite dict_get_set_ne.
Qed.

Lemma lookup_entry_merge_document (new_topic_data : document) :
  Forall (fun tp => wf_dict (snd tp)) new_topic_data ->
  forall (doc : document) (topic paper_id : string),
    lookup_entry (fold_left merge_topic new_topic_data doc) topic paper_id
    = overlay topic paper_id (lookup_entry doc topic paper_id) new_topic_data.
Proof.
  unfold overlay.
  induction new_topic_data as [|tp rest IH]; intros Hwf doc topic paper_id.
  - reflexivity.
  - inversion Hwf; subst. cbn [fold_left].
    rewrite IH by assumption. now rewrite lookup_entry_merge_topic.
Qed.

Lemma lookup_entry_merge_batch (batch : list document) :
  Forall wf_document batch ->
  forall (doc : document) (topic paper_id : string),
    lookup_entry (merge_batch doc batch) topic paper_id
    = fold_left (overlay topic paper_id) batch
        (lookup_entry doc topic paper_id).
Proof.
  unfold merge_batch.
  induction batch as [|d batch IH]; intros Hwf doc topic paper_id.
  - reflexivity.
  - inversion Hwf as [|? ? [_ Hd] Hrest]; subst. cbn [fold_left].
    rewrite IH by assumption. now rewrite lookup_entry_merge_document.
Qed.

Lemma overlay_keeps (topic paper_id : string) (new_topic_data : document) :
  forall cur, cur <> None ->
    overlay topic paper_id cur new_topic_data <> None.
Proof.
  unfold overlay.
  induction new_topic_data as [|tp rest IH]; intros cur Hcur; simpl.
  - exact Hcur.
  - apply IH. unfold overlay_topic.
    destruct (String.eqb (fst tp) topic); [| exact Hcur].
    now destruct (dict_get (snd tp) paper_id).
Qed.

Lemma overlay_unmentioned (topic paper_id : string) (new_topic_data : document) :
  (forall new_papers text,
      In (topic, new_papers) new_topic_data -> ~ In (paper_id, text) new_papers) ->
  forall cur, overlay topic paper_id cur new_topic_data = cur.
Proof.
  unfold overlay.
  induction new_topic_data as [|[t new_papers] rest IH]; intros Hno cur; simpl.
  - reflexivity.
  - rewrite IH by (intros; eapply Hno; right; eassumption).
    unfold overlay_topic. cbn [fst snd].
    destruct (String.eqb_spec t topic) as [->|Hne]; [| reflexivity].
    destruct (dict_get new_papers paper_id) as [text|] eqn:Hget; [| reflexivity].
    exfalso. apply (Hno new_papers text); [now left | now apply dict_get_in].
Qed.

Lemma overlay_batch_unmentioned (batch : list document) (topic paper_id : string) :
  ~ mentions batch topic paper_id ->
  forall cur, fold_left (overlay topic paper_id) batch cur = cur.
Proof.
  induction batch as [|d batch IH]; intros Hno cur; simpl.
  - reflexivity.
  - rewrite IH.
    + apply overlay_unmentioned. intros new_papers text Hin Hin'.
      apply Hno. exists d, new_papers, text. simpl. tauto.
    + intros (d' & new_papers & text & Hd' & H1 & H2).
      apply Hno. exists d', new_papers, text. simpl. tauto.
Qed.

Lemma overlay_batch_keeps (batch : list document) (topic paper_id : string) :
  forall cur, cur <> None ->
    fold_left (overlay topic paper_id) batch cur <> None.
Proof.
  induction batch as [|d batch IH]; intros cur Hcur; simpl.
  - exact Hcur.
  - apply IH. now apply overlay_keeps.
Qed.

Lemma overlay_mentioned (topic paper_id text : string)
    (new_topic_data : document) (new_papers : entries) :
  wf_dict new_topic_data ->
  dict_get new_topic_data topic = Some new_papers ->
  dict_get new_papers paper_id = Some text ->
  forall cur, overlay topic paper_id cur new_topic_data = Some text.
Proof.
  unfold overlay, wf_dict.
  induction new_topic_data as [|[t p] rest IH]; intros Hwf Ht Hp cur.
  - discriminate.
  - inversion Hwf as [|? ? Hnotin Hwf']; subst.
    cbn [fold_left]. cbn [dict_get] in Ht.
    unfold overlay_topic at 2. cbn [fst snd].
    destruct (String.eqb_spec t topic) as [->|Hne].
    + injection Ht as ->. rewrite Hp.
      apply (overlay_unmentioned topic paper_id rest).
      intros q text' Hin _. apply Hnotin.
      change topic with (fst (topic, q)). now apply in_map.
    + now apply IH.
Qed.

Lemma merge_topic_keeps_topic (doc : document) (tp : string * entries)
    (topic : string) :
  dict_get doc topic <> None -> dict_get (merge_topic doc tp) topic <> None.
Proof.
  destruct tp as [t new_papers]. unfold merge_topic. intros Hdoc.
  destruct (String.eqb_spec t topic) as [->|Hne].
  - destruct (dict_get doc topic); rewrite dict_get_set_eq; discriminate.
  - destruct (dict_get doc t); now rewrite dict_get_set_ne.
Qed.

Lemma merge_batch_keeps_topic (batch : list document) :
  forall (doc : document) (topic : string),
    dict_get doc topic <> None ->
    dict_get (merge_batch doc batch) topic <> None.
Proof.
  unfold merge_batch.
  induction batch as [|d batch IH]; intros doc topic Hdoc; cbn [fold_left].
  - exact Hdoc.
  - apply IH. clear IH. revert doc Hdoc.
    induction d as [|tp d IHd]; intros doc Hdoc; cbn [fold_left].
    + exact Hdoc.
    + apply IHd. now apply merge_topic_keeps_topic.
Qed.

(** C1. Merging a batch of mappings into a store document deletes
    nothing: a topic stays a topic and a stored identifier stays stored;
    an identifier of the batch ends with the text of the last mapping that
    carries it; and an identifier that no mapping of the batch carries
    under its topic, be the topic in the batch or not, keeps its text
    unchanged. *)
Theorem merge_batch_keeps_and_overwrites
    (existing_data : document) (new_papers_data : list document) :
  Forall wf_document new_papers_data ->
  let merged := merge_batch existing_data new_papers_data in
  (forall topic,
      dict_get existing_data topic <> None -> dict_get merged topic <> None)
  /\ (forall topic paper_id,
         lookup_entry existing_data topic paper_id <> None ->
         lookup_entry merged topic paper_id <> None)
  /\ (forall earlier new_topic_data later topic new_papers paper_id text,
         new_papers_data = (earlier ++ new_topic_data :: later)%list ->
         dict_get new_topic_data topic = Some new_papers ->
         dict_get new_papers paper_id = Some text ->
         ~ mentions later topic paper_id ->
         lookup_entry merged topic paper_id = Some text)
  /\ (forall topic paper_id,
         ~ mentions new_papers_data topic paper_id ->
         lookup_entry merged topic paper_id
         = lookup_entry existing_data topic paper_id).
Proof.
  intros Hwf merged. subst merged.
  split; [intros topic; apply merge_batch_keeps_topic |].
  split.
  { intros topic paper_id Hin.
    rewrite lookup_entry_merge_batch by assumption.
    now apply overlay_batch_keeps. }
  split.
  { intros earlier d later topic new_papers paper_id text -> Ht Hp Hlater.
    rewrite lookup_entry_merge_batch by assumption.
    rewrite fold_left_app. cbn [fold_left].
    rewrite (overlay_batch_unmentioned later topic paper_id Hlater).
    apply Forall_app in Hwf as [_ Hwf].
    inversion Hwf as [|? ? [Hd _] _]; subst.
    now apply (overlay_mentioned topic paper_id text d new_papers). }
  intros topic paper_id Hno.
  rewrite lookup_entry_merge_batch by assumption.
  now apply overlay_batch_unmentioned.
Qed.

Lemma merge_batch_keeps_and_overwrites_witness :
  Forall wf_document [[("A", [("2", "new"); ("3", "w")])]; [("C", [])]]
  /\ lookup_entry
       (merge_batch [("A", [("1", "x"); ("2", "y")]); ("B", [("9", "z")])]
          [[("A", [("2", "new"); ("3", "w")])]; [("C", [])]])
       "A" "2" = Some "new".
Proof.
  assert (Hwf : Forall wf_document
                  [[("A", [("2", "new"); ("3", "w")])]; [("C", [])]]).
  { unfold wf_document, wf_dict.
    repeat (constructor; simpl; try (intuition discriminate)). }
  split; [exact Hwf |].
  apply (proj1 (proj2 (proj2
           (merge_batch_keeps_and_overwrites
              [("A", [("1", "x"); ("2", "y")]); ("B", [("9", "z")])]
              [[("A", [("2", "new"); ("3", "w")])]; [("C", [])]] Hwf)))
         [] [("A", [("2", "new"); ("3", "w")])] [[("C", [])]]
         "A" [("2", "new"); ("3", "w")] "2" "new");
    try reflexivity.
  intros (d & new_papers & text & Hd & Ht & _).
  destruct Hd as [<- | []]. destruct Ht as [[=] | []].
Defined.

(** ** Store load *)

(** C3, as the code has it.  Each of the three readers takes an empty
    backing file for the empty document and raises nothing: the operation
    goes on to its write with the empty document.  An absent backing file
    makes [open] raise [FileNotFoundError], and each of the three
    operations ends with that exception, nothing written. *)
Theorem load_store_empty_or_absent
    (json_loads : string -> result document) (json_dumps : document -> string)
    (requests_get : string -> result http_response)
    (str_of_json : json -> string) (write_error : string -> option exn)
    (fs : file_system) (json_file_path : string) :
  (fs json_file_path = Some "" ->
   load_store json_loads fs json_file_path = inr []
   /\ (forall new_papers_data,
          update_papers_json_file json_loads json_dumps write_error fs
            json_file_path new_papers_data
          = write_file write_error fs json_file_path
              (json_dumps (merge_batch [] new_papers_data)))
   /\ update_paper_code_links json_loads json_dumps requests_get str_of_json
        write_error fs json_file_path
      = write_file write_error fs json_file_path (json_dumps [])
   /\ (forall md_file_path current_date to_web use_title use_toc show_badge
              use_back_to_top,
          convert_json_to_markdown json_loads write_error fs json_file_path
            md_file_path current_date to_web use_title use_toc show_badge
            use_back_to_top
          = write_file write_error fs md_file_path
              (render_markdown [] current_date to_web use_title use_toc
                 show_badge use_back_to_top)))
  /\ (fs json_file_path = None ->
      load_store json_loads fs json_file_path = inl FileNotFoundError
      /\ (forall new_papers_data,
             update_papers_json_file json_loads json_dumps write_error fs
               json_file_path new_papers_data
             = inl FileNotFoundError)
      /\ update_paper_code_links json_loads json_dumps requests_get
           str_of_json write_error fs json_file_path
         = inl FileNotFoundError
      /\ (forall md_file_path current_date to_web use_title use_toc show_badge
                 use_back_to_top,
             convert_json_to_markdown json_loads write_error fs json_file_path
               md_file_path current_date to_web use_title use_toc show_badge
               use_back_to_top
             = inl FileNotFoundError)).
Proof.
  split; intros Hfile.
  - assert (Hload : load_store json_loads fs json_file_path = inr []).
    { unfold load_store, read_file. now rewrite Hfile. }
    unfold update_papers_json_file, update_paper_code_links,
      convert_json_to_markdown.
    rewrite Hload. repeat split; reflexivity.
  - assert (Hload : load_store json_loads fs json_file_path
                    = inl FileNotFoundError).
    { unfold load_store, read_file. now rewrite Hfile. }
    unfold update_papers_json_file, update_paper_code_links,
      convert_json_to_markdown.
    rewrite Hload. repeat split; reflexivity.
Qed.

Lemma load_store_empty_or_absent_witness :
  (fun _ : string => @None string) "papers.json" = None
  /\ load_store (fun _ => inl JSONDecodeError) (fun _ => None) "papers.json"
     = inl FileNotFoundError.
Proof.
  split; [reflexivity |].
  apply (proj2 (load_store_empty_or_absent
                  (fun _ => inl JSONDecodeError) (fun _ => "")
                  (fun _ => inl ConnectionError) (fun _ => "")
                  (fun _ => None) (fun _ => None) "papers.json")).
  reflexivity.
Defined.

(** C3, as stated, fails: with no backing file the load is an error, not
    the empty document. *)
Lemma load_store_absent_is_an_error :
  ~ (forall (json_loads : string -> result document) (fs : file_system)
            (json_file_path : string),
        fs json_file_path = None ->
        load_store json_loads fs json_file_path = inr []).
Proof.
  intros H.
  specialize (H (fun _ => inr []) (fun _ => None) "papers.json" eq_refl).
  discriminate H.
Qed.

(** ** Renderer: topics without entries *)

Lemma concat_empty_cons (x : string) (xs : list string) :
  String.concat "" (x :: xs) = x ++ String.concat "" xs.
Proof. destruct xs; simpl; [now rewrite append_nil_r | reflexivity]. Qed.

Lemma concat_empty_app (l1 l2 : list string) :
  String.concat "" (l1 ++ l2)%list
  = String.concat "" l1 ++ String.concat "" l2.
Proof.
  induction l1 as [|x l1 IH].
  - reflexivity.
  - rewrite <- app_comm_cons, !concat_empty_cons, IH.
    now rewrite append_assoc.
Qed.

Lemma dict_set_absent {V : Type} (d : dict V) (k : string) (v : V) :
  dict_get d k = None -> dict_set d k v = (d ++ [(k, v)])%list.
Proof.
  induction d as [|[k' v'] d IH]; simpl; [reflexivity |].
  destruct (String.eqb k' k); [discriminate |].
  intros H. now rewrite IH.
Qed.

(** With the table of contents off, a topic without entries leaves no
    trace in the output. *)
Lemma render_markdown_skips_empty_topic
    (before after : document) (topic current_date : string)
    (to_web use_title show_badge use_back_to_top : bool) :
  render_markdown (before ++ (topic, []) :: after)%list current_date
    to_web use_title false show_badge use_back_to_top
  = render_markdown (before ++ after)%list current_date
      to_web use_title false show_badge use_back_to_top.
Proof.
  unfold render_markdown. do 4 f_equal.
  rewrite !map_app, !concat_empty_app. cbn [map].
  rewrite concat_empty_cons. reflexivity.
Qed.

(** C7. On the document whose one topic [A] has no entry, rendered with
    the table of contents, the output has no heading for [A] but does
    have a line for it in the table of contents.  With the table of
    contents off, a topic without entries changes nothing in the output. *)
Theorem render_markdown_lists_empty_topic :
  render_markdown [("A", [])] "2024.01.02" false true true false true
  = "## Updated on 2024.01.02" ++ nl
    ++ "> Usage instructions: [here](./docs/README.md#usage)" ++ nl ++ nl
    ++ "<details>" ++ nl
    ++ "  <summary>Table of Contents</summary>" ++ nl
    ++ "  <ol>" ++ nl
    ++ "    <li><a href=#a>A</a></li>" ++ nl
    ++ "  </ol>" ++ nl
    ++ "</details>" ++ nl ++ nl
  /\ render_markdown [("A", [])] "2024.01.02" false true true false true
     <> render_markdown [] "2024.01.02" false true true false true
  /\ (forall (before after : document) (topic current_date : string)
             (to_web use_title show_badge use_back_to_top : bool),
         render_markdown (before ++ (topic, []) :: after)%list current_date
           to_web use_title false show_badge use_back_to_top
         = render_markdown (before ++ after)%list current_date
             to_web use_title false show_badge use_back_to_top).
Proof.
  split; [reflexivity |].
  split; [discriminate |].
  exact render_markdown_skips_empty_topic.
Qed.

(** ** Topics without entries across runs *)

Lemma table_of_contents_line (paper_data : document) (topic : string) :
  In topic (dict_keys paper_data) ->
  exists earlier later,
    table_of_contents paper_data
    = "<details>" ++ nl ++ "  <summary>Table of Contents</summary>" ++ nl
      ++ "  <ol>" ++ nl
      ++ earlier
      ++ ("    <li><a href=#"
          ++ PyStr.lower (PyStr.replace_char " " "-" topic)
          ++ ">" ++ topic ++ "</a></li>" ++ nl)
      ++ later
      ++ "  </ol>" ++ nl ++ "</details>" ++ nl ++ nl.
Proof.
  intros Hin. apply in_split in Hin as (k1 & k2 & Hkeys).
  unfold table_of_contents. rewrite Hkeys, map_app, concat_empty_app.
  cbn [map]. rewrite concat_empty_cons.
  exists (String.concat "" (map toc_entry k1)).
  exists (String.concat "" (map toc_entry k2)).
  unfold toc_entry at 2. cbn zeta. now rewrite !append_assoc.
Qed.

(** C10. A topic whose fetch finds nothing comes back from the fetch
    mapped to the empty mapping, in both representations; merging it
    into a store that lacks the topic appends the topic with the empty
    mapping; no later merge removes a topic, so a run that reads the
    written document back still writes the topic out; and the renderer
    lists the topic in its table of contents: between the opening and
    the closing of the list stands the item line of the topic, its
    anchor the topic in lower case with a hyphen for every space.  The
    store with the one empty topic [Visual SLAM] renders as the header,
    a table of contents with the line of that topic, and nothing else. *)
Theorem empty_topic_persists :
  (forall (requests_get : string -> result http_response)
          (str_of_json : json -> string)
          (arxiv_results : string -> Z -> list paper * option exn)
          (topic search_query : string) (max_results : Z),
      arxiv_results search_query max_results = ([], None) ->
      fetch_daily_arxiv_papers requests_get str_of_json arxiv_results
        topic search_query max_results
      = inr ([(topic, [])], [(topic, [])]))
  /\ (forall (existing_data : document) (topic : string),
         dict_get existing_data topic = None ->
         merge_batch existing_data [[(topic, [])]]
         = (existing_data ++ [(topic, [])])%list)
  /\ (forall (json_loads : string -> result document)
             (json_dumps : document -> string)
             (write_error : string -> option exn)
             (fs : file_system) (json_file_path topic : string)
             (existing_data : document) (later : list document),
         load_store json_loads fs json_file_path = inr existing_data ->
         dict_get existing_data topic = None ->
         write_error json_file_path = None ->
         let written := (existing_data ++ [(topic, [])])%list in
         PyStr.truthy (json_dumps written) = true ->
         json_loads (json_dumps written) = inr written ->
         exists fs1 fs2 rewritten,
           update_papers_json_file json_loads json_dumps write_error fs
             json_file_path [[(topic, [])]] = inr fs1
           /\ fs1 json_file_path = Some (json_dumps written)
           /\ update_papers_json_file json_loads json_dumps write_error fs1
                json_file_path later = inr fs2
           /\ fs2 json_file_path = Some (json_dumps rewritten)
           /\ dict_get rewritten topic <> None)
  /\ (forall (paper_data : document) (topic current_date : string)
             (to_web use_title show_badge use_back_to_top : bool),
         dict_get paper_data topic = Some [] ->
         exists head earlier later tail,
           render_markdown paper_data current_date to_web use_title true
             show_badge use_back_to_top
           = head
             ++ "<details>" ++ nl
             ++ "  <summary>Table of Contents</summary>" ++ nl
             ++ "  <ol>" ++ nl
             ++ earlier
             ++ ("    <li><a href=#"
                 ++ PyStr.lower (PyStr.replace_char " " "-" topic)
                 ++ ">" ++ topic ++ "</a></li>" ++ nl)
             ++ later
             ++ "  </ol>" ++ nl
             ++ "</details>" ++ nl ++ nl
             ++ tail)
  /\ render_markdown [("Visual SLAM", [])] "2024.01.02" false true true false
       true
     = "## Updated on 2024.01.02" ++ nl
       ++ "> Usage instructions: [here](./docs/README.md#usage)" ++ nl ++ nl
       ++ "<details>" ++ nl
       ++ "  <summary>Table of Contents</summary>" ++ nl
       ++ "  <ol>" ++ nl
       ++ "    <li><a href=#visual-slam>Visual SLAM</a></li>" ++ nl
       ++ "  </ol>" ++ nl
       ++ "</details>" ++ nl ++ nl.
Proof.
  assert (Hmerge : forall (existing_data : document) (topic : string),
             dict_get existing_data topic = None ->
             merge_batch existing_data [[(topic, [])]]
             = (existing_data ++ [(topic, [])])%list).
  { intros existing_data topic Hnone.
    unfold merge_batch, merge_topic. cbn [fold_left].
    rewrite Hnone. now apply dict_set_absent. }
  split.
  { intros requests_get str_of_json arxiv_results topic q n Hres.
    unfold fetch_daily_arxiv_papers. now rewrite Hres. }
  split; [exact Hmerge |].
  split.
  { intros json_loads json_dumps write_error fs path topic existing_data later
           Hload Hnone Hopen written Htruthy Hround.
    assert (Hwrite : forall fs0 content,
               put_file fs0 path content path = Some content).
    { intros fs0 content. unfold put_file. now rewrite String.eqb_refl. }
    exists (put_file fs path (json_dumps written)).
    exists (put_file (put_file fs path (json_dumps written)) path
              (json_dumps (merge_batch written later))).
    exists (merge_batch written later).
    split.
    { unfold update_papers_json_file, write_file.
      rewrite Hload, Hopen. cbn [bind]. now rewrite Hmerge. }
    split; [apply Hwrite |].
    split.
    { unfold update_papers_json_file, load_store, read_file, write_file.
      rewrite Hwrite, Hopen. cbn [bind]. rewrite Htruthy, Hround.
      reflexivity. }
    split; [apply Hwrite |].
    apply merge_batch_keeps_topic. subst written.
    pose proof (dict_get_set_eq existing_data topic []) as Hset.
    rewrite (dict_set_absent existing_data topic [] Hnone) in Hset.
    intros Habs.
    pose proof (eq_trans (eq_sym Hset) Habs) as Hno. discriminate Hno. }
  split; [| reflexivity].
  intros paper_data topic current_date to_web use_title show_badge
         use_back_to_top Hget.
  apply dict_get_some_key in Hget.
  destruct (table_of_contents_line paper_data topic Hget)
    as (earlier & later & Htoc).
  unfold render_markdown. rewrite Htoc.
  exists ((if to_web && use_title
           then "---" ++ nl ++ "layout: default" ++ nl ++ "---" ++ nl ++ nl
           else "")
          ++ (if use_title
              then "## Updated on " ++ current_date ++ nl
              else "> Updated on " ++ current_date ++ nl)
          ++ "> Usage instructions: [here](./docs/README.md#usage)"
          ++ nl ++ nl).
  exists earlier, later.
  exists (String.concat ""
            (map (render_topic to_web use_title use_back_to_top current_date)
                 paper_data)
          ++ (if show_badge then badge_template else "")).
  now rewrite !append_assoc.
Qed.

Lemma empty_topic_persists_witness :
  ((fun (_ : string) (_ : Z) => (@nil paper, @None exn)) "SLAM" 2%Z = ([], None)
   /\ fetch_daily_arxiv_papers (fun _ => inl ConnectionError) (fun _ => "")
        (fun _ _ => ([], None)) "SLAM" "SLAM" 2%Z
      = inr ([("SLAM", [])], [("SLAM", [])]))
  /\ (load_store
        (fun s => if String.eqb s "{SLAM}" then inr [("SLAM", [])] else inr [])
        (fun _ => Some "{}") "papers.json"
      = inr []
      /\ exists fs1 fs2 rewritten,
          update_papers_json_file
            (fun s => if String.eqb s "{SLAM}" then inr [("SLAM", [])]
                      else inr [])
            (fun d => match d with [] => "{}" | _ :: _ => "{SLAM}" end)
            (fun _ => None) (fun _ => Some "{}") "papers.json"
            [[("SLAM", [])]] = inr fs1
          /\ fs1 "papers.json" = Some "{SLAM}"
          /\ update_papers_json_file
               (fun s => if String.eqb s "{SLAM}" then inr [("SLAM", [])]
                         else inr [])
               (fun d => match d with [] => "{}" | _ :: _ => "{SLAM}" end)
               (fun _ => None) fs1 "papers.json" [] = inr fs2
          /\ fs2 "papers.json"
             = Some ((fun d : document =>
                        match d with [] => "{}" | _ :: _ => "{SLAM}" end)
                       rewritten)
          /\ dict_get rewritten "SLAM" <> None)
  /\ exists head earlier later tail,
      render_markdown [("SLAM", [])] "2024.01.02" false true true false true
      = head
        ++ "<details>" ++ nl
        ++ "  <summary>Table of Contents</summary>" ++ nl
        ++ "  <ol>" ++ nl
        ++ earlier
        ++ ("    <li><a href=#"
            ++ PyStr.lower (PyStr.replace_char " " "-" "SLAM")
            ++ ">" ++ "SLAM" ++ "</a></li>" ++ nl)
        ++ later
        ++ "  </ol>" ++ nl
        ++ "</details>" ++ nl ++ nl
        ++ tail.
Proof.
  split.
  - split; [reflexivity |].
    apply (proj1 empty_topic_persists). reflexivity.
  - split.
    + split; [reflexivity |].
      exact (proj1 (proj2 (proj2 empty_topic_persists))
               (fun s => if String.eqb s "{SLAM}" then inr [("SLAM", [])]
                         else inr [])
               (fun d => match d with [] => "{}" | _ :: _ => "{SLAM}" end)
               (fun _ => None) (fun _ => Some "{}")
               "papers.json" "SLAM" [] [] eq_refl eq_refl eq_refl eq_refl
               eq_refl).
    + exact (proj1 (proj2 (proj2 (proj2 empty_topic_persists)))
               [("SLAM", [])] "SLAM" "2024.01.02" false true false true
               eq_refl).
Defined.

(** ** Renderer: formula spacing *)

Lemma take_app_length (a b : string) : PyStr.take (String.length a) (a ++ b) = a.
Proof. induction a as [|x a IH]; simpl; [now destruct b | now rewrite IH]. Qed.

Lemma drop_app_length (a b : string) : PyStr.drop (String.length a) (a ++ b) = b.
Proof. induction a as [|x a IH]; simpl; [reflexivity | exact IH]. Qed.

Lemma substring_app_length (a b : string) (n : nat) :
  substring (String.length a) n (a ++ b) = substring 0 n b.
Proof. induction a as [|x a IH]; simpl; [reflexivity | exact IH]. Qed.

Lemma substring_0_app (a b : string) :
  substring 0 (String.length a) (a ++ b) = a.
Proof. induction a as [|x a IH]; simpl; [now destruct b | now rewrite IH]. Qed.

Lemma get_app_length (a b : string) :
  String.get (String.length a) (a ++ b) = String.get 0 b.
Proof. induction a as [|x a IH]; simpl; [reflexivity | exact IH]. Qed.

Lemma get_last_char (a b : string) :
  a <> "" -> String.get (String.length a - 1) (a ++ b) = last_char a.
Proof.
  induction a as [|x a IH]; intros Hne; [congruence |].
  destruct a as [|y a].
  - reflexivity.
  - specialize (IH ltac:(discriminate)).
    cbn [String.length Nat.sub] in IH. rewrite Nat.sub_0_r in IH.
    change (last_char (String x (String y a))) with (last_char (String y a)).
    rewrite <- IH. reflexivity.
Qed.

Lemma last_dollar_rest_of_line (post : string) (i : nat) (best : option nat) :
  dollar_on_first_line post = false -> last_dollar post i best = best.
Proof.
  revert i best. induction post as [|c post IH]; intros i best H; simpl in *.
  - reflexivity.
  - destruct (Ascii.eqb c PyStr.NEWLINE); [reflexivity |].
    apply orb_false_iff in H as [Hc Hpost].
    rewrite Hc. now apply IH.
Qed.

Lemma last_dollar_through (body post : string) (i : nat) (best : option nat) :
  occurs PyStr.NEWLINE body = false ->
  last_dollar (body ++ String "$" post) i best
  = last_dollar post (S (i + String.length body))
      (Some (i + String.length body)).
Proof.
  revert i best. induction body as [|c body IH]; intros i best H; simpl in *.
  - now rewrite Nat.add_0_r.
  - apply orb_false_iff in H as [Hc Hbody].
    rewrite Hc, IH by assumption. now rewrite Nat.add_succ_r.
Qed.

Lemma search_formula_first_dollar (pre rest : string) (pos j : nat) :
  occurs "$" pre = false ->
  last_dollar rest 0 None = Some j ->
  search_formula (pre ++ String "$" rest) pos
  = Some (pos + String.length pre, pos + String.length pre + j + 2).
Proof.
  revert pos. induction pre as [|c pre IH]; intros pos Hpre Hj;
    cbn [append search_formula occurs String.length] in *.
  - rewrite Ascii.eqb_refl, Hj. f_equal. f_equal; lia.
  - apply orb_false_iff in Hpre as [Hc Hpre].
    rewrite Hc, IH by assumption. f_equal. f_equal; lia.
Qed.

Lemma last_dollar_sound (s : string) :
  forall (i : nat) (best : option nat) (j : nat),
    last_dollar s i best = Some j ->
    best = Some j
    \/ exists b c, s = b ++ String "$" c /\ occurs PyStr.NEWLINE b = false.
Proof.
  induction s as [|x s IH]; intros i best j H; simpl in H.
  - now left.
  - destruct (Ascii.eqb x PyStr.NEWLINE) eqn:Hnl; [now left |].
    destruct (IH _ _ _ H) as [Hbest | (b & c & -> & Hb)].
    + destruct (Ascii.eqb_spec x "$") as [->|Hx]; [| now left].
      right. exists "", s. split; reflexivity.
    + right. exists (String x b), c. split; [reflexivity |].
      simpl. now rewrite Hnl.
Qed.

Lemma search_formula_sound (text : string) :
  forall (pos : nat) (span : nat * nat),
    search_formula text pos = Some span ->
    exists a b c,
      text = a ++ "$" ++ b ++ "$" ++ c /\ occurs PyStr.NEWLINE b = false.
Proof.
  induction text as [|x text IH]; intros pos span H; simpl in H.
  - discriminate.
  - assert (Hlater : search_formula text (S pos) = Some span ->
                     exists a b c,
                       String x text = a ++ "$" ++ b ++ "$" ++ c
                       /\ occurs PyStr.NEWLINE b = false).
    { intros H'. destruct (IH _ _ H') as (a & b & c & -> & Hb).
      exists (String x a), b, c. split; [reflexivity | exact Hb]. }
    destruct (Ascii.eqb_spec x "$") as [->|Hx]; [| now apply Hlater].
    destruct (last_dollar text 0 None) as [j|] eqn:Hj; [| now apply Hlater].
    destruct (last_dollar_sound _ _ _ _ Hj) as [[=] | (b & c & -> & Hb)].
    exists "", b, c. split; [reflexivity | exact Hb].
Qed.

Lemma format_latex_formula_region (pre body post : string) :
  occurs "$" pre = false ->
  occurs PyStr.NEWLINE body = false ->
  dollar_on_first_line post = false ->
  format_latex_formula (pre ++ "$" ++ body ++ "$" ++ post)
  = pre ++ space_before pre ++ "$" ++ PyStr.strip body ++ "$"
    ++ space_after post ++ post.
Proof.
  intros Hpre Hbody Hpost.
  assert (Hj : last_dollar (body ++ String "$" post) 0 None
               = Some (String.length body)).
  { rewrite last_dollar_through by assumption.
    now rewrite last_dollar_rest_of_line. }
  unfold format_latex_formula.
  change (pre ++ "$" ++ body ++ "$" ++ post)
    with (pre ++ String "$" (body ++ String "$" post)).
  rewrite (search_formula_first_dollar pre _ 0 _ Hpre Hj).
  cbn [Nat.add].
  replace (String.length pre + String.length body + 2 - String.length pre)
    with (String.length (String "$" (body ++ "$"))).
  2:{ cbn [String.length]. rewrite length_append. simpl. lia. }
  rewrite take_app_length.
  assert (Hgroup : substring (String.length pre)
                     (String.length (String "$" (body ++ "$")))
                     (pre ++ String "$" (body ++ String "$" post))
                   = String "$" (body ++ "$")).
  { rewrite substring_app_length.
    change (String "$" (body ++ String "$" post))
      with (String "$" (body ++ "$" ++ post)).
    rewrite <- append_assoc.
    apply (substring_0_app (String "$" (body ++ "$")) post). }
  rewrite Hgroup.
  assert (Hinner : substring 1 (String.length (String "$" (body ++ "$")) - 2)
                     (String "$" (body ++ "$")) = body).
  { cbn [String.length substring]. rewrite length_append. cbn [String.length].
    replace (S (String.length body + 1) - 2) with (String.length body) by lia.
    apply substring_0_app. }
  rewrite Hinner.
  assert (Hdrop : PyStr.drop (String.length pre + String.length body + 2)
                    (pre ++ String "$" (body ++ String "$" post)) = post).
  { replace (String.length pre + String.length body + 2)
      with (String.length (pre ++ String "$" (body ++ "$")))
      by (rewrite length_append; cbn [String.length];
          rewrite length_append; simpl; lia).
    replace (pre ++ String "$" (body ++ String "$" post))
      with ((pre ++ String "$" (body ++ "$")) ++ post).
    - apply drop_app_length.
    - rewrite append_assoc. cbn [append]. now rewrite append_assoc. }
  rewrite Hdrop.
  assert (Hbefore : (if (0 <? String.length pre)%nat
                     then match String.get (String.length pre - 1)
                                  (pre ++ String "$" (body ++ String "$" post))
                          with
                          | Some c => if not_space_or_star c then " " else ""
                          | None => ""
                          end
                     else "") = space_before pre).
  { unfold space_before. destruct pre as [|x pre]; [reflexivity |].
    cbn [String.length Nat.ltb Nat.leb].
    now rewrite (get_last_char (String x pre)) by discriminate. }
  rewrite Hbefore.
  assert (Hafter : (if (String.length pre + String.length body + 2
                        <? String.length
                             (pre ++ String "$" (body ++ String "$" post)))%nat
                    then match String.get
                                 (String.length pre + String.length body + 2)
                                 (pre ++ String "$" (body ++ String "$" post))
                         with
                         | Some c => if not_space_or_star c then " " else ""
                         | None => ""
                         end
                    else "") = space_after post).
  { assert (Htext : pre ++ String "$" (body ++ String "$" post)
                    = (pre ++ String "$" (body ++ "$")) ++ post)
      by (rewrite append_assoc; cbn [append]; now rewrite append_assoc).
    assert (Hlen : String.length pre + String.length body + 2
                   = String.length (pre ++ String "$" (body ++ "$")))
      by (rewrite length_append; cbn [String.length];
          rewrite length_append; simpl; lia).
    rewrite Htext, Hlen. clear Htext Hlen.
    generalize (pre ++ String "$" (body ++ "$")). intros m.
    rewrite get_app_length, length_append.
    unfold space_after. destruct post as [|c post].
    - replace (_ <? _)%nat with false; [reflexivity |].
      symmetry. apply Nat.ltb_ge. cbn [String.length]. lia.
    - replace (_ <? _)%nat with true.
      + cbn [String.get]. reflexivity.
      + symmetry. apply Nat.ltb_lt.
        change (String.length (String c post)) with (S (String.length post)).
        lia. }
  rewrite Hafter. reflexivity.
Qed.

(** C8, as the code has it.  The region treated runs from the first
    dollar of the line to the last dollar of that line, whatever lies
    between them: the blanks at both ends of its inside are trimmed, one
    space goes before the opening dollar when a character precedes it
    that is neither a space nor an asterisk, and one space goes after the
    closing dollar when a character follows it that is neither a space
    nor an asterisk.  A text in which no two dollars stand on one line is
    left as it is.  [text$x+y$more] becomes [text $x+y$ more], and
    [text $x+y$ more] is unchanged. *)
Theorem format_latex_formula_first_to_last_dollar :
  (forall pre body post : string,
      occurs "$" pre = false ->
      occurs PyStr.NEWLINE body = false ->
      dollar_on_first_line post = false ->
      format_latex_formula (pre ++ "$" ++ body ++ "$" ++ post)
      = pre ++ space_before pre ++ "$" ++ PyStr.strip body ++ "$"
        ++ space_after post ++ post)
  /\ (forall text : string,
         (forall a b c : string,
             text = a ++ "$" ++ b ++ "$" ++ c ->
             occurs PyStr.NEWLINE b = true) ->
         format_latex_formula text = text)
  /\ format_latex_formula "text$x+y$more" = "text $x+y$ more"
  /\ format_latex_formula "text $x+y$ more" = "text $x+y$ more".
Proof.
  split; [exact format_latex_formula_region |].
  split; [| split; reflexivity].
  intros text Hno. unfold format_latex_formula.
  destruct (search_formula text 0) as [span|] eqn:Hsearch; [| reflexivity].
  destruct (search_formula_sound text 0 span Hsearch) as (a & b & c & Ht & Hb).
  rewrite (Hno a b c Ht) in Hb. discriminate.
Qed.

Lemma format_latex_formula_first_to_last_dollar_witness :
  occurs "$" "see" = false
  /\ occurs PyStr.NEWLINE " x+y " = false
  /\ dollar_on_first_line "more" = false
  /\ format_latex_formula ("see" ++ "$" ++ " x+y " ++ "$" ++ "more")
     = "see $x+y$ more".
Proof.
  repeat (split; [reflexivity |]).
  apply (proj1 format_latex_formula_first_to_last_dollar "see" " x+y " "more");
    reflexivity.
Defined.

(** C8, as stated, fails on a line with two formulas: the first
    substring between a pair of dollars of [x$a$y$b$z] is [$a$], and the
    [y] after its closing dollar gets no space; the region treated is
    [$a$y$b$]. *)
Lemma format_latex_formula_two_formulas :
  format_latex_formula "x$a$y$b$z" = "x $a$y$b$ z"
  /\ format_latex_formula "x$a$y$b$z" <> "x $a$ y$b$z".
Proof. split; [reflexivity | discriminate]. Qed.

(** ** Code-link lookup: failures *)

(** The two [try] bodies read the answer the same way: one raises when
    the other does, with the same exception. *)
Lemma backfill_try_raises (str_of_json : json -> string)
    (outcome : result http_response) (markdown_row : string) :
  match fetch_try outcome with
  | inl e => backfill_try str_of_json outcome markdown_row = inl e
  | inr code_url =>
      exists patched,
        backfill_try str_of_json outcome markdown_row = inr patched
        /\ (code_url = None -> patched = None)
  end.
Proof.
  unfold fetch_try, backfill_try.
  destruct outcome as [e | response]; [reflexivity |]. cbn [bind].
  destruct (raise_for_status response); [reflexivity |]. cbn [bind].
  destruct (response_json response) as [e | pwc_data]; [reflexivity |].
  cbn [bind].
  destruct (json_contains "official" pwc_data) as [e | has]; [reflexivity |].
  cbn [bind]. destruct has; [| now exists None].
  destruct (json_getitem pwc_data "official") as [e | official];
    [reflexivity |].
  cbn [bind]. destruct (json_truthy official); [| now exists None].
  destruct (json_getitem official "url") as [e | url]; [reflexivity |].
  cbn [bind]. eexists. split; [reflexivity | discriminate].
Qed.

Lemma fetch_code_url_quiet (requests_get : string -> result http_response)
    (url : string) :
  fetch_code_url (quiet requests_get url) = fetch_code_url (requests_get url).
Proof.
  unfold quiet, fetch_code_url.
  destruct (fetch_try (requests_get url)) eqn:Htry; [reflexivity |].
  now rewrite Htry.
Qed.

Lemma fetch_try_quiet (requests_get : string -> result http_response)
    (url : string) :
  succeeded (fetch_try (quiet requests_get url)) = true.
Proof.
  unfold quiet.
  destruct (fetch_try (requests_get url)) eqn:Htry; [reflexivity |].
  now rewrite Htry.
Qed.

Lemma fetch_item_quiet (requests_get : string -> result http_response)
    (str_of_json : json -> string) (acc : entries * entries) (p : paper) :
  fetch_item (quiet requests_get) str_of_json acc p
  = fetch_item requests_get str_of_json acc p.
Proof. unfold fetch_item. now rewrite fetch_code_url_quiet. Qed.

Lemma fold_fetch_item_quiet (requests_get : string -> result http_response)
    (str_of_json : json -> string) (found : list paper) :
  forall acc,
    fold_left (fetch_item (quiet requests_get) str_of_json) found acc
    = fold_left (fetch_item requests_get str_of_json) found acc.
Proof.
  induction found as [|p found IH]; intros acc; cbn [fold_left].
  - reflexivity.
  - now rewrite fetch_item_quiet, IH.
Qed.

(** Every item found has its entry in both mappings built by the loop. *)
Lemma fold_fetch_item_keys (requests_get : string -> result http_response)
    (str_of_json : json -> string) (found : list paper) :
  forall (acc : entries * entries) (key : string),
    (dict_mem key (fst acc) = true /\ dict_mem key (snd acc) = true)
    \/ (exists p, In p found /\ key = clean_id (short_id p)) ->
    let out := fold_left (fetch_item requests_get str_of_json) found acc in
    dict_mem key (fst out) = true /\ dict_mem key (snd out) = true.
Proof.
  induction found as [|p found IH]; intros acc key Hkey; cbn [fold_left].
  - destruct Hkey as [Hacc | (p & [] & _)]. exact Hacc.
  - apply IH. clear IH.
    destruct (String.eqb_spec (clean_id (short_id p)) key) as [Heq | Hne].
    + left. subst key. unfold fetch_item, dict_mem. cbn [fst snd].
      now rewrite !dict_get_set_eq.
    + destruct Hkey as [[H1 H2] | (p' & [-> | Hin] & ->)].
      * left. unfold fetch_item, dict_mem in *. cbn [fst snd].
        now rewrite !dict_get_set_ne.
      * congruence.
      * right. now exists p'.
Qed.

Lemma for_each_ext {A S : Type} (body body' : S -> A -> result S)
    (l : list A) :
  (forall st a, body st a = body' st a) ->
  forall st, for_each body l st = for_each body' l st.
Proof.
  intros Hext. induction l as [|a l IH]; intros st; cbn [for_each].
  - reflexivity.
  - rewrite Hext. destruct (body' st a); cbn [bind]; [reflexivity | apply IH].
Qed.

Lemma for_each_raises {A S : Type} (body : S -> A -> result S)
    (P : exn -> Prop) (l : list A) :
  (forall st a e, body st a = inl e -> P e) ->
  forall st e, for_each body l st = inl e -> P e.
Proof.
  intros Hbody. induction l as [|a l IH]; intros st e; cbn [for_each].
  - discriminate.
  - destruct (body st a) as [e' | st'] eqn:Hstep; cbn [bind].
    + intros [= <-]. now apply (Hbody st a).
    + apply IH.
Qed.

Lemma parse_raises_index_error (markdown_row : string) (e : exn) :
  parse_paper_info_from_markdown markdown_row = inl e -> e = IndexError.
Proof.
  unfold parse_paper_info_from_markdown, getitem.
  repeat match goal with
         | |- context [match ?x with _ => _ end] =>
             destruct x; cbn [bind]; try congruence
         end.
Qed.

Lemma backfill_entry_quiet (requests_get : string -> result http_response)
    (str_of_json : json -> string) (topic : string) (st : backfill_state)
    (entry : string * string) :
  backfill_entry (quiet requests_get) str_of_json topic st entry
  = backfill_entry requests_get str_of_json topic st entry.
Proof.
  unfold backfill_entry. destruct st as [requested paper_data].
  destruct entry as [paper_id markdown_row].
  destruct (parse_paper_info_from_markdown markdown_row)
    as [e | [[[[update_date title] authors] clean_paper_id] old_code_link]];
    cbn [bind]; [reflexivity |].
  destruct (String.eqb old_code_link "null"); [| reflexivity].
  pose proof (backfill_try_raises str_of_json
                (requests_get (PAPERS_WITH_CODE_BASE_URL ++ clean_paper_id))
                markdown_row) as Hraise.
  unfold quiet.
  destruct (fetch_try
              (requests_get (PAPERS_WITH_CODE_BASE_URL ++ clean_paper_id)))
    as [e | code_url]; [| reflexivity].
  now rewrite Hraise.
Qed.

Lemma backfill_entry_raises (requests_get : string -> result http_response)
    (str_of_json : json -> string) (topic : string) (st : backfill_state)
    (entry : string * string) (e : exn) :
  backfill_entry requests_get str_of_json topic st entry = inl e ->
  e = IndexError.
Proof.
  unfold backfill_entry. destruct st as [requested paper_data].
  destruct entry as [paper_id markdown_row].
  destruct (parse_paper_info_from_markdown markdown_row)
    as [e' | [[[[update_date title] authors] clean_paper_id] old_code_link]]
    eqn:Hparse; cbn [bind].
  - intros [= <-]. now apply (parse_raises_index_error markdown_row).
  - destruct (String.eqb old_code_link "null"); [| discriminate].
    now destruct (backfill_try _ _ _) as [? | [?|]].
Qed.

Lemma backfill_document_quiet (requests_get : string -> result http_response)
    (str_of_json : json -> string) (requested : list string)
    (paper_data : document) :
  backfill_document (quiet requests_get) str_of_json requested paper_data
  = backfill_document requests_get str_of_json requested paper_data.
Proof.
  unfold backfill_document. apply for_each_ext.
  intros st [topic papers]. unfold backfill_topic.
  apply for_each_ext. intros st' entry. apply backfill_entry_quiet.
Qed.

Lemma backfill_document_raises (requests_get : string -> result http_response)
    (str_of_json : json -> string) (requested : list string)
    (paper_data : document) (e : exn) :
  backfill_document requests_get str_of_json requested paper_data = inl e ->
  e = IndexError.
Proof.
  unfold backfill_document.
  apply (for_each_raises _ (fun e => e = IndexError)).
  intros st [topic papers] e'. unfold backfill_topic.
  apply (for_each_raises _ (fun e => e = IndexError)).
  intros st' entry e''. apply backfill_entry_raises.
Qed.

(** ** Record store: code-link backfill *)

Section DictPlaces.
Context {V : Type}.
Implicit Types (d done rest : dict V) (k : string) (v : V).

Lemma dict_get_middle done rest k v :
  ~ In k (dict_keys done) -> dict_get (done ++ (k, v) :: rest)%list k = Some v.
Proof.
  induction done as [|[k' v'] done IH]; simpl; intros Hk.
  - now rewrite String.eqb_refl.
  - destruct (String.eqb_spec k' k) as [->|Hne]; [tauto |].
    apply IH. tauto.
Qed.

Lemma dict_set_middle done rest k v v' :
  ~ In k (dict_keys done) ->
  dict_set (done ++ (k, v) :: rest)%list k v' = (done ++ (k, v') :: rest)%list.
Proof.
  induction done as [|[k0 v0] done IH]; simpl; intros Hk.
  - now rewrite String.eqb_refl.
  - destruct (String.eqb_spec k0 k) as [->|Hne]; [tauto |].
    rewrite IH; tauto.
Qed.

Lemma dict_set_same d k v : dict_get d k = Some v -> dict_set d k v = d.
Proof.
  induction d as [|[k' v'] d IH]; simpl; [discriminate |].
  destruct (String.eqb_spec k' k) as [->|Hne].
  - now intros [= ->].
  - intros H. now rewrite IH.
Qed.

Lemma dict_set_set d k v v' : dict_set (dict_set d k v) k v' = dict_set d k v'.
Proof.
  induction d as [|[k0 v0] d IH]; simpl.
  - now rewrite String.eqb_refl.
  - destruct (String.eqb k0 k) eqn:E; simpl; rewrite E; [reflexivity |].
    now rewrite IH.
Qed.

Lemma wf_dict_middle done rest k v :
  wf_dict (done ++ (k, v) :: rest)%list -> ~ In k (dict_keys done).
Proof.
  unfold wf_dict, dict_keys. rewrite map_app. cbn [map fst].
  intros Hwf Hin. apply NoDup_remove_2 in Hwf.
  apply Hwf, in_or_app. now left.
Qed.

Lemma wf_dict_rebind done rest k v v' :
  wf_dict (done ++ (k, v) :: rest)%list ->
  wf_dict ((done ++ [(k, v')]) ++ rest)%list.
Proof.
  unfold wf_dict, dict_keys. now rewrite <- app_assoc, !map_app.
Qed.
End DictPlaces.

Lemma set_entry_place (doc : document) (topic paper_id row row' : string)
    (done rest : entries) :
  dict_get doc topic = Some (done ++ (paper_id, row) :: rest)%list ->
  ~ In paper_id (dict_keys done) ->
  set_entry doc topic paper_id row'
  = dict_set doc topic (done ++ (paper_id, row') :: rest)%list.
Proof.
  intros Hdoc Hk. unfold set_entry. rewrite Hdoc.
  now rewrite dict_set_middle.
Qed.

(** Replace the computation that is run first by its result, as [lem]
    gives it. *)
Ltac step_with lem :=
  match goal with
  | |- bind ?x _ = _ =>
      let H := fresh "Hrun" in
      assert (H : x = _) by exact lem; rewrite H; clear H
  end.

(** One turn of the inner loop on a row that parses. *)
Lemma backfill_entry_patch (requests_get : string -> result http_response)
    (str_of_json : json -> string) (topic paper_id markdown_row : string)
    (requested : list string) (paper_data : document) (done rest : entries) :
  succeeded (parse_paper_info_from_markdown markdown_row) = true ->
  dict_get paper_data topic
  = Some (done ++ (paper_id, markdown_row) :: rest)%list ->
  ~ In paper_id (dict_keys done) ->
  backfill_entry requests_get str_of_json topic (requested, paper_data)
    (paper_id, markdown_row)
  = inr ((rev (row_requests markdown_row) ++ requested)%list,
         dict_set paper_data topic
           (done
            ++ (paper_id, patch_row requests_get str_of_json markdown_row)
               :: rest)%list).
Proof.
  intros Hparse Hdoc Hk.
  assert (Hsame : paper_data
                  = dict_set paper_data topic
                      (done ++ (paper_id, markdown_row) :: rest)%list)
    by (symmetry; now apply dict_set_same).
  unfold backfill_entry, patch_row, row_requests.
  destruct (parse_paper_info_from_markdown markdown_row)
    as [e | [[[[update_date title] authors] clean_paper_id] old_code_link]];
    [discriminate |].
  cbn [bind]. destruct (String.eqb old_code_link "null").
  - destruct (backfill_try _ _ _) as [e | [new_markdown_row |]];
      cbn [rev app]; f_equal; f_equal; try exact Hsame.
    now apply (set_entry_place paper_data topic paper_id markdown_row).
  - cbn [rev app]. f_equal. f_equal. exact Hsame.
Qed.

Lemma backfill_topic_patch (requests_get : string -> result http_response)
    (str_of_json : json -> string) (topic : string) (rest : entries) :
  forall (done : entries) (requested : list string) (paper_data : document),
    entries_parse rest = true ->
    wf_dict (done ++ rest)%list ->
    dict_get paper_data topic = Some (done ++ rest)%list ->
    for_each (backfill_entry requests_get str_of_json topic) rest
      (requested, paper_data)
    = inr ((rev (entries_requests rest) ++ requested)%list,
           dict_set paper_data topic
             (done ++ patch_entries requests_get str_of_json rest)%list).
Proof.
  induction rest as [|[paper_id markdown_row] rest IH];
    intros done requested paper_data Hparse Hwf Hdoc; cbn [for_each].
  - cbn [patch_entries map entries_requests flat_map rev app].
    f_equal. f_equal. symmetry. now apply dict_set_same.
  - cbn [entries_parse forallb snd] in Hparse.
    apply andb_true_iff in Hparse as [Hrow Hrest].
    pose proof (wf_dict_middle _ _ _ _ Hwf) as Hk.
    rewrite (backfill_entry_patch requests_get str_of_json topic paper_id
               markdown_row requested paper_data done rest Hrow Hdoc Hk).
    cbn [bind].
    rewrite (IH (done ++ [(paper_id,
                           patch_row requests_get str_of_json markdown_row)])%list).
    + f_equal. f_equal.
      * cbn [entries_requests flat_map snd].
        change (flat_map (fun entry => row_requests (snd entry)) rest)
          with (entries_requests rest).
        now rewrite rev_app_distr, <- app_assoc.
      * rewrite dict_set_set. cbn [patch_entries map fst snd].
        now rewrite <- app_assoc.
    + exact Hrest.
    + now apply (wf_dict_rebind done rest paper_id markdown_row).
    + rewrite dict_get_set_eq. now rewrite <- app_assoc.
Qed.

Lemma backfill_topics_patch (requests_get : string -> result http_response)
    (str_of_json : json -> string) (rest : document) :
  forall (done : document) (requested : list string),
    document_parses rest = true ->
    wf_dict (done ++ rest)%list ->
    Forall (fun tp => wf_dict (snd tp)) rest ->
    for_each (backfill_topic requests_get str_of_json) rest
      (requested, (done ++ rest)%list)
    = inr ((rev (document_requests rest) ++ requested)%list,
           (done ++ patch_document requests_get str_of_json rest)%list).
Proof.
  induction rest as [|[topic papers] rest IH];
    intros done requested Hparse Hwf Hinner; cbn [for_each].
  - reflexivity.
  - cbn [document_parses forallb snd] in Hparse.
    apply andb_true_iff in Hparse as [Hpapers Hrest].
    inversion Hinner as [|? ? Hwfp Hinner']; subst. cbn [snd] in Hwfp.
    pose proof (wf_dict_middle _ _ _ _ Hwf) as Hk.
    unfold backfill_topic at 1. cbn beta iota.
    step_with (backfill_topic_patch requests_get str_of_json topic papers []
                 requested (done ++ (topic, papers) :: rest)%list Hpapers Hwfp
                 (dict_get_middle done rest topic papers Hk)).
    cbn [bind app]. rewrite dict_set_middle by exact Hk.
    replace (done ++ (topic, patch_entries requests_get str_of_json papers)
                     :: rest)%list
      with ((done ++ [(topic, patch_entries requests_get str_of_json papers)])
            ++ rest)%list by now rewrite <- app_assoc.
    rewrite IH.
    + f_equal. f_equal.
      * cbn [document_requests flat_map snd].
        change (flat_map (fun tp => entries_requests (snd tp)) rest)
          with (document_requests rest).
        now rewrite rev_app_distr, <- app_assoc.
      * cbn [patch_document map fst snd]. now rewrite <- app_assoc.
    + exact Hrest.
    + now apply (wf_dict_rebind done rest topic papers).
    + exact Hinner'.
Qed.

(** The whole pass, on a document all of whose rows parse. *)
Lemma backfill_document_patch (requests_get : string -> result http_response)
    (str_of_json : json -> string) (requested : list string)
    (paper_data : document) :
  wf_document paper_data ->
  document_parses paper_data = true ->
  backfill_document requests_get str_of_json requested paper_data
  = inr ((rev (document_requests paper_data) ++ requested)%list,
         patch_document requests_get str_of_json paper_data).
Proof.
  intros [Hwf Hinner] Hparse. unfold backfill_document.
  exact (backfill_topics_patch requests_get str_of_json paper_data []
           requested Hparse Hwf Hinner).
Qed.

(** The [try] body of the backfill, read off the one of the fetch. *)
Lemma backfill_try_fetch_try (str_of_json : json -> string)
    (outcome : result http_response) (markdown_row : string) :
  backfill_try str_of_json outcome markdown_row
  = match fetch_try outcome with
    | inl e => inl e
    | inr None => inr None
    | inr (Some url) =>
        inr (Some (PyStr.replace markdown_row "|null|"
                     (link_cell str_of_json url)))
    end.
Proof.
  unfold fetch_try, backfill_try.
  destruct outcome as [e | response]; [reflexivity |]. cbn [bind].
  destruct (raise_for_status response); [reflexivity |]. cbn [bind].
  destruct (response_json response) as [e | pwc_data]; [reflexivity |].
  cbn [bind].
  destruct (json_contains "official" pwc_data) as [e | has]; [reflexivity |].
  cbn [bind]. destruct has; [| reflexivity].
  destruct (json_getitem pwc_data "official") as [e | official];
    [reflexivity |].
  cbn [bind]. destruct (json_truthy official); [| reflexivity].
  destruct (json_getitem official "url") as [e | url]; [reflexivity |].
  cbn [bind]. unfold link_cell, link_text.
  destruct url; cbn [append]; now rewrite append_assoc.
Qed.

(** *** Replacing the sentinel in a row *)

Lemma prefix_pipe_cell (a c s : string) :
  occurs "|" a = false -> occurs "|" c = false ->
  prefix (a ++ "|") (c ++ String "|" s) = true -> a = c.
Proof.
  revert c. induction a as [|y a IH]; intros c Ha Hc Hp.
  - destruct c as [|x c]; [reflexivity |].
    cbn [append prefix occurs] in *.
    destruct (ascii_dec "|" x) as [<- | Hne]; [| discriminate].
    now rewrite Ascii.eqb_refl in Hc.
  - cbn [occurs] in Ha. apply orb_false_iff in Ha as [Hy Ha].
    destruct c as [|x c]; cbn [append prefix occurs] in *.
    + destruct (ascii_dec y "|") as [-> | Hne]; [| discriminate].
      now rewrite Ascii.eqb_refl in Hy.
    + apply orb_false_iff in Hc as [Hx Hc].
      destruct (ascii_dec y x) as [-> | Hne]; [| discriminate].
      f_equal. now apply IH.
Qed.

Lemma replace_go_no_pipe (new c s : string) :
  occurs "|" c = false ->
  PyStr.replace_go "|null|" new (c ++ s) 0
  = c ++ PyStr.replace_go "|null|" new s 0.
Proof.
  induction c as [|x c IH]; intros Hc; [reflexivity |].
  cbn [occurs] in Hc. apply orb_false_iff in Hc as [Hx Hc].
  cbn [append PyStr.replace_go].
  replace (prefix "|null|" (String x (c ++ s))) with false.
  - now rewrite IH.
  - cbn [prefix]. destruct (ascii_dec "|" x) as [<- | Hne]; [| reflexivity].
    now rewrite Ascii.eqb_refl in Hx.
Qed.

Lemma replace_go_cell (new c s : string) :
  occurs "|" c = false -> c <> "null" ->
  PyStr.replace_go "|null|" new (String "|" (c ++ String "|" s)) 0
  = String "|" (c ++ PyStr.replace_go "|null|" new (String "|" s) 0).
Proof.
  intros Hc Hne. cbn [PyStr.replace_go].
  replace (prefix "|null|" (String "|" (c ++ String "|" s))) with false.
  - now rewrite replace_go_no_pipe.
  - symmetry. cbn [prefix]. destruct (ascii_dec "|" "|"); [| congruence].
    destruct (prefix "null|" (c ++ String "|" s)) eqn:Hp; [| reflexivity].
    exfalso. apply Hne. symmetry.
    now apply (prefix_pipe_cell "null" c s).
Qed.

(** In a row of the shape the fetch writes, whose first four cells are
    not the sentinel and hold no pipe, the replacement changes the
    code-link cell and nothing else. *)
Lemma replace_code_link_cell (c1 c2 c3 c4 tail new : string) :
  occurs "|" c1 = false -> c1 <> "null" ->
  occurs "|" c2 = false -> c2 <> "null" ->
  occurs "|" c3 = false -> c3 <> "null" ->
  occurs "|" c4 = false -> c4 <> "null" ->
  occurs "|" tail = false ->
  PyStr.replace
    ("|" ++ c1 ++ "|" ++ c2 ++ "|" ++ c3 ++ "|" ++ c4 ++ "|null|" ++ tail)
    "|null|" new
  = "|" ++ c1 ++ "|" ++ c2 ++ "|" ++ c3 ++ "|" ++ c4 ++ new ++ tail.
Proof.
  intros H1 N1 H2 N2 H3 N3 H4 N4 Ht. unfold PyStr.replace.
  change ("|" ++ c1 ++ "|" ++ c2 ++ "|" ++ c3 ++ "|" ++ c4 ++ "|null|" ++ tail)
    with (String "|" (c1 ++ String "|" (c2 ++ String "|" (c3 ++ String "|"
            (c4 ++ String "|" ("null|" ++ tail)))))).
  rewrite !replace_go_cell by assumption.
  assert (Hhit : PyStr.replace_go "|null|" new (String "|" ("null|" ++ tail)) 0
                 = new ++ PyStr.replace_go "|null|" new tail 0).
  { cbn [PyStr.replace_go].
    replace (prefix "|null|" (String "|" ("null|" ++ tail))) with true
      by (now destruct tail).
    reflexivity. }
  pose proof (replace_go_no_pipe new tail "" Ht) as Htail.
  cbn [PyStr.replace_go] in Htail. rewrite !append_nil_r in Htail.
  now rewrite Hhit, Htail.
Qed.

(** C2, as the code has it.  On a store document all of whose rows parse
    as table rows, the backfill asks the service about the entries whose
    code-link cell is the sentinel [null], in the order of the document,
    and about no other; it returns the same topics and identifiers in
    the same order, each row patched on its own.  A row whose cell is
    not the sentinel, and a sentinel row for which the lookup reports no
    official link or raises, stay as they are.  When a link is reported,
    every occurrence of [|null|] in the row is replaced by the link
    cell; in a row of the shape the fetch writes, with no pipe inside
    its first four cells, none of them [null], that changes the
    code-link cell and nothing else. *)
Theorem backfill_patches_sentinel_rows
    (requests_get : string -> result http_response)
    (str_of_json : json -> string) :
  (forall (requested : list string) (paper_data : document),
      wf_document paper_data ->
      document_parses paper_data = true ->
      backfill_document requests_get str_of_json requested paper_data
      = inr ((rev (document_requests paper_data) ++ requested)%list,
             patch_document requests_get str_of_json paper_data))
  /\ (forall markdown_row update_date title authors clean_paper_id code_link,
         parse_paper_info_from_markdown markdown_row
         = inr (update_date, title, authors, clean_paper_id, code_link) ->
         code_link <> "null" ->
         row_requests markdown_row = []
         /\ patch_row requests_get str_of_json markdown_row = markdown_row)
  /\ (forall markdown_row update_date title authors clean_paper_id,
         parse_paper_info_from_markdown markdown_row
         = inr (update_date, title, authors, clean_paper_id, "null") ->
         row_requests markdown_row
         = [PAPERS_WITH_CODE_BASE_URL ++ clean_paper_id]
         /\ (fetch_code_url
               (requests_get (PAPERS_WITH_CODE_BASE_URL ++ clean_paper_id))
             = None ->
             patch_row requests_get str_of_json markdown_row = markdown_row)
         /\ (forall url,
                fetch_code_url
                  (requests_get (PAPERS_WITH_CODE_BASE_URL ++ clean_paper_id))
                = Some url ->
                patch_row requests_get str_of_json markdown_row
                = PyStr.replace markdown_row "|null|"
                    (link_cell str_of_json url)))
  /\ (forall c1 c2 c3 c4 tail url,
         occurs "|" c1 = false -> c1 <> "null" ->
         occurs "|" c2 = false -> c2 <> "null" ->
         occurs "|" c3 = false -> c3 <> "null" ->
         occurs "|" c4 = false -> c4 <> "null" ->
         occurs "|" tail = false ->
         PyStr.replace
           ("|" ++ c1 ++ "|" ++ c2 ++ "|" ++ c3 ++ "|" ++ c4 ++ "|null|" ++ tail)
           "|null|" (link_cell str_of_json url)
         = "|" ++ c1 ++ "|" ++ c2 ++ "|" ++ c3 ++ "|" ++ c4
           ++ link_cell str_of_json url ++ tail).
Proof.
  split; [intros; now apply backfill_document_patch |].
  split.
  { intros markdown_row update_date title authors clean_paper_id code_link
           Hparse Hcode.
    unfold row_requests, patch_row. rewrite Hparse.
    apply String.eqb_neq in Hcode. now rewrite Hcode. }
  split.
  { intros markdown_row update_date title authors clean_paper_id Hparse.
    unfold row_requests, patch_row, fetch_code_url. rewrite Hparse.
    rewrite String.eqb_refl, backfill_try_fetch_try.
    split; [reflexivity |].
    destruct (fetch_try _) as [e | [url |]]; split;
      try reflexivity; try discriminate.
    now intros url' [= ->]. }
  intros c1 c2 c3 c4 tail url. apply replace_code_link_cell.
Qed.

Lemma backfill_patches_sentinel_rows_witness :
  wf_document
    [("SLAM", [("2401.00001", "|**2024-01-02**|**T**|A et.al.|[2401.00001](u)|null|")])]
  /\ document_parses
       [("SLAM", [("2401.00001", "|**2024-01-02**|**T**|A et.al.|[2401.00001](u)|null|")])]
     = true
  /\ backfill_document
       (fun _ => inr {| status_ok := true;
                        body := Some (JObj [("official",
                                             JObj [("url", JStr "c")])]) |})
       (fun _ => "") []
       [("SLAM", [("2401.00001", "|**2024-01-02**|**T**|A et.al.|[2401.00001](u)|null|")])]
     = inr ([PAPERS_WITH_CODE_BASE_URL ++ "2401.00001"],
            [("SLAM", [("2401.00001", "|**2024-01-02**|**T**|A et.al.|[2401.00001](u)|**[link](c)**|")])]).
Proof.
  assert (Hwf : wf_document
                  [("SLAM", [("2401.00001", "|**2024-01-02**|**T**|A et.al.|[2401.00001](u)|null|")])]).
  { unfold wf_document, wf_dict.
    repeat (constructor; simpl; try (intuition discriminate)). }
  split; [exact Hwf |]. split; [reflexivity |].
  exact (proj1 (backfill_patches_sentinel_rows _ _) [] _ Hwf eq_refl).
Defined.

(** C2, as stated, fails on a row with a second [null] cell: with a link
    reported, the first cell of [|null|t|a|[1]|null|] is rewritten along
    with the code-link cell. *)
Lemma backfill_rewrites_every_null_cell :
  backfill_document
    (fun _ => inr {| status_ok := true;
                     body := Some (JObj [("official",
                                          JObj [("url", JStr "c")])]) |})
    (fun _ => "") [] [("T", [("1", "|null|t|a|[1]|null|")])]
  = inr ([PAPERS_WITH_CODE_BASE_URL ++ "1"],
         [("T", [("1", "|**[link](c)**|t|a|[1]|**[link](c)**|")])])
  /\ parse_paper_info_from_markdown "|null|t|a|[1]|null|"
     = inr ("null", "t", "a", "1", "null")
  /\ parse_paper_info_from_markdown "|**[link](c)**|t|a|[1]|**[link](c)**|"
     = inr ("**[link](c)**", "t", "a", "1", "**[link](c)**").
Proof. repeat split; reflexivity. Qed.

(** ** Code-link lookup: a failure does not stop the pass *)

Lemma dict_keys_patch_entries (requests_get : string -> result http_response)
    (str_of_json : json -> string) (papers : entries) :
  dict_keys (patch_entries requests_get str_of_json papers) = dict_keys papers.
Proof.
  unfold patch_entries, dict_keys. rewrite map_map. now apply map_ext.
Qed.

Lemma dict_keys_patch_document (requests_get : string -> result http_response)
    (str_of_json : json -> string) (paper_data : document) :
  dict_keys (patch_document requests_get str_of_json paper_data)
  = dict_keys paper_data.
Proof.
  unfold patch_document, dict_keys. rewrite map_map. now apply map_ext.
Qed.

Lemma dict_get_patch_document (requests_get : string -> result http_response)
    (str_of_json : json -> string) (paper_data : document) (topic : string) :
  dict_get (patch_document requests_get str_of_json paper_data) topic
  = option_map (patch_entries requests_get str_of_json)
      (dict_get paper_data topic).
Proof.
  induction paper_data as [|[t papers] rest IH]; cbn; [reflexivity |].
  destruct (String.eqb t topic); [reflexivity | exact IH].
Qed.

Lemma dict_get_patch_entries (requests_get : string -> result http_response)
    (str_of_json : json -> string) (papers : entries) (paper_id : string) :
  dict_get (patch_entries requests_get str_of_json papers) paper_id
  = option_map (patch_row requests_get str_of_json) (dict_get papers paper_id).
Proof.
  induction papers as [|[k row] rest IH]; cbn; [reflexivity |].
  destruct (String.eqb k paper_id); [reflexivity | exact IH].
Qed.

(** The pass over a store all of whose rows parse, entry by entry. *)
Lemma backfill_goes_on (requests_get : string -> result http_response)
    (str_of_json : json -> string) (requested : list string)
    (paper_data : document) :
  wf_document paper_data ->
  document_parses paper_data = true ->
  exists requests patched,
    backfill_document requests_get str_of_json requested paper_data
    = inr ((requests ++ requested)%list, patched)
    /\ forall topic paper_id markdown_row update_date title authors
              clean_paper_id,
        lookup_entry paper_data topic paper_id = Some markdown_row ->
        parse_paper_info_from_markdown markdown_row
        = inr (update_date, title, authors, clean_paper_id, "null") ->
        In (PAPERS_WITH_CODE_BASE_URL ++ clean_paper_id) requests
        /\ (forall e,
               fetch_try
                 (requests_get (PAPERS_WITH_CODE_BASE_URL ++ clean_paper_id))
               = inl e ->
               lookup_entry patched topic paper_id = Some markdown_row)
        /\ (forall url,
               fetch_code_url
                 (requests_get (PAPERS_WITH_CODE_BASE_URL ++ clean_paper_id))
               = Some url ->
               lookup_entry patched topic paper_id
               = Some (PyStr.replace markdown_row "|null|"
                         (link_cell str_of_json url))).
Proof.
  intros Hwf Hparse.
  exists (rev (document_requests paper_data)).
  exists (patch_document requests_get str_of_json paper_data).
  split; [now apply backfill_document_patch |].
  intros topic paper_id markdown_row update_date title authors clean_paper_id
         Hlook Hrow.
  unfold lookup_entry in Hlook.
  destruct (dict_get paper_data topic) as [papers|] eqn:Htopic;
    [| discriminate].
  assert (Hpatched : lookup_entry
                       (patch_document requests_get str_of_json paper_data)
                       topic paper_id
                     = Some (patch_row requests_get str_of_json markdown_row)).
  { unfold lookup_entry. rewrite dict_get_patch_document, Htopic.
    cbn [option_map]. now rewrite dict_get_patch_entries, Hlook. }
  assert (Hcell : String.eqb "null" "null" = true) by reflexivity.
  split.
  { apply in_rev. rewrite rev_involutive.
    unfold document_requests. apply in_flat_map.
    exists (topic, papers). split; [now apply dict_get_in |].
    cbn [snd]. unfold entries_requests. apply in_flat_map.
    exists (paper_id, markdown_row). split; [now apply dict_get_in |].
    cbn [snd]. unfold row_requests. rewrite Hrow, Hcell. now left. }
  split.
  - intros e Htry. rewrite Hpatched. f_equal. unfold patch_row.
    now rewrite Hrow, Hcell, backfill_try_fetch_try, Htry.
  - intros url Hurl. rewrite Hpatched. f_equal. unfold patch_row.
    rewrite Hrow, Hcell, backfill_try_fetch_try.
    unfold fetch_code_url in Hurl.
    destruct (fetch_try _) as [e | [u |]]; congruence.
Qed.

(** C4. An exception raised while the code link of an item or of an
    entry is looked up (by [requests.get], by the status check, by the
    JSON decoding or by reading the payload) is caught on the spot and
    counts as "no link": the fetch and the backfill give what they give
    when the service answers those requests with a payload without an
    official link.  The fetch then returns an entry for every item found;
    the backfill leaves the entry as it was and goes on; no exception of
    the lookup leaves either of them.  Going on, for the backfill: on a
    store all of whose rows parse, the pass ends without an exception,
    and every entry whose code-link cell is the sentinel, wherever it
    stands among the lookups that failed, is asked about, stays as it
    was when its own lookup fails, and gets the link when one is
    reported for it. *)
Theorem resolver_failure_is_no_link
    (requests_get : string -> result http_response)
    (str_of_json : json -> string) :
  (forall url, succeeded (fetch_try (quiet requests_get url)) = true)
  /\ (forall url e,
         fetch_try (requests_get url) = inl e ->
         fetch_code_url (requests_get url) = None
         /\ quiet requests_get url = inr no_link_response)
  /\ (forall arxiv_results topic search_query max_results,
         fetch_daily_arxiv_papers requests_get str_of_json arxiv_results
           topic search_query max_results
         = fetch_daily_arxiv_papers (quiet requests_get) str_of_json
             arxiv_results topic search_query max_results)
  /\ (forall arxiv_results topic search_query max_results,
         snd (arxiv_results search_query max_results) = None ->
         exists table items,
           fetch_daily_arxiv_papers requests_get str_of_json arxiv_results
             topic search_query max_results
           = inr ([(topic, table)], [(topic, items)])
           /\ forall p,
               In p (fst (arxiv_results search_query max_results)) ->
               dict_mem (clean_id (short_id p)) table = true
               /\ dict_mem (clean_id (short_id p)) items = true)
  /\ (forall topic requested paper_data paper_id markdown_row
             update_date title authors clean_paper_id e,
         parse_paper_info_from_markdown markdown_row
         = inr (update_date, title, authors, clean_paper_id, "null") ->
         fetch_try (requests_get (PAPERS_WITH_CODE_BASE_URL ++ clean_paper_id))
         = inl e ->
         backfill_entry requests_get str_of_json topic
           (requested, paper_data) (paper_id, markdown_row)
         = inr ((PAPERS_WITH_CODE_BASE_URL ++ clean_paper_id) :: requested,
                paper_data))
  /\ (forall requested paper_data,
         backfill_document requests_get str_of_json requested paper_data
         = backfill_document (quiet requests_get) str_of_json requested
             paper_data)
  /\ (forall requested paper_data e,
         backfill_document requests_get str_of_json requested paper_data
         = inl e ->
         e = IndexError
         /\ exists topic papers paper_id markdown_row,
             In (topic, papers) paper_data
             /\ In (paper_id, markdown_row) papers
             /\ parse_paper_info_from_markdown markdown_row = inl IndexError)
  /\ (forall requested paper_data,
         wf_document paper_data ->
         document_parses paper_data = true ->
         exists requests patched,
           backfill_document requests_get str_of_json requested paper_data
           = inr ((requests ++ requested)%list, patched)
           /\ forall topic paper_id markdown_row update_date title authors
                     clean_paper_id,
               lookup_entry paper_data topic paper_id = Some markdown_row ->
               parse_paper_info_from_markdown markdown_row
               = inr (update_date, title, authors, clean_paper_id, "null") ->
               In (PAPERS_WITH_CODE_BASE_URL ++ clean_paper_id) requests
               /\ (forall e,
                      fetch_try
                        (requests_get
                           (PAPERS_WITH_CODE_BASE_URL ++ clean_paper_id))
                      = inl e ->
                      lookup_entry patched topic paper_id = Some markdown_row)
               /\ (forall url,
                      fetch_code_url
                        (requests_get
                           (PAPERS_WITH_CODE_BASE_URL ++ clean_paper_id))
                      = Some url ->
                      lookup_entry patched topic paper_id
                      = Some (PyStr.replace markdown_row "|null|"
                                (link_cell str_of_json url)))).
Proof.
  split; [apply fetch_try_quiet |].
  split.
  { intros url e Htry. unfold fetch_code_url, quiet. now rewrite Htry. }
  split.
  { intros arxiv_results topic q n. unfold fetch_daily_arxiv_papers.
    destruct (arxiv_results q n) as [found failure].
    now rewrite fold_fetch_item_quiet. }
  split.
  { intros arxiv_results topic q n Hnone. unfold fetch_daily_arxiv_papers.
    destruct (arxiv_results q n) as [found failure]. cbn [fst snd] in *.
    subst failure.
    pose proof (fold_fetch_item_keys requests_get str_of_json found ([], []))
      as Hkeys. cbn zeta in Hkeys.
    destruct (fold_left (fetch_item requests_get str_of_json) found ([], []))
      as [table items].
    exists table, items. split; [reflexivity |].
    intros p Hin. apply Hkeys. right. now exists p. }
  split.
  { intros topic requested paper_data paper_id markdown_row update_date title
           authors clean_paper_id e Hparse Htry.
    unfold backfill_entry. rewrite Hparse. cbn [bind].
    rewrite String.eqb_refl.
    pose proof (backfill_try_raises str_of_json
                  (requests_get (PAPERS_WITH_CODE_BASE_URL ++ clean_paper_id))
                  markdown_row) as Hraise.
    rewrite Htry in Hraise. now rewrite Hraise. }
  split.
  { intros requested paper_data. symmetry. apply backfill_document_quiet. }
  split; [| exact (backfill_goes_on requests_get str_of_json)].
  intros requested paper_data e Hfail.
  split; [now apply backfill_document_raises in Hfail |].
  revert Hfail. unfold backfill_document.
  generalize (requested, paper_data) as st.
  assert (Hall : forall tp, In tp paper_data -> In tp paper_data) by auto.
  revert Hall. generalize paper_data at 1 3 as topics.
  induction topics as [|[topic papers] topics IH]; intros Hall st;
    cbn [for_each].
  - discriminate.
  - destruct (backfill_topic requests_get str_of_json st (topic, papers))
      as [e' | st'] eqn:Htopic; cbn [bind].
    + intros [= <-]. exists topic, papers.
      assert (Hin : In (topic, papers) paper_data) by (apply Hall; now left).
      clear IH Hall. revert st Htopic. unfold backfill_topic.
      assert (Hsub : forall en, In en papers -> In en papers) by auto.
      revert Hsub. generalize papers at 1 3 as rest.
      induction rest as [|[paper_id markdown_row] rest IHr]; intros Hsub st;
        cbn [for_each].
      * discriminate.
      * destruct (backfill_entry requests_get str_of_json topic st
                    (paper_id, markdown_row)) as [e'' | st''] eqn:Hentry;
          cbn [bind].
        -- intros [= <-]. exists paper_id, markdown_row.
           split; [exact Hin |]. split; [apply Hsub; now left |].
           unfold backfill_entry in Hentry. destruct st as [rq pd].
           destruct (parse_paper_info_from_markdown markdown_row)
             as [e3 | [[[[? ?] ?] ?] code]] eqn:Hparse; cbn [bind] in Hentry.
           ++ injection Hentry as ->.
              now rewrite (parse_raises_index_error _ _ Hparse)
                in Hparse |- *.
           ++ destruct (String.eqb code "null"); [| discriminate].
              now destruct (backfill_try _ _ _) as [? | [?|]].
        -- apply IHr. intros en Hen. apply Hsub. now right.
    + apply IH. intros tp Htp. apply Hall. now right.
Qed.

Lemma resolver_failure_is_no_link_witness :
  (fetch_try ((fun _ : string => inl ConnectionError) "u") = inl ConnectionError
   /\ fetch_code_url ((fun _ : string => inl ConnectionError) "u") = None)
  /\ wf_document [("T", [("1", "|a|b|c|[1](u)|null|")]);
                  ("S", [("2", "|a|b|c|[2](u)|null|")])]
  /\ exists requests patched,
      backfill_document
        (fun url =>
           if String.eqb url (PAPERS_WITH_CODE_BASE_URL ++ "1")
           then inl ConnectionError
           else inr {| status_ok := true;
                       body := Some (JObj [("official",
                                            JObj [("url", JStr "L")])]) |})
        (fun _ => "") []
        [("T", [("1", "|a|b|c|[1](u)|null|")]);
         ("S", [("2", "|a|b|c|[2](u)|null|")])]
      = inr ((requests ++ [])%list, patched)
      /\ lookup_entry patched "T" "1" = Some "|a|b|c|[1](u)|null|"
      /\ In (PAPERS_WITH_CODE_BASE_URL ++ "2") requests
      /\ lookup_entry patched "S" "2" = Some "|a|b|c|[2](u)|**[link](L)**|".
Proof.
  assert (Hwf : wf_document [("T", [("1", "|a|b|c|[1](u)|null|")]);
                             ("S", [("2", "|a|b|c|[2](u)|null|")])]).
  { unfold wf_document, wf_dict.
    repeat (constructor; simpl; try (intuition discriminate)). }
  split.
  { split; [reflexivity |].
    apply (proj1 (proj1 (proj2 (resolver_failure_is_no_link
                                  (fun _ => inl ConnectionError) (fun _ => "")))
                    "u" ConnectionError eq_refl)). }
  split; [exact Hwf |].
  destruct (proj2 (proj2 (proj2 (proj2 (proj2 (proj2 (proj2
              (resolver_failure_is_no_link
                 (fun url =>
                    if String.eqb url (PAPERS_WITH_CODE_BASE_URL ++ "1")
                    then inl ConnectionError
                    else inr {| status_ok := true;
                                body := Some (JObj [("official",
                                                     JObj [("url", JStr "L")])])
                             |})
                 (fun _ => "")))))))) []
              [("T", [("1", "|a|b|c|[1](u)|null|")]);
               ("S", [("2", "|a|b|c|[2](u)|null|")])] Hwf eq_refl)
    as (requests & patched & Hrun & Hall).
  exists requests, patched. split; [exact Hrun |].
  destruct (Hall "T" "1" "|a|b|c|[1](u)|null|" "a" "b" "c" "1"
              eq_refl eq_refl) as (_ & Hfirst & _).
  destruct (Hall "S" "2" "|a|b|c|[2](u)|null|" "a" "b" "c" "2"
              eq_refl eq_refl) as (Hasked & _ & Hsecond).
  split; [exact (Hfirst ConnectionError eq_refl) |].
  split; [exact Hasked |].
  exact (Hsecond (JStr "L") eq_refl).
Defined.

(** * Further properties *)

(** ** Renderer: order of the entries of a topic *)

Lemma insert_desc_perm (k : string) (l : list string) :
  Permutation (k :: l) (insert_desc k l).
Proof.
  induction l as [|k' l IH]; cbn [insert_desc].
  - apply Permutation_refl.
  - destruct (String.leb k' k); [apply Permutation_refl |].
    eapply perm_trans; [apply perm_swap |]. now apply perm_skip.
Qed.

Lemma sorted_desc_perm (l : list string) : Permutation l (sorted_desc l).
Proof.
  induction l as [|k l IH]; cbn [sorted_desc fold_right].
  - apply perm_nil.
  - eapply perm_trans; [apply perm_skip, IH |]. apply insert_desc_perm.
Qed.

Lemma insert_desc_head (k k' : string) (l : list string) :
  String.leb k' k = false ->
  HdRel (fun a b => String.leb b a = true) k' l ->
  HdRel (fun a b => String.leb b a = true) k' (insert_desc k l).
Proof.
  intros Hk Hl. destruct l as [|x l]; cbn [insert_desc].
  - constructor. destruct (String.leb_total k k') as [H | H]; congruence.
  - destruct (String.leb x k).
    + constructor. destruct (String.leb_total k k') as [H | H]; congruence.
    + constructor. now inversion Hl.
Qed.

Lemma insert_desc_sorted (k : string) (l : list string) :
  Sorted (fun a b => String.leb b a = true) l ->
  Sorted (fun a b => String.leb b a = true) (insert_desc k l).
Proof.
  induction l as [|k' l IH]; intros Hl; cbn [insert_desc].
  - repeat constructor.
  - destruct (String.leb k' k) eqn:Hk.
    + constructor; [exact Hl | now constructor].
    + inversion Hl; subst. constructor; [now apply IH |].
      now apply insert_desc_head.
Qed.

Lemma sorted_desc_sorted (l : list string) :
  Sorted (fun a b => String.leb b a = true) (sorted_desc l).
Proof.
  induction l as [|k l IH]; cbn [sorted_desc fold_right].
  - constructor.
  - now apply insert_desc_sorted.
Qed.

Lemma dict_get_of_key {V : Type} (d : dict V) (k : string) :
  In k (dict_keys d) -> dict_get d k <> None.
Proof.
  induction d as [|[k' v'] d IH]; simpl; [tauto |].
  destruct (String.eqb_spec k' k) as [->|Hne]; [discriminate |].
  intros [Heq | Hin]; [congruence | now apply IH].
Qed.

(** The comprehension of [sort_papers_by_id_desc] over keys that are all
    different: each key is appended, bound to its text. *)
Lemma sort_comprehension_keys (papers : entries) (ks : list string) :
  forall acc : entries,
    NoDup ks ->
    (forall k, In k ks -> ~ In k (dict_keys acc)) ->
    (forall k, In k ks -> dict_get papers k <> None) ->
    dict_keys
      (fold_left
         (fun acc paper_id =>
            match dict_get papers paper_id with
            | Some text => dict_set acc paper_id text
            | None => acc
            end) ks acc)
    = (dict_keys acc ++ ks)%list.
Proof.
  induction ks as [|k ks IH]; intros acc Hnd Hfresh Hin; cbn [fold_left].
  - now rewrite app_nil_r.
  - inversion Hnd as [|? ? Hk Hnd']; subst.
    destruct (dict_get papers k) as [text|] eqn:Hget.
    2:{ exfalso. apply (Hin k); [now left | exact Hget]. }
    rewrite IH.
    + rewrite dict_keys_set. unfold dict_mem.
      rewrite (dict_get_none acc k) by (apply Hfresh; now left).
      now rewrite <- app_assoc.
    + exact Hnd'.
    + intros k' Hk'. rewrite dict_keys_set. unfold dict_mem.
      rewrite (dict_get_none acc k) by (apply Hfresh; now left).
      intros Habs. apply in_app_or in Habs as [Habs | [<- | []]].
      * apply (Hfresh k'); [now right | exact Habs].
      * contradiction.
    + intros k' Hk'. apply Hin. now right.
Qed.

Lemma sort_comprehension_get (papers : entries) (ks : list string) (k : string) :
  forall acc : entries,
    dict_get
      (fold_left
         (fun acc paper_id =>
            match dict_get papers paper_id with
            | Some text => dict_set acc paper_id text
            | None => acc
            end) ks acc) k
    = if in_dec string_dec k ks
      then match dict_get papers k with
           | Some text => Some text
           | None => dict_get acc k
           end
      else dict_get acc k.
Proof.
  induction ks as [|k0 ks IH]; intros acc; cbn [fold_left].
  - reflexivity.
  - rewrite IH. clear IH.
    destruct (in_dec string_dec k ks) as [Hin | Hnin];
      destruct (in_dec string_dec k (k0 :: ks)) as [Hin' | Hnin'];
      try (exfalso; apply Hnin'; now right).
    + destruct (dict_get papers k) eqn:Hk; [reflexivity |].
      destruct (dict_get papers k0) as [text0|] eqn:H0; [| reflexivity].
      apply dict_get_set_ne. intros ->. congruence.
    + destruct Hin' as [-> | Hin']; [| contradiction].
      destruct (dict_get papers k) as [text|]; [| reflexivity].
      apply dict_get_set_eq.
    + destruct (dict_get papers k0) as [text0|]; [| reflexivity].
      apply dict_get_set_ne. intros ->. apply Hnin'. now left.
Qed.

(** X1. Sorting the entries of a topic keeps every binding and puts the
    identifiers in descending order: the identifiers of the result are
    those of the mapping, each once, every identifier is followed by one
    that is not greater, and each has the text it had. *)
Theorem sort_papers_by_id_desc_descending (papers : entries) :
  wf_dict papers ->
  Sorted (fun a b => String.leb b a = true)
    (dict_keys (sort_papers_by_id_desc papers))
  /\ Permutation (dict_keys papers) (dict_keys (sort_papers_by_id_desc papers))
  /\ wf_dict (sort_papers_by_id_desc papers)
  /\ (forall paper_id,
         dict_get (sort_papers_by_id_desc papers) paper_id
         = dict_get papers paper_id).
Proof.
  intros Hwf.
  assert (Hkeys : dict_keys (sort_papers_by_id_desc papers)
                  = sorted_desc (dict_keys papers)).
  { unfold sort_papers_by_id_desc.
    rewrite sort_comprehension_keys; [reflexivity | | tauto |].
    - apply (Permutation_NoDup (sorted_desc_perm _)). exact Hwf.
    - intros k Hk. apply dict_get_of_key.
      apply (Permutation_in _ (Permutation_sym (sorted_desc_perm _))).
      exact Hk. }
  split; [rewrite Hkeys; apply sorted_desc_sorted |].
  split; [rewrite Hkeys; apply sorted_desc_perm |].
  split.
  { unfold wf_dict. rewrite Hkeys.
    apply (Permutation_NoDup (sorted_desc_perm _)). exact Hwf. }
  intros k. unfold sort_papers_by_id_desc.
  rewrite sort_comprehension_get. cbn [dict_get].
  destruct (in_dec string_dec k (sorted_desc (dict_keys papers)))
    as [Hin | Hnin].
  - now destruct (dict_get papers k).
  - symmetry. apply dict_get_none. intros Hk. apply Hnin.
    now apply (Permutation_in _ (sorted_desc_perm _)).
Qed.

Lemma sort_papers_by_id_desc_descending_witness :
  wf_dict [("2301.00001", "a"); ("2401.00002", "b")]
  /\ dict_keys (sort_papers_by_id_desc
                  [("2301.00001", "a"); ("2401.00002", "b")])
     = ["2401.00002"; "2301.00001"]
  /\ Sorted (fun a b => String.leb b a = true)
       (dict_keys (sort_papers_by_id_desc
                     [("2301.00001", "a"); ("2401.00002", "b")])).
Proof.
  assert (Hwf : wf_dict [("2301.00001", "a"); ("2401.00002", "b")]).
  { unfold wf_dict. repeat (constructor; simpl; try (intuition discriminate)). }
  split; [exact Hwf |]. split; [reflexivity |].
  exact (proj1 (sort_papers_by_id_desc_descending _ Hwf)).
Defined.

(** ** Record store: what a merge does to the order and on a second run *)

Lemma dict_keys_set_extends {V : Type} (d : dict V) (k : string) (v : V) :
  exists added, dict_keys (dict_set d k v) = (dict_keys d ++ added)%list.
Proof.
  rewrite dict_keys_set. destruct (dict_mem k d).
  - exists []. now rewrite app_nil_r.
  - now exists [k].
Qed.

Lemma dict_keys_update_extends {V : Type} (other : dict V) :
  forall d : dict V,
    exists added, dict_keys (dict_update d other) = (dict_keys d ++ added)%list.
Proof.
  unfold dict_update.
  induction other as [|[k v] other IH]; intros d; cbn [fold_left fst snd].
  - exists []. now rewrite app_nil_r.
  - destruct (IH (dict_set d k v)) as (added & ->).
    destruct (dict_keys_set_extends d k v) as (added' & ->).
    exists (added' ++ added)%list. now rewrite app_assoc.
Qed.

(** One mapping merged: the topics keep their places, and so do the
    identifiers of every topic that was there. *)
Lemma merge_topic_extends (doc : document) (tp : string * entries) :
  (exists added,
      dict_keys (merge_topic doc tp) = (dict_keys doc ++ added)%list)
  /\ (forall topic stored,
         dict_get doc topic = Some stored ->
         exists merged added,
           dict_get (merge_topic doc tp) topic = Some merged
           /\ dict_keys merged = (dict_keys stored ++ added)%list).
Proof.
  destruct tp as [t new_papers]. unfold merge_topic. split.
  - destruct (dict_get doc t); apply dict_keys_set_extends.
  - intros topic stored Hget.
    destruct (String.eqb_spec t topic) as [->|Hne].
    + rewrite Hget, dict_get_set_eq.
      destruct (dict_keys_update_extends new_papers stored) as (added & H).
      now exists (dict_update stored new_papers), added.
    + exists stored, []. rewrite app_nil_r. split; [| reflexivity].
      destruct (dict_get doc t); now rewrite dict_get_set_ne.
Qed.

Lemma merge_batch_extends (batch : list document) :
  forall doc : document,
    (exists added,
        dict_keys (merge_batch doc batch) = (dict_keys doc ++ added)%list)
    /\ (forall topic stored,
           dict_get doc topic = Some stored ->
           exists merged added,
             dict_get (merge_batch doc batch) topic = Some merged
             /\ dict_keys merged = (dict_keys stored ++ added)%list).
Proof.
  assert (Hone : forall (d : document) (doc : document),
             (exists added,
                 dict_keys (fold_left merge_topic d doc)
                 = (dict_keys doc ++ added)%list)
             /\ (forall topic stored,
                    dict_get doc topic = Some stored ->
                    exists merged added,
                      dict_get (fold_left merge_topic d doc) topic = Some merged
                      /\ dict_keys merged = (dict_keys stored ++ added)%list)).
  { induction d as [|tp d IH]; intros doc; cbn [fold_left].
    - split; [exists []; now rewrite app_nil_r |].
      intros topic stored H. exists stored, [].
      now rewrite app_nil_r.
    - destruct (merge_topic_extends doc tp) as [(a1 & Hk1) Hin1].
      destruct (IH (merge_topic doc tp)) as [(a2 & Hk2) Hin2].
      split.
      + exists (a1 ++ a2)%list. now rewrite Hk2, Hk1, app_assoc.
      + intros topic stored H.
        destruct (Hin1 topic stored H) as (m1 & b1 & Hm1 & Hb1).
        destruct (Hin2 topic m1 Hm1) as (m2 & b2 & Hm2 & Hb2).
        exists m2, (b1 ++ b2)%list. split; [exact Hm2 |].
        now rewrite Hb2, Hb1, app_assoc. }
  unfold merge_batch.
  induction batch as [|d batch IH]; intros doc; cbn [fold_left].
  - split; [exists []; now rewrite app_nil_r |].
    intros topic stored H. exists stored, []. now rewrite app_nil_r.
  - destruct (Hone d doc) as [(a1 & Hk1) Hin1].
    destruct (IH (fold_left merge_topic d doc)) as [(a2 & Hk2) Hin2].
    split.
    + exists (a1 ++ a2)%list. now rewrite Hk2, Hk1, app_assoc.
    + intros topic stored H.
      destruct (Hin1 topic stored H) as (m1 & b1 & Hm1 & Hb1).
      destruct (Hin2 topic m1 Hm1) as (m2 & b2 & Hm2 & Hb2).
      exists m2, (b1 ++ b2)%list. split; [exact Hm2 |].
      now rewrite Hb2, Hb1, app_assoc.
Qed.

(** X2. A merge never reorders what the store holds: the topics of the
    store stay first, in their order, with the new topics after them,
    and inside every stored topic the stored identifiers stay first, in
    their order, with the new identifiers after them. *)
Theorem merge_batch_keeps_order
    (existing_data : document) (new_papers_data : list document) :
  (exists added,
      dict_keys (merge_batch existing_data new_papers_data)
      = (dict_keys existing_data ++ added)%list)
  /\ (forall topic stored,
         dict_get existing_data topic = Some stored ->
         exists merged added,
           dict_get (merge_batch existing_data new_papers_data) topic
           = Some merged
           /\ dict_keys merged = (dict_keys stored ++ added)%list).
Proof. apply merge_batch_extends. Qed.

Lemma merge_batch_keeps_order_witness :
  dict_get [("A", [("1", "x"); ("2", "y")])] "A" = Some [("1", "x"); ("2", "y")]
  /\ exists merged added,
      dict_get (merge_batch [("A", [("1", "x"); ("2", "y")])]
                  [[("B", [("7", "z")])]; [("A", [("3", "w"); ("1", "n")])]])
        "A" = Some merged
      /\ dict_keys merged = (["1"; "2"] ++ added)%list.
Proof.
  split; [reflexivity |].
  exact (proj2 (merge_batch_keeps_order
                  [("A", [("1", "x"); ("2", "y")])]
                  [[("B", [("7", "z")])]; [("A", [("3", "w"); ("1", "n")])]])
           "A" [("1", "x"); ("2", "y")] eq_refl).
Defined.

(** A fold of steps that either set the value or keep it gives the last
    value set, or the starting value when none is set. *)
Lemma fold_override {A B : Type} (f : A -> option B) (l : list A) :
  forall cur : option B,
    fold_left (fun c x => match f x with Some v => Some v | None => c end) l cur
    = match fold_left
              (fun c x => match f x with Some v => Some v | None => c end)
              l None with
      | Some v => Some v
      | None => cur
      end.
Proof.
  induction l as [|x l IH]; intros cur; cbn [fold_left].
  - reflexivity.
  - rewrite IH. rewrite (IH (match f x with Some v => Some v | None => None end)).
    destruct (fold_left _ l None); [reflexivity |].
    now destruct (f x).
Qed.

Lemma overlay_override (topic paper_id : string) (new_topic_data : document)
    (cur : option string) :
  overlay topic paper_id cur new_topic_data
  = match overlay topic paper_id None new_topic_data with
    | Some text => Some text
    | None => cur
    end.
Proof.
  unfold overlay.
  assert (Hstep : forall c tp,
             overlay_topic topic paper_id c tp
             = match (if String.eqb (fst tp) topic
                      then dict_get (snd tp) paper_id else None) with
               | Some v => Some v
               | None => c
               end).
  { intros c tp. unfold overlay_topic.
    now destruct (String.eqb (fst tp) topic). }
  assert (Hfold : forall c,
             fold_left (overlay_topic topic paper_id) new_topic_data c
             = fold_left
                 (fun c tp =>
                    match (if String.eqb (fst tp) topic
                           then dict_get (snd tp) paper_id else None) with
                    | Some v => Some v
                    | None => c
                    end) new_topic_data c).
  { induction new_topic_data as [|tp d IH]; intros c; cbn [fold_left].
    - reflexivity.
    - now rewrite Hstep, IH. }
  rewrite !Hfold. apply fold_override.
Qed.

Lemma overlay_batch_override (batch : list document) (topic paper_id : string)
    (cur : option string) :
  fold_left (overlay topic paper_id) batch cur
  = match fold_left (overlay topic paper_id) batch None with
    | Some text => Some text
    | None => cur
    end.
Proof.
  assert (Hfold : forall c,
             fold_left (overlay topic paper_id) batch c
             = fold_left
                 (fun c d =>
                    match overlay topic paper_id None d with
                    | Some v => Some v
                    | None => c
                    end) batch c).
  { induction batch as [|d batch IH]; intros c; cbn [fold_left].
    - reflexivity.
    - now rewrite overlay_override, IH. }
  rewrite !Hfold. apply fold_override.
Qed.

(** X3. Merging the same batch a second time changes no entry: after
    the second merge every identifier of every topic has the text it
    had after the first. *)
Theorem merge_batch_twice
    (existing_data : document) (new_papers_data : list document) :
  Forall wf_document new_papers_data ->
  forall topic paper_id,
    lookup_entry
      (merge_batch (merge_batch existing_data new_papers_data) new_papers_data)
      topic paper_id
    = lookup_entry (merge_batch existing_data new_papers_data) topic paper_id.
Proof.
  intros Hwf topic paper_id.
  rewrite !lookup_entry_merge_batch by assumption.
  rewrite (overlay_batch_override new_papers_data topic paper_id
             (fold_left _ _ _)).
  rewrite (overlay_batch_override new_papers_data topic paper_id
             (lookup_entry existing_data topic paper_id)).
  now destruct (fold_left (overlay topic paper_id) new_papers_data None).
Qed.

Lemma merge_batch_twice_witness :
  Forall wf_document [[("A", [("1", "n")])]; [("A", [("1", "m"); ("2", "w")])]]
  /\ lookup_entry
       (merge_batch
          (merge_batch [("A", [("1", "x")])]
             [[("A", [("1", "n")])]; [("A", [("1", "m"); ("2", "w")])]])
          [[("A", [("1", "n")])]; [("A", [("1", "m"); ("2", "w")])]])
       "A" "1" = Some "m".
Proof.
  assert (Hwf : Forall wf_document
                  [[("A", [("1", "n")])]; [("A", [("1", "m"); ("2", "w")])]]).
  { unfold wf_document, wf_dict.
    repeat (constructor; simpl; try (intuition discriminate)). }
  split; [exact Hwf |].
  exact (merge_batch_twice [("A", [("1", "x")])] _ Hwf "A" "1").
Defined.

(** ** Record store: when the backfill raises *)

Lemma for_each_succeeded {A S : Type} (body : S -> A -> result S)
    (ok : A -> bool) (l : list A) :
  (forall st a, succeeded (body st a) = ok a) ->
  forall st, succeeded (for_each body l st) = forallb ok l.
Proof.
  intros Hbody. induction l as [|a l IH]; intros st; cbn [for_each forallb].
  - reflexivity.
  - specialize (Hbody st a). destruct (body st a) as [e | st']; cbn [bind].
    + cbn [succeeded] in *. now rewrite <- Hbody.
    + cbn [succeeded] in Hbody. rewrite <- Hbody. apply IH.
Qed.

Lemma backfill_entry_succeeded (requests_get : string -> result http_response)
    (str_of_json : json -> string) (topic : string) (st : backfill_state)
    (entry : string * string) :
  succeeded (backfill_entry requests_get str_of_json topic st entry)
  = succeeded (parse_paper_info_from_markdown (snd entry)).
Proof.
  unfold backfill_entry. destruct st as [requested paper_data].
  destruct entry as [paper_id markdown_row]. cbn [snd].
  destruct (parse_paper_info_from_markdown markdown_row)
    as [e | [[[[update_date title] authors] clean_paper_id] old_code_link]];
    cbn [bind]; [reflexivity |].
  destruct (String.eqb old_code_link "null"); [| reflexivity].
  now destruct (backfill_try _ _ _) as [? | [?|]].
Qed.

Lemma backfill_document_succeeded
    (requests_get : string -> result http_response)
    (str_of_json : json -> string) (requested : list string)
    (paper_data : document) :
  succeeded (backfill_document requests_get str_of_json requested paper_data)
  = document_parses paper_data.
Proof.
  unfold backfill_document, document_parses.
  apply for_each_succeeded. intros st [topic papers].
  unfold backfill_topic, entries_parse. cbn [snd].
  apply for_each_succeeded. intros st' entry.
  apply backfill_entry_succeeded.
Qed.

(** X4. The backfill goes through exactly when every row of the store
    parses as a table row.  One row that does not parse, anywhere in the
    store, makes the whole pass raise [IndexError], and
    [update_paper_code_links] then ends with that exception instead of
    writing the store. *)
Theorem backfill_document_raises_on_bad_row
    (requests_get : string -> result http_response)
    (str_of_json : json -> string) (requested : list string)
    (paper_data : document) :
  (document_parses paper_data = true ->
   exists st,
     backfill_document requests_get str_of_json requested paper_data = inr st)
  /\ (document_parses paper_data = false ->
      backfill_document requests_get str_of_json requested paper_data
      = inl IndexError
      /\ forall json_loads json_dumps write_error fs json_file_path,
          load_store json_loads fs json_file_path = inr paper_data ->
          requested = [] ->
          update_paper_code_links json_loads json_dumps requests_get
            str_of_json write_error fs json_file_path
          = inl IndexError).
Proof.
  pose proof (backfill_document_succeeded requests_get str_of_json requested
                paper_data) as Hok.
  split; intros Hparse; rewrite Hparse in Hok.
  - destruct (backfill_document _ _ _ _) as [e | st]; [discriminate |].
    now exists st.
  - assert (Hfail : backfill_document requests_get str_of_json requested
                      paper_data = inl IndexError).
    { destruct (backfill_document _ _ _ _) as [e | st] eqn:Hrun;
        [| discriminate].
      now rewrite (backfill_document_raises _ _ _ _ _ Hrun). }
    split; [exact Hfail |].
    intros json_loads json_dumps write_error fs json_file_path Hload ->.
    unfold update_paper_code_links. rewrite Hload. cbn [bind].
    now rewrite Hfail.
Qed.

Lemma backfill_document_raises_on_bad_row_witness :
  document_parses [("T", [("1", "|a|b|c|[1](u)|null|"); ("2", "no cells")])]
  = false
  /\ backfill_document (fun _ => inl ConnectionError) (fun _ => "") []
       [("T", [("1", "|a|b|c|[1](u)|null|"); ("2", "no cells")])]
     = inl IndexError.
Proof.
  split; [reflexivity |].
  exact (proj1 (proj2 (backfill_document_raises_on_bad_row
                         (fun _ => inl ConnectionError) (fun _ => "") []
                         [("T", [("1", "|a|b|c|[1](u)|null|");
                                 ("2", "no cells")])])
                  eq_refl)).
Defined.

Lemma backfill_document_not_parsing
    (requests_get : string -> result http_response)
    (str_of_json : json -> string) (requested : list string)
    (paper_data : document) :
  document_parses paper_data = false ->
  backfill_document requests_get str_of_json requested paper_data
  = inl IndexError.
Proof.
  intros Hparse.
  pose proof (backfill_document_succeeded requests_get str_of_json requested
                paper_data) as Hok.
  rewrite Hparse in Hok.
  destruct (backfill_document _ _ _ _) as [e | st] eqn:Hrun; [| discriminate].
  now rewrite (backfill_document_raises _ _ _ _ _ Hrun).
Qed.

(** *** Rows without cells *)

Lemma occurs_app (c : ascii) (a b : string) :
  occurs c (a ++ b) = occurs c a || occurs c b.
Proof.
  induction a as [|x a IH]; simpl; [reflexivity |].
  now rewrite IH, orb_assoc.
Qed.

Lemma split_char_from_no_sep (sep : ascii) (s fld : string) :
  occurs sep s = false -> PyStr.split_char_from sep s fld = [fld ++ s].
Proof.
  revert fld. induction s as [|x s IH]; intros fld Hs; simpl in *.
  - now rewrite append_nil_r.
  - apply orb_false_iff in Hs as [Hx Hs].
    rewrite Hx, IH by assumption. now rewrite append_assoc.
Qed.

Lemma parse_row_without_pipe (markdown_row : string) :
  occurs "|" markdown_row = false ->
  parse_paper_info_from_markdown markdown_row = inl IndexError.
Proof.
  intros Hrow. unfold parse_paper_info_from_markdown, PyStr.split_char.
  now rewrite split_char_from_no_sep.
Qed.

Lemma document_parses_bad_row (paper_data : document) (topic : string)
    (papers : entries) (paper_id markdown_row : string) :
  In (topic, papers) paper_data ->
  In (paper_id, markdown_row) papers ->
  succeeded (parse_paper_info_from_markdown markdown_row) = false ->
  document_parses paper_data = false.
Proof.
  intros Ht Hp Hrow.
  destruct (document_parses paper_data) eqn:Hall; [| reflexivity].
  unfold document_parses in Hall. rewrite forallb_forall in Hall.
  specialize (Hall _ Ht). cbn [snd] in Hall.
  unfold entries_parse in Hall. rewrite forallb_forall in Hall.
  specialize (Hall _ Hp). cbn [snd] in Hall. congruence.
Qed.

Lemma list_item_without_pipe (str_of_json : json -> string)
    (update_date paper_title first_author clean_arxiv_url : string)
    (code_url : option json) (paper_comments : option string) :
  occurs "|" update_date = false ->
  occurs "|" paper_title = false ->
  occurs "|" first_author = false ->
  occurs "|" clean_arxiv_url = false ->
  occurs "|" (format_value str_of_json code_url) = false ->
  (forall c, paper_comments = Some c -> occurs "|" c = false) ->
  occurs "|"
    (list_item_of str_of_json update_date paper_title first_author
       clean_arxiv_url code_url paper_comments) = false.
Proof.
  intros Hd Ht Ha Hu Hc Hcomment. unfold list_item_of.
  assert (Hitem : occurs "|"
            (if code_url_truthy code_url
             then "- " ++ update_date ++ ", **" ++ paper_title ++ "**, "
                  ++ first_author ++ ", Paper: [" ++ clean_arxiv_url ++ "]("
                  ++ clean_arxiv_url ++ "), Code: **["
                  ++ format_value str_of_json code_url ++ "]("
                  ++ format_value str_of_json code_url ++ ")**"
             else "- " ++ update_date ++ ", **" ++ paper_title ++ "**, "
                  ++ first_author ++ ", Paper: [" ++ clean_arxiv_url ++ "]("
                  ++ clean_arxiv_url ++ ")") = false).
  { destruct (code_url_truthy code_url);
      repeat (rewrite occurs_app, ?Hd, ?Ht, ?Ha, ?Hu, ?Hc; cbn [orb]);
      reflexivity. }
  destruct paper_comments as [c|].
  - specialize (Hcomment c eq_refl).
    destruct (PyStr.truthy c);
      repeat (rewrite occurs_app, ?Hitem, ?Hcomment; cbn [orb]); reflexivity.
  - rewrite occurs_app, Hitem. reflexivity.
Qed.

(** X5. The backfill cannot read a store of list entries: a row with no
    pipe in it does not parse, so a store that holds one such row, which
    is every list entry the fetch writes from fields without pipes,
    makes the pass raise [IndexError]. *)
Theorem backfill_raises_on_list_entries
    (requests_get : string -> result http_response)
    (str_of_json : json -> string) :
  (forall requested paper_data topic papers paper_id markdown_row,
      In (topic, papers) paper_data ->
      In (paper_id, markdown_row) papers ->
      occurs "|" markdown_row = false ->
      backfill_document requests_get str_of_json requested paper_data
      = inl IndexError)
  /\ (forall update_date paper_title first_author clean_arxiv_url code_url
             paper_comments,
         occurs "|" update_date = false ->
         occurs "|" paper_title = false ->
         occurs "|" first_author = false ->
         occurs "|" clean_arxiv_url = false ->
         occurs "|" (format_value str_of_json code_url) = false ->
         (forall c, paper_comments = Some c -> occurs "|" c = false) ->
         parse_paper_info_from_markdown
           (list_item_of str_of_json update_date paper_title first_author
              clean_arxiv_url code_url paper_comments)
         = inl IndexError).
Proof.
  split.
  - intros requested paper_data topic papers paper_id markdown_row Ht Hp Hrow.
    apply backfill_document_not_parsing.
    apply (document_parses_bad_row paper_data topic papers paper_id
             markdown_row Ht Hp).
    now rewrite parse_row_without_pipe.
  - intros. apply parse_row_without_pipe. now apply list_item_without_pipe.
Qed.

Lemma backfill_raises_on_list_entries_witness :
  occurs "|" "- 2024-01-02, **T**, A et.al., Paper: [u](u)" = false
  /\ backfill_document (fun _ => inl ConnectionError) (fun _ => "") []
       [("T", [("1", "- 2024-01-02, **T**, A et.al., Paper: [u](u)")])]
     = inl IndexError.
Proof.
  split; [reflexivity |].
  apply (proj1 (backfill_raises_on_list_entries
                  (fun _ => inl ConnectionError) (fun _ => ""))
           [] _ "T" [("1", "- 2024-01-02, **T**, A et.al., Paper: [u](u)")]
           "1" "- 2024-01-02, **T**, A et.al., Paper: [u](u)");
    [now left | now left | reflexivity].
Defined.

(** ** Strings: reversal, stripping, splitting *)

Lemma rev_onto_append (s acc : string) :
  PyStr.rev_onto s acc = PyStr.rev s ++ acc.
Proof.
  unfold PyStr.rev. revert acc.
  induction s as [|c s IH]; intros acc; cbn [PyStr.rev_onto].
  - reflexivity.
  - rewrite (IH (String c acc)), (IH (String c "")).
    now rewrite append_assoc.
Qed.

Lemma rev_cons (c : ascii) (s : string) :
  PyStr.rev (String c s) = PyStr.rev s ++ String c "".
Proof. unfold PyStr.rev at 1. cbn [PyStr.rev_onto]. apply rev_onto_append. Qed.

Lemma rev_append (a b : string) :
  PyStr.rev (a ++ b) = PyStr.rev b ++ PyStr.rev a.
Proof.
  induction a as [|c a IH]; cbn [append].
  - now rewrite append_nil_r.
  - now rewrite !rev_cons, IH, append_assoc.
Qed.

Lemma rev_involutive (s : string) : PyStr.rev (PyStr.rev s) = s.
Proof.
  induction s as [|c s IH]; [reflexivity |].
  now rewrite rev_cons, rev_append, IH.
Qed.

Lemma occurs_rev (c : ascii) (s : string) :
  occurs c (PyStr.rev s) = occurs c s.
Proof.
  induction s as [|x s IH]; [reflexivity |].
  rewrite rev_cons, occurs_app, IH. cbn [occurs].
  now rewrite orb_false_r, orb_comm.
Qed.

Lemma occurs_lstrip (c : ascii) (s : string) :
  occurs c s = false -> occurs c (PyStr.lstrip s) = false.
Proof.
  induction s as [|x s IH]; intros Hs; cbn [PyStr.lstrip]; [reflexivity |].
  destruct (PyStr.isspace x); [| exact Hs].
  cbn [occurs] in Hs. apply orb_false_iff in Hs as [_ Hs]. now apply IH.
Qed.

Lemma occurs_strip (c : ascii) (s : string) :
  occurs c s = false -> occurs c (PyStr.strip s) = false.
Proof.
  intros Hs. unfold PyStr.strip.
  rewrite occurs_rev. apply occurs_lstrip.
  rewrite occurs_rev. now apply occurs_lstrip.
Qed.

Lemma lstrip_before_visible (p q : string) (x : ascii) :
  PyStr.isspace x = false ->
  exists w, PyStr.lstrip (p ++ String x q) = w ++ String x q.
Proof.
  intros Hx. induction p as [|y p IH]; cbn [append PyStr.lstrip].
  - rewrite Hx. now exists "".
  - destruct (PyStr.isspace y); [exact IH |].
    now exists (String y p).
Qed.

(** [strip] leaves a first character that is not whitespace where it
    is. *)
Lemma strip_head_visible (x : ascii) (s : string) :
  PyStr.isspace x = false ->
  exists w, PyStr.strip (String x s) = String x w.
Proof.
  intros Hx. unfold PyStr.strip. cbn [PyStr.lstrip]. rewrite Hx.
  rewrite rev_cons.
  destruct (lstrip_before_visible (PyStr.rev s) "" x Hx) as [w ->].
  rewrite rev_append. now exists (PyStr.rev w).
Qed.

(** The first field of a split begins with what had been read of it. *)
Lemma split_char_from_head (sep : ascii) (s fld : string) :
  hd "" (PyStr.split_char_from sep s fld)
  = fld ++ hd "" (PyStr.split_char_from sep s "").
Proof.
  revert fld. induction s as [|c s IH]; intros fld;
    cbn [PyStr.split_char_from].
  - cbn [hd]. now rewrite append_nil_r.
  - destruct (Ascii.eqb c sep).
    + cbn [hd]. now rewrite append_nil_r.
    + rewrite (IH (fld ++ String c "")), (IH ("" ++ String c "")).
      now rewrite append_assoc.
Qed.

Lemma hd_split_prefix (sep : ascii) (pre s : string) :
  occurs sep pre = false ->
  hd "" (PyStr.split_char_from sep (pre ++ s) "")
  = pre ++ hd "" (PyStr.split_char_from sep s "").
Proof.
  induction pre as [|c pre IH]; intros Hpre; [reflexivity |].
  cbn [occurs] in Hpre. apply orb_false_iff in Hpre as [Hc Hpre].
  cbn [append PyStr.split_char_from]. rewrite Hc.
  rewrite split_char_from_head, (IH Hpre). reflexivity.
Qed.

Lemma split_char_from_cons (sep : ascii) (s fld : string) :
  PyStr.split_char_from sep s fld
  = hd "" (PyStr.split_char_from sep s fld)
    :: tl (PyStr.split_char_from sep s fld).
Proof.
  revert fld. induction s as [|c s IH]; intros fld;
    cbn [PyStr.split_char_from]; [reflexivity |].
  destruct (Ascii.eqb c sep); [reflexivity | apply IH].
Qed.

(** A text that neither begins nor ends with whitespace is its own
    [strip]. *)
Lemma strip_wrapped (a z : ascii) (m : string) :
  PyStr.isspace a = false -> PyStr.isspace z = false ->
  PyStr.strip (String a (m ++ String z "")) = String a (m ++ String z "").
Proof.
  intros Ha Hz. unfold PyStr.strip. cbn [PyStr.lstrip]. rewrite Ha.
  change (String a (m ++ String z "")) with (String a m ++ String z "").
  rewrite rev_append.
  change (PyStr.rev (String z "")) with (String z "").
  cbn [append PyStr.lstrip]. rewrite Hz.
  change (String z (PyStr.rev (String a m)))
    with (PyStr.rev (String z "") ++ PyStr.rev (String a m)).
  now rewrite <- rev_append, rev_involutive.
Qed.

Lemma strip_starred (s : string) :
  PyStr.strip ("**" ++ s ++ "**") = "**" ++ s ++ "**".
Proof.
  replace ("**" ++ s ++ "**")
    with (String "*" (String "*" (s ++ "*") ++ String "*" "")).
  - now apply strip_wrapped.
  - cbn [append]. now rewrite append_assoc.
Qed.

Lemma split_char_from_cell (sep : ascii) (c s fld : string) :
  occurs sep c = false ->
  PyStr.split_char_from sep (c ++ String sep s) fld
  = (fld ++ c) :: PyStr.split_char_from sep s "".
Proof.
  revert fld. induction c as [|x c IH]; intros fld Hc;
    cbn [append PyStr.split_char_from].
  - now rewrite Ascii.eqb_refl, append_nil_r.
  - cbn [occurs] in Hc. apply orb_false_iff in Hc as [Hx Hc].
    rewrite Hx, IH by assumption. now rewrite append_assoc.
Qed.

Lemma until_close_found (id rest group : string) :
  occurs "]" id = false -> occurs PyStr.NEWLINE id = false ->
  until_close (id ++ String "]" rest) group = Some (group ++ id).
Proof.
  revert group. induction id as [|x id IH]; intros group Hb Hn;
    cbn [append until_close].
  - now rewrite append_nil_r.
  - cbn [occurs] in Hb, Hn.
    apply orb_false_iff in Hb as [Hxb Hb].
    apply orb_false_iff in Hn as [Hxn Hn].
    rewrite Hxb, Hxn, IH by assumption. now rewrite append_assoc.
Qed.

Lemma first_bracketed_found (id rest : string) :
  occurs "]" id = false -> occurs PyStr.NEWLINE id = false ->
  first_bracketed (String "[" (id ++ String "]" rest)) = Some id.
Proof.
  intros Hb Hn. cbn [first_bracketed].
  now rewrite (until_close_found id rest "" Hb Hn).
Qed.

Lemma first_bracketed_none (s : string) :
  occurs "[" s = false -> first_bracketed s = None.
Proof.
  induction s as [|x s IH]; intros Hs; cbn [first_bracketed]; [reflexivity |].
  cbn [occurs] in Hs. apply orb_false_iff in Hs as [Hx Hs].
  rewrite Hx. now apply IH.
Qed.

Lemma sub_version_without_v (s : string) :
  occurs "v" s = false -> sub_version s = s.
Proof.
  unfold sub_version. induction s as [|x s IH]; intros Hs;
    cbn [sub_version_go]; [reflexivity |].
  cbn [occurs] in Hs. apply orb_false_iff in Hs as [Hx Hs].
  cbn [andb]. rewrite Hx. cbn [andb]. now rewrite IH.
Qed.

Lemma find_char_none (c : ascii) (s : string) (i : Z) :
  (0 <= i)%Z ->
  PyStr.find_from (String c "") s i = (-1)%Z -> occurs c s = false.
Proof.
  revert i. induction s as [|x s IH]; intros i Hi Hfind; [reflexivity |].
  cbn [PyStr.find_from] in Hfind. rewrite prefix_char in Hfind.
  cbn [occurs]. destruct (Ascii.eqb x c); [lia |].
  apply (IH (i + 1)%Z); [lia | exact Hfind].
Qed.

Lemma clean_id_take (raw_paper_id : string) (n : nat) :
  PyStr.find_from "v" raw_paper_id 0 = (0 + Z.of_nat n)%Z ->
  clean_id raw_paper_id = PyStr.take n raw_paper_id.
Proof.
  intros Hn. unfold clean_id, PyStr.find. rewrite Hn.
  replace (negb (0 + Z.of_nat n =? -1)%Z) with true
    by (symmetry; apply negb_true_iff, Z.eqb_neq; lia).
  unfold PyStr.slice_to.
  replace (0 + Z.of_nat n <? 0)%Z with false
    by (symmetry; apply Z.ltb_ge; lia).
  now rewrite Z.add_0_l, Nat2Z.id.
Qed.

(** The identifier the fetch keeps has no [v] in it. *)
Lemma clean_id_has_no_v (raw_paper_id : string) :
  occurs "v" (clean_id raw_paper_id) = false.
Proof.
  destruct (find_char_take "v" raw_paper_id 0) as [Hnone | (n & Hn & Htake)].
  - rewrite (clean_id_without_v _ Hnone).
    now apply (find_char_none "v" raw_paper_id 0).
  - rewrite (clean_id_take _ _ Hn).
    apply (find_char_none "v" _ 0); [lia | apply Htake].
Qed.

(** ** From the fetch to the backfill *)

(** The code-link cell of the row the fetch writes. *)
Lemma table_row_cells (str_of_json : json -> string)
    (update_date paper_title first_author clean_paper_id clean_arxiv_url : string)
    (code_url : option json) :
  table_row_of str_of_json update_date paper_title first_author clean_paper_id
    clean_arxiv_url code_url
  = "|" ++ ("**" ++ update_date ++ "**")
    ++ "|" ++ ("**" ++ paper_title ++ "**")
    ++ "|" ++ first_author
    ++ "|" ++ ("[" ++ clean_paper_id ++ "](" ++ clean_arxiv_url ++ ")")
    ++ "|" ++ (if code_url_truthy code_url
               then "**[link](" ++ format_value str_of_json code_url ++ ")**"
               else "null")
    ++ "|" ++ nl.
Proof.
  unfold table_row_of.
  destruct (code_url_truthy code_url); cbn [append];
    rewrite !append_assoc; cbn [append]; rewrite ?append_assoc;
    cbn [append]; reflexivity.
Qed.

(** A row of six cells between pipes, none with a pipe inside. *)
Lemma parse_six_cells (c1 c2 c3 c4 c5 tail : string) :
  occurs "|" c1 = false -> occurs "|" c2 = false -> occurs "|" c3 = false ->
  occurs "|" c4 = false -> occurs "|" c5 = false -> occurs "|" tail = false ->
  parse_paper_info_from_markdown
    ("|" ++ c1 ++ "|" ++ c2 ++ "|" ++ c3 ++ "|" ++ c4 ++ "|" ++ c5 ++ "|" ++ tail)
  = match first_bracketed (PyStr.strip c4) with
    | Some bracketed =>
        inr (PyStr.strip c1, PyStr.strip c2, PyStr.strip c3,
             sub_version bracketed, PyStr.strip c5)
    | None => inl IndexError
    end.
Proof.
  intros H1 H2 H3 H4 H5 Ht.
  unfold parse_paper_info_from_markdown, PyStr.split_char.
  change ("|" ++ c1 ++ "|" ++ c2 ++ "|" ++ c3 ++ "|" ++ c4 ++ "|" ++ c5
          ++ "|" ++ tail)
    with (String "|" (c1 ++ String "|" (c2 ++ String "|" (c3 ++ String "|"
            (c4 ++ String "|" (c5 ++ String "|" tail)))))).
  cbn [PyStr.split_char_from]. rewrite Ascii.eqb_refl.
  rewrite !split_char_from_cell by assumption.
  rewrite split_char_from_no_sep by assumption.
  cbn [map getitem nth_error bind append].
  now destruct (first_bracketed (PyStr.strip c4)).
Qed.

(** A row whose fifth field, counted as the parse counts, has no
    bracket. *)
Lemma parse_fifth_field_without_bracket (c1 c2 c3 c4 rest : string) :
  occurs "|" c1 = false -> occurs "|" c2 = false -> occurs "|" c3 = false ->
  occurs "|" c4 = false -> occurs "[" c4 = false ->
  parse_paper_info_from_markdown
    ("|" ++ c1 ++ "|" ++ c2 ++ "|" ++ c3 ++ "|" ++ c4 ++ "|" ++ rest)
  = inl IndexError.
Proof.
  intros H1 H2 H3 H4 Hb.
  unfold parse_paper_info_from_markdown, PyStr.split_char.
  change ("|" ++ c1 ++ "|" ++ c2 ++ "|" ++ c3 ++ "|" ++ c4 ++ "|" ++ rest)
    with (String "|" (c1 ++ String "|" (c2 ++ String "|" (c3 ++ String "|"
            (c4 ++ String "|" rest))))).
  cbn [PyStr.split_char_from]. rewrite Ascii.eqb_refl.
  rewrite !split_char_from_cell by assumption.
  cbn [map getitem nth_error bind append].
  now rewrite (first_bracketed_none _ (occurs_strip "[" c4 Hb)).
Qed.

Lemma strip_id_cell (clean_paper_id clean_arxiv_url : string) :
  PyStr.strip ("[" ++ clean_paper_id ++ "](" ++ clean_arxiv_url ++ ")")
  = "[" ++ clean_paper_id ++ "](" ++ clean_arxiv_url ++ ")".
Proof.
  replace ("[" ++ clean_paper_id ++ "](" ++ clean_arxiv_url ++ ")")
    with (String "[" ((clean_paper_id ++ "](" ++ clean_arxiv_url)
                      ++ String ")" "")).
  - now apply strip_wrapped.
  - cbn [append]. now rewrite !append_assoc.
Qed.

Lemma strip_code_cell (str_of_json : json -> string) (code_url : option json) :
  PyStr.strip (if code_url_truthy code_url
               then "**[link](" ++ format_value str_of_json code_url ++ ")**"
               else "null")
  = if code_url_truthy code_url
    then "**[link](" ++ format_value str_of_json code_url ++ ")**"
    else "null".
Proof.
  destruct (code_url_truthy code_url); [| reflexivity].
  replace ("**[link](" ++ format_value str_of_json code_url ++ ")**")
    with ("**" ++ ("[link](" ++ format_value str_of_json code_url ++ ")")
          ++ "**").
  - apply strip_starred.
  - cbn [append]. now rewrite !append_assoc.
Qed.

(** What the backfill reads back from a row the fetch wrote. *)
Lemma parse_table_row (str_of_json : json -> string)
    (update_date paper_title first_author clean_paper_id clean_arxiv_url : string)
    (code_url : option json) :
  occurs "|" update_date = false ->
  occurs "|" paper_title = false ->
  occurs "|" first_author = false ->
  occurs "|" clean_paper_id = false ->
  occurs "|" clean_arxiv_url = false ->
  (code_url_truthy code_url = true ->
   occurs "|" (format_value str_of_json code_url) = false) ->
  occurs "]" clean_paper_id = false ->
  occurs PyStr.NEWLINE clean_paper_id = false ->
  parse_paper_info_from_markdown
    (table_row_of str_of_json update_date paper_title first_author
       clean_paper_id clean_arxiv_url code_url)
  = inr ("**" ++ update_date ++ "**", "**" ++ paper_title ++ "**",
         PyStr.strip first_author, sub_version clean_paper_id,
         if code_url_truthy code_url
         then "**[link](" ++ format_value str_of_json code_url ++ ")**"
         else "null").
Proof.
  intros Hd Ht Ha Hi Hu Hc Hb Hn.
  rewrite table_row_cells, parse_six_cells.
  - rewrite strip_id_cell.
    change ("[" ++ clean_paper_id ++ "](" ++ clean_arxiv_url ++ ")")
      with (String "[" (clean_paper_id
                        ++ String "]" ("(" ++ clean_arxiv_url ++ ")"))).
    rewrite (first_bracketed_found _ _ Hb Hn).
    now rewrite !strip_starred, strip_code_cell.
  - now rewrite !occurs_app, Hd.
  - now rewrite !occurs_app, Ht.
  - exact Ha.
  - now rewrite !occurs_app, Hi, Hu.
  - destruct (code_url_truthy code_url); [| reflexivity].
    now rewrite !occurs_app, (Hc eq_refl).
  - reflexivity.
Qed.

Lemma first_author_without_pipe (authors : list string) :
  (forall name, In name authors -> occurs "|" name = false) ->
  occurs "|" (format_authors authors true) = false.
Proof.
  intros Hnames. unfold format_authors. destruct authors as [|first rest].
  - reflexivity.
  - rewrite occurs_app, (Hnames first) by now left. reflexivity.
Qed.

Lemma first_author_is_not_null (authors : list string) :
  format_authors authors true <> "null".
Proof.
  unfold format_authors. destruct authors as [|first rest]; [discriminate |].
  intros H. apply (f_equal PyStr.rev) in H. rewrite rev_append in H.
  discriminate H.
Qed.

Lemma arxiv_url_without_pipe (clean_paper_id : string) :
  occurs "|" clean_paper_id = false ->
  occurs "|" (ARXIV_BASE_URL ++ "abs/" ++ clean_paper_id) = false.
Proof. intros H. now rewrite !occurs_app, H. Qed.

Lemma fetch_item_table_row (requests_get : string -> result http_response)
    (str_of_json : json -> string) (acc : entries * entries) (p : paper) :
  dict_get (fst (fetch_item requests_get str_of_json acc p))
    (clean_id (short_id p))
  = Some (table_row_of str_of_json (updated p) (title p)
            (format_authors (authors p) true) (clean_id (short_id p))
            (ARXIV_BASE_URL ++ "abs/" ++ clean_id (short_id p))
            (fetch_code_url
               (requests_get
                  (PAPERS_WITH_CODE_BASE_URL ++ clean_id (short_id p))))).
Proof. unfold fetch_item. cbn [fst]. apply dict_get_set_eq. Qed.

(** A row whose first four cells hold no pipe: the fifth value read is
    the first field of what follows them. *)
Lemma parse_row_head (c1 c2 c3 c4 rest : string) :
  occurs "|" c1 = false -> occurs "|" c2 = false -> occurs "|" c3 = false ->
  occurs "|" c4 = false ->
  parse_paper_info_from_markdown
    ("|" ++ c1 ++ "|" ++ c2 ++ "|" ++ c3 ++ "|" ++ c4 ++ "|" ++ rest)
  = match first_bracketed (PyStr.strip c4) with
    | Some bracketed =>
        inr (PyStr.strip c1, PyStr.strip c2, PyStr.strip c3,
             sub_version bracketed,
             PyStr.strip (hd "" (PyStr.split_char_from "|" rest "")))
    | None => inl IndexError
    end.
Proof.
  intros H1 H2 H3 H4.
  unfold parse_paper_info_from_markdown, PyStr.split_char.
  change ("|" ++ c1 ++ "|" ++ c2 ++ "|" ++ c3 ++ "|" ++ c4 ++ "|" ++ rest)
    with (String "|" (c1 ++ String "|" (c2 ++ String "|" (c3 ++ String "|"
            (c4 ++ String "|" rest))))).
  cbn [PyStr.split_char_from]. rewrite Ascii.eqb_refl.
  rewrite !split_char_from_cell by assumption.
  rewrite (split_char_from_cons "|" rest "").
  cbn [map getitem nth_error bind append].
  now destruct (first_bracketed (PyStr.strip c4)).
Qed.

(** The code-link value read back from the row the fetch writes is the
    sentinel exactly when the fetch wrote the sentinel, whatever the
    link text. *)
Lemma code_cell_read_back (str_of_json : json -> string)
    (code_url : option json) :
  PyStr.strip
    (hd "" (PyStr.split_char_from "|"
              ((if code_url_truthy code_url
                then "**[link](" ++ format_value str_of_json code_url ++ ")**"
                else "null") ++ "|" ++ nl) ""))
  = "null"
  <-> code_url_truthy code_url = false.
Proof.
  destruct (code_url_truthy code_url).
  - split; [| discriminate]. intros Hnull. exfalso.
    rewrite append_assoc, hd_split_prefix in Hnull by reflexivity.
    destruct (strip_head_visible "*"
                ("*[link]("
                 ++ hd "" (PyStr.split_char_from "|"
                             ((format_value str_of_json code_url ++ ")**")
                              ++ "|" ++ nl) ""))
                eq_refl) as [w Hw].
    change ("**[link]("
            ++ hd "" (PyStr.split_char_from "|"
                        ((format_value str_of_json code_url ++ ")**")
                         ++ "|" ++ nl) ""))
      with (String "*"
              ("*[link]("
               ++ hd "" (PyStr.split_char_from "|"
                           ((format_value str_of_json code_url ++ ")**")
                            ++ "|" ++ nl) ""))) in Hnull.
    rewrite Hw in Hnull. discriminate Hnull.
  - split; reflexivity.
Qed.

(** X6. The backfill reads back from a row the fetch wrote what the
    fetch put there: when the date, the title, the names of the authors
    and the identifier hold no pipe, and the identifier no closing
    bracket and no newline, then, whatever the link the service
    reported, the row stored under the normalised identifier parses, the
    identifier parsed out of it is that same identifier, and its
    code-link cell is [null] exactly when the fetch found no link. *)
Theorem fetch_row_parses_back
    (requests_get : string -> result http_response)
    (str_of_json : json -> string) (acc : entries * entries) (p : paper) :
  occurs "|" (updated p) = false ->
  occurs "|" (title p) = false ->
  (forall name, In name (authors p) -> occurs "|" name = false) ->
  occurs "|" (clean_id (short_id p)) = false ->
  occurs "]" (clean_id (short_id p)) = false ->
  occurs PyStr.NEWLINE (clean_id (short_id p)) = false ->
  exists markdown_row update_date paper_title first_author code_link,
    dict_get (fst (fetch_item requests_get str_of_json acc p))
      (clean_id (short_id p)) = Some markdown_row
    /\ parse_paper_info_from_markdown markdown_row
       = inr (update_date, paper_title, first_author, clean_id (short_id p),
              code_link)
    /\ (code_link = "null" <->
        code_url_truthy
          (fetch_code_url
             (requests_get
                (PAPERS_WITH_CODE_BASE_URL ++ clean_id (short_id p))))
        = false).
Proof.
  intros Hd Ht Ha Hi Hb Hn.
  eexists. eexists. eexists. eexists. eexists.
  split; [apply fetch_item_table_row |].
  split.
  - rewrite table_row_cells, parse_row_head.
    + rewrite strip_id_cell.
      change ("[" ++ clean_id (short_id p) ++ "]("
              ++ (ARXIV_BASE_URL ++ "abs/" ++ clean_id (short_id p)) ++ ")")
        with (String "[" (clean_id (short_id p)
                          ++ String "]"
                               ("(" ++ (ARXIV_BASE_URL ++ "abs/"
                                        ++ clean_id (short_id p)) ++ ")"))).
      rewrite (first_bracketed_found _ _ Hb Hn).
      rewrite (sub_version_without_v _ (clean_id_has_no_v (short_id p))).
      reflexivity.
    + now rewrite !occurs_app, Hd.
    + now rewrite !occurs_app, Ht.
    + now apply first_author_without_pipe.
    + rewrite !occurs_app, Hi. reflexivity.
  - apply code_cell_read_back.
Qed.

Lemma fetch_row_parses_back_witness :
  occurs "|" "2401.00001" = false
  /\ exists markdown_row update_date paper_title first_author code_link,
      dict_get
        (fst (fetch_item
                (fun _ => inr {| status_ok := true;
                                 body := Some (JObj [("official",
                                                JObj [("url", JStr "a|b")])]) |})
                (fun _ => "") ([], [])
                {| short_id := "2401.00001v2"; title := "T"; entry_id := "e";
                   summary := "s"; authors := ["A"; "B"];
                   primary_category := "cs.CV"; published := "2024-01-01";
                   updated := "2024-01-02"; comment := None |}))
        "2401.00001" = Some markdown_row
      /\ parse_paper_info_from_markdown markdown_row
         = inr (update_date, paper_title, first_author, "2401.00001", code_link)
      /\ (code_link = "null" <-> true = false).
Proof.
  split; [reflexivity |].
  apply (fetch_row_parses_back
           (fun _ => inr {| status_ok := true;
                            body := Some (JObj [("official",
                                           JObj [("url", JStr "a|b")])]) |})
           (fun _ => "") ([], [])
           {| short_id := "2401.00001v2"; title := "T"; entry_id := "e";
              summary := "s"; authors := ["A"; "B"];
              primary_category := "cs.CV"; published := "2024-01-01";
              updated := "2024-01-02"; comment := None |});
    try reflexivity.
  intros name [<- | [<- | []]]; reflexivity.
Defined.

Lemma fetch_try_of_code_url (outcome : result http_response) (url : json) :
  fetch_code_url outcome = Some url -> fetch_try outcome = inr (Some url).
Proof.
  unfold fetch_code_url.
  destruct (fetch_try outcome) as [e | [u |]]; congruence.
Qed.

(** X7. A link that the backfill finds for a row the fetch wrote without
    one gives the row the fetch itself writes when it finds that link:
    for an item whose date, title and names of authors hold no pipe, and
    whose normalised identifier holds no pipe, no closing bracket and no
    newline, the row stored by a fetch that found no link, patched by
    the backfill under a service that now reports a link, is the row a
    fetch under that service stores. *)
Theorem backfill_completes_fetch_row
    (before after : string -> result http_response)
    (str_of_json : json -> string) (acc : entries * entries) (p : paper)
    (url : json) :
  occurs "|" (updated p) = false ->
  occurs "|" (title p) = false ->
  (forall name, In name (authors p) -> occurs "|" name = false) ->
  occurs "|" (clean_id (short_id p)) = false ->
  occurs "]" (clean_id (short_id p)) = false ->
  occurs PyStr.NEWLINE (clean_id (short_id p)) = false ->
  code_url_truthy
    (fetch_code_url
       (before (PAPERS_WITH_CODE_BASE_URL ++ clean_id (short_id p)))) = false ->
  fetch_code_url (after (PAPERS_WITH_CODE_BASE_URL ++ clean_id (short_id p)))
  = Some url ->
  json_truthy url = true ->
  exists markdown_row,
    dict_get (fst (fetch_item before str_of_json acc p))
      (clean_id (short_id p)) = Some markdown_row
    /\ dict_get (fst (fetch_item after str_of_json acc p))
         (clean_id (short_id p))
       = Some (patch_row after str_of_json markdown_row).
Proof.
  intros Hd Ht Ha Hi Hb Hn Hbefore Hafter Htruthy.
  eexists. split; [apply fetch_item_table_row |].
  rewrite fetch_item_table_row. f_equal.
  assert (Hcell : code_url_truthy
                    (fetch_code_url
                       (before (PAPERS_WITH_CODE_BASE_URL
                                ++ clean_id (short_id p)))) = true ->
                  occurs "|"
                    (format_value str_of_json
                       (fetch_code_url
                          (before (PAPERS_WITH_CODE_BASE_URL
                                   ++ clean_id (short_id p))))) = false)
    by (rewrite Hbefore; discriminate).
  unfold patch_row.
  rewrite (parse_table_row str_of_json _ _ _ _ _ _ Hd Ht
             (first_author_without_pipe _ Ha) Hi
             (arxiv_url_without_pipe _ Hi) Hcell Hb Hn).
  rewrite Hbefore, (sub_version_without_v _ (clean_id_has_no_v (short_id p))).
  rewrite String.eqb_refl, backfill_try_fetch_try.
  rewrite (fetch_try_of_code_url _ _ Hafter).
  rewrite !table_row_cells, Hbefore, Hafter.
  cbn [code_url_truthy]. rewrite Htruthy.
  change ("|" ++ "null" ++ "|" ++ nl) with ("|null|" ++ nl).
  rewrite replace_code_link_cell.
  - unfold link_cell, link_text, format_value.
    destruct url; cbn [append]; now rewrite ?append_assoc.
  - now rewrite !occurs_app, Hd.
  - discriminate.
  - now rewrite !occurs_app, Ht.
  - discriminate.
  - now apply first_author_without_pipe.
  - apply first_author_is_not_null.
  - now rewrite !occurs_app, Hi.
  - discriminate.
  - reflexivity.
Qed.

Lemma backfill_completes_fetch_row_witness :
  json_truthy (JStr "c") = true
  /\ exists markdown_row,
      dict_get
        (fst (fetch_item (fun _ => inl ConnectionError) (fun _ => "") ([], [])
                {| short_id := "2401.00001v2"; title := "T"; entry_id := "e";
                   summary := "s"; authors := ["A"];
                   primary_category := "cs.CV"; published := "2024-01-01";
                   updated := "2024-01-02"; comment := None |}))
        "2401.00001" = Some markdown_row
      /\ dict_get
           (fst (fetch_item
                   (fun _ => inr {| status_ok := true;
                                    body := Some (JObj [("official",
                                                   JObj [("url", JStr "c")])]) |})
                   (fun _ => "") ([], [])
                   {| short_id := "2401.00001v2"; title := "T"; entry_id := "e";
                      summary := "s"; authors := ["A"];
                      primary_category := "cs.CV"; published := "2024-01-01";
                      updated := "2024-01-02"; comment := None |}))
           "2401.00001"
         = Some (patch_row
                   (fun _ => inr {| status_ok := true;
                                    body := Some (JObj [("official",
                                                   JObj [("url", JStr "c")])]) |})
                   (fun _ => "") markdown_row).
Proof.
  split; [reflexivity |].
  apply (backfill_completes_fetch_row
           (fun _ => inl ConnectionError)
           (fun _ => inr {| status_ok := true;
                            body := Some (JObj [("official",
                                                 JObj [("url", JStr "c")])]) |})
           (fun _ => "") ([], [])
           {| short_id := "2401.00001v2"; title := "T"; entry_id := "e";
              summary := "s"; authors := ["A"];
              primary_category := "cs.CV"; published := "2024-01-01";
              updated := "2024-01-02"; comment := None |}
           (JStr "c"));
    try reflexivity.
  intros name [<- | []]. reflexivity.
Defined.

(** X8. One pipe in a title is enough to stop the backfill: in the row
    the fetch writes for such a title the cells move one place, the
    field read as the identifier cell is the first author, and when that
    holds no opening bracket the row does not parse, so the pass over
    any store that holds the row raises [IndexError]. *)
Theorem pipe_in_title_breaks_backfill
    (requests_get : string -> result http_response)
    (str_of_json : json -> string)
    (update_date title_left title_right first_author clean_paper_id
       clean_arxiv_url : string) (code_url : option json) :
  occurs "|" update_date = false ->
  occurs "|" title_left = false ->
  occurs "|" title_right = false ->
  occurs "|" first_author = false ->
  occurs "[" first_author = false ->
  parse_paper_info_from_markdown
    (table_row_of str_of_json update_date (title_left ++ "|" ++ title_right)
       first_author clean_paper_id clean_arxiv_url code_url)
  = inl IndexError
  /\ forall requested paper_data topic papers paper_id,
      In (topic, papers) paper_data ->
      In (paper_id,
          table_row_of str_of_json update_date
            (title_left ++ "|" ++ title_right) first_author clean_paper_id
            clean_arxiv_url code_url) papers ->
      backfill_document requests_get str_of_json requested paper_data
      = inl IndexError.
Proof.
  intros Hd Hl Hr Ha Hb.
  assert (Hparse : parse_paper_info_from_markdown
                     (table_row_of str_of_json update_date
                        (title_left ++ "|" ++ title_right) first_author
                        clean_paper_id clean_arxiv_url code_url)
                   = inl IndexError).
  { rewrite table_row_cells.
    replace ("|" ++ ("**" ++ update_date ++ "**")
             ++ "|" ++ ("**" ++ (title_left ++ "|" ++ title_right) ++ "**")
             ++ "|" ++ first_author
             ++ "|" ++ ("[" ++ clean_paper_id ++ "](" ++ clean_arxiv_url ++ ")")
             ++ "|" ++ (if code_url_truthy code_url
                        then "**[link](" ++ format_value str_of_json code_url
                             ++ ")**"
                        else "null")
             ++ "|" ++ nl)
      with ("|" ++ ("**" ++ update_date ++ "**")
            ++ "|" ++ ("**" ++ title_left)
            ++ "|" ++ (title_right ++ "**")
            ++ "|" ++ first_author
            ++ "|" ++ (("[" ++ clean_paper_id ++ "](" ++ clean_arxiv_url ++ ")")
                       ++ "|" ++ (if code_url_truthy code_url
                                  then "**[link]("
                                       ++ format_value str_of_json code_url
                                       ++ ")**"
                                  else "null")
                       ++ "|" ++ nl)).
    - apply parse_fifth_field_without_bracket; try assumption;
        rewrite ?occurs_app; simpl; rewrite ?Hd, ?Hl, ?Hr; reflexivity.
    - cbn [append]. rewrite !append_assoc. cbn [append].
      now rewrite ?append_assoc. }
  split; [exact Hparse |].
  intros requested paper_data topic papers paper_id Ht Hp.
  apply backfill_document_not_parsing.
  apply (document_parses_bad_row paper_data topic papers paper_id _ Ht Hp).
  now rewrite Hparse.
Qed.

Lemma pipe_in_title_breaks_backfill_witness :
  occurs "[" "A et.al." = false
  /\ parse_paper_info_from_markdown
       (table_row_of (fun _ => "") "2024-01-02" ("Bounds on " ++ "|" ++ "V")
          "A et.al." "2401.00001" "u" None)
     = inl IndexError.
Proof.
  split; [reflexivity |].
  apply (pipe_in_title_breaks_backfill (fun _ => inl ConnectionError)
           (fun _ => "") "2024-01-02" "Bounds on " "V" "A et.al."
           "2401.00001" "u" None); reflexivity.
Defined.

(** ** Item fetcher: the two mappings it returns *)

Lemma dict_mem_keys {V W : Type} (d : dict V) (d' : dict W) (k : string) :
  dict_keys d = dict_keys d' -> dict_mem k d = dict_mem k d'.
Proof.
  unfold dict_mem. revert d'.
  induction d as [|[k1 v1] d IH]; intros [|[k2 v2] d'] Hkeys;
    cbn in Hkeys; try discriminate; [reflexivity |].
  injection Hkeys as -> Hkeys. cbn [dict_get].
  destruct (String.eqb k2 k); [reflexivity | now apply IH].
Qed.

Lemma wf_dict_set {V : Type} (d : dict V) (k : string) (v : V) :
  wf_dict d -> wf_dict (dict_set d k v).
Proof.
  unfold wf_dict. rewrite dict_keys_set. unfold dict_mem.
  destruct (dict_get d k) eqn:Hget; [tauto |].
  intros Hwf. apply NoDup_app; [exact Hwf | repeat constructor; tauto |].
  intros x Hx [<- | []].
  apply dict_get_of_key in Hx. congruence.
Qed.

Lemma fold_fetch_item_parallel (requests_get : string -> result http_response)
    (str_of_json : json -> string) (found : list paper) :
  forall acc : entries * entries,
    dict_keys (fst acc) = dict_keys (snd acc) ->
    wf_dict (fst acc) ->
    let out := fold_left (fetch_item requests_get str_of_json) found acc in
    dict_keys (fst out) = dict_keys (snd out) /\ wf_dict (fst out).
Proof.
  induction found as [|p found IH]; intros acc Hkeys Hwf; cbn [fold_left].
  - now split.
  - apply IH; unfold fetch_item; cbn [fst snd].
    + rewrite !dict_keys_set, Hkeys.
      now rewrite (dict_mem_keys (fst acc) (snd acc) _ Hkeys).
    + now apply wf_dict_set.
Qed.

Lemma fold_fetch_item_origin (requests_get : string -> result http_response)
    (str_of_json : json -> string) (found : list paper) :
  forall (acc : entries * entries) (key : string),
    In key
      (dict_keys
         (fst (fold_left (fetch_item requests_get str_of_json) found acc))) ->
    In key (dict_keys (fst acc))
    \/ exists p, In p found /\ key = clean_id (short_id p).
Proof.
  induction found as [|p found IH]; intros acc key Hin; cbn [fold_left] in Hin.
  - now left.
  - destruct (IH _ _ Hin) as [Hacc | (q & Hq & ->)].
    + unfold fetch_item in Hacc. cbn [fst] in Hacc.
      rewrite dict_keys_set in Hacc.
      destruct (dict_mem _ (fst acc)); [now left |].
      apply in_app_or in Hacc as [Hacc | [<- | []]]; [now left |].
      right. exists p. split; [now left | reflexivity].
    + right. exists q. split; [now right | reflexivity].
Qed.

Lemma fold_fetch_item_other (requests_get : string -> result http_response)
    (str_of_json : json -> string) (found : list paper) (key : string) :
  (forall q, In q found -> clean_id (short_id q) <> key) ->
  forall acc : entries * entries,
    let out := fold_left (fetch_item requests_get str_of_json) found acc in
    dict_get (fst out) key = dict_get (fst acc) key
    /\ dict_get (snd out) key = dict_get (snd acc) key.
Proof.
  induction found as [|q found IH]; intros Hother acc; cbn [fold_left].
  - now split.
  - destruct (IH (fun q' H => Hother q' (or_intror H))
                (fetch_item requests_get str_of_json acc q)) as [H1 H2].
    cbn zeta in H1, H2. rewrite H1, H2. unfold fetch_item. cbn [fst snd].
    split; apply dict_get_set_ne; apply Hother; now left.
Qed.

(** X9. The two mappings a fetch returns go together: they hold the
    same identifiers in the same order, each once; every identifier is
    the normalised identifier of an item found and has no [v] in it;
    and when several items found normalise to one identifier, the last
    of them is the one whose row and whose list entry are kept. *)
Theorem fetch_mappings_go_together
    (requests_get : string -> result http_response)
    (str_of_json : json -> string)
    (arxiv_results : string -> Z -> list paper * option exn)
    (topic search_query : string) (max_results : Z) (found : list paper) :
  arxiv_results search_query max_results = (found, None) ->
  exists table items,
    fetch_daily_arxiv_papers requests_get str_of_json arxiv_results topic
      search_query max_results
    = inr ([(topic, table)], [(topic, items)])
    /\ dict_keys table = dict_keys items
    /\ wf_dict table
    /\ (forall key,
           In key (dict_keys table) ->
           occurs "v" key = false
           /\ exists p, In p found /\ key = clean_id (short_id p))
    /\ (forall earlier p later,
           found = (earlier ++ p :: later)%list ->
           (forall q, In q later ->
                      clean_id (short_id q) <> clean_id (short_id p)) ->
           dict_get table (clean_id (short_id p))
           = dict_get (fst (fetch_item requests_get str_of_json ([], []) p))
               (clean_id (short_id p))
           /\ dict_get items (clean_id (short_id p))
              = dict_get (snd (fetch_item requests_get str_of_json ([], []) p))
                  (clean_id (short_id p))).
Proof.
  intros Hres. unfold fetch_daily_arxiv_papers. rewrite Hres.
  pose proof (fold_fetch_item_parallel requests_get str_of_json found ([], [])
                eq_refl (NoDup_nil _)) as Hpar.
  pose proof (fold_fetch_item_origin requests_get str_of_json found ([], []))
    as Horigin.
  assert (Hlast : forall earlier p later,
             found = (earlier ++ p :: later)%list ->
             (forall q, In q later ->
                        clean_id (short_id q) <> clean_id (short_id p)) ->
             let out := fold_left (fetch_item requests_get str_of_json) found
                          ([], []) in
             dict_get (fst out) (clean_id (short_id p))
             = dict_get (fst (fetch_item requests_get str_of_json ([], []) p))
                 (clean_id (short_id p))
             /\ dict_get (snd out) (clean_id (short_id p))
                = dict_get
                    (snd (fetch_item requests_get str_of_json ([], []) p))
                    (clean_id (short_id p))).
  { intros earlier p later -> Hlater. cbn zeta.
    rewrite fold_left_app. cbn [fold_left].
    destruct (fold_fetch_item_other requests_get str_of_json later _ Hlater
                (fetch_item requests_get str_of_json
                   (fold_left (fetch_item requests_get str_of_json) earlier
                      ([], [])) p)) as [H1 H2].
    cbn zeta in H1, H2. rewrite H1, H2.
    unfold fetch_item. cbn [fst snd]. now rewrite !dict_get_set_eq. }
  cbn zeta in Hpar, Hlast.
  destruct (fold_left (fetch_item requests_get str_of_json) found ([], []))
    as [table items].
  cbn [fst snd] in *. destruct Hpar as [Hkeys Hwf].
  exists table, items. split; [reflexivity |].
  split; [exact Hkeys |]. split; [exact Hwf |].
  split; [| exact Hlast].
  intros key Hin. destruct (Horigin key Hin) as [[] | (p & Hp & ->)].
  split; [apply clean_id_has_no_v | now exists p].
Qed.

Lemma fetch_mappings_go_together_witness :
  (fun (_ : string) (_ : Z) =>
     ([{| short_id := "solv-int/9901005v1"; title := "T1"; entry_id := "e";
          summary := "s"; authors := ["A"]; primary_category := "nlin";
          published := "1999-01-01"; updated := "1999-01-02";
          comment := None |};
       {| short_id := "solv-int/9901006v1"; title := "T2"; entry_id := "e";
          summary := "s"; authors := ["B"]; primary_category := "nlin";
          published := "1999-01-01"; updated := "1999-01-03";
          comment := None |}], @None exn)) "q" 2%Z
  = ([{| short_id := "solv-int/9901005v1"; title := "T1"; entry_id := "e";
         summary := "s"; authors := ["A"]; primary_category := "nlin";
         published := "1999-01-01"; updated := "1999-01-02";
         comment := None |};
      {| short_id := "solv-int/9901006v1"; title := "T2"; entry_id := "e";
         summary := "s"; authors := ["B"]; primary_category := "nlin";
         published := "1999-01-01"; updated := "1999-01-03";
         comment := None |}], None)
  /\ exists table items,
      fetch_daily_arxiv_papers (fun _ => inl ConnectionError) (fun _ => "")
        (fun _ _ =>
           ([{| short_id := "solv-int/9901005v1"; title := "T1";
                entry_id := "e"; summary := "s"; authors := ["A"];
                primary_category := "nlin"; published := "1999-01-01";
                updated := "1999-01-02"; comment := None |};
             {| short_id := "solv-int/9901006v1"; title := "T2";
                entry_id := "e"; summary := "s"; authors := ["B"];
                primary_category := "nlin"; published := "1999-01-01";
                updated := "1999-01-03"; comment := None |}], None))
        "nlin" "q" 2%Z
      = inr ([("nlin", table)], [("nlin", items)])
      /\ dict_keys table = dict_keys items.
Proof.
  split; [reflexivity |].
  destruct (fetch_mappings_go_together (fun _ => inl ConnectionError)
              (fun _ => "")
              (fun _ _ =>
                 ([{| short_id := "solv-int/9901005v1"; title := "T1";
                      entry_id := "e"; summary := "s"; authors := ["A"];
                      primary_category := "nlin"; published := "1999-01-01";
                      updated := "1999-01-02"; comment := None |};
                   {| short_id := "solv-int/9901006v1"; title := "T2";
                      entry_id := "e"; summary := "s"; authors := ["B"];
                      primary_category := "nlin"; published := "1999-01-01";
                      updated := "1999-01-03"; comment := None |}], None))
              "nlin" "q" 2%Z _ eq_refl)
    as (table & items & Hrun & Hkeys & _).
  now exists table, items.
Defined.

(** ** Workflow: what a failure leaves behind *)

Lemma fetch_raises_with_search (requests_get : string -> result http_response)
    (str_of_json : json -> string)
    (arxiv_results : string -> Z -> list paper * option exn)
    (topic search_query : string) (count : Z) (e : exn) :
  snd (arxiv_results search_query count) = Some e ->
  fetch_daily_arxiv_papers requests_get str_of_json arxiv_results topic
    search_query count = inl e.
Proof.
  unfold fetch_daily_arxiv_papers.
  destruct (arxiv_results search_query count) as [found failure].
  cbn [snd]. intros ->.
  now destruct (fold_left _ found _).
Qed.

Lemma fetch_topics_raises (requests_get : string -> result http_response)
    (str_of_json : json -> string)
    (arxiv_results : string -> Z -> list paper * option exn)
    (keywords : list (string * string)) (count : Z)
    (topic search_query : string) (e : exn) :
  In (topic, search_query) keywords ->
  snd (arxiv_results search_query count) = Some e ->
  exists e',
    fetch_topics requests_get str_of_json arxiv_results keywords count
    = inl e'.
Proof.
  intros Hin Hfail. induction keywords as [|[t q] rest IH]; [destruct Hin |].
  cbn [fetch_topics].
  destruct (fetch_daily_arxiv_papers requests_get str_of_json arxiv_results
              t q count) as [e0 | data] eqn:Hhead; cbn [bind].
  - now exists e0.
  - destruct Hin as [[= -> ->] | Hin].
    + rewrite (fetch_raises_with_search _ _ _ _ _ _ _ Hfail) in Hhead.
      discriminate.
    + destruct (IH Hin) as (e' & ->). cbn [bind]. now exists e'.
Qed.

(** X10. A search that fails for one topic ends the run before any file
    is touched: in fetch mode, whichever topic of the configuration it is
    and whatever the other searches returned, [main_workflow] ends with
    an exception and the files are those it started with; nothing that
    was fetched for the other topics is merged. *)
Theorem main_workflow_search_failure
    (json_loads : string -> result document) (json_dumps : document -> string)
    (requests_get : string -> result http_response)
    (str_of_json : json -> string)
    (arxiv_results : string -> Z -> list paper * option exn)
    (write_error : string -> option exn)
    (cfg : config) (fs : file_system)
    (date_readme date_gitpage date_wechat topic search_query : string)
    (e : exn) :
  update_paper_links cfg = false ->
  In (topic, search_query) (formatted_keywords cfg) ->
  snd (arxiv_results search_query (max_results cfg)) = Some e ->
  exists e',
    main_workflow json_loads json_dumps requests_get str_of_json arxiv_results
      write_error cfg fs date_readme date_gitpage date_wechat
    = (fs, Some e').
Proof.
  intros Hmode Hin Hfail. unfold main_workflow. rewrite Hmode. cbn [negb].
  destruct (fetch_topics_raises requests_get str_of_json arxiv_results
              (formatted_keywords cfg) (max_results cfg) topic search_query e
              Hin Hfail) as (e' & ->).
  now exists e'.
Qed.

Lemma main_workflow_search_failure_witness :
  snd ((fun (q : string) (_ : Z) =>
          if String.eqb q "second" then (@nil paper, Some SearchError)
          else ([], None)) "second" 2%Z) = Some SearchError
  /\ exists e',
      main_workflow (fun _ => inr []) (fun _ => "{}")
        (fun _ => inl ConnectionError) (fun _ => "")
        (fun q _ => if String.eqb q "second" then ([], Some SearchError)
                    else ([], None))
        (fun _ => None)
        {| formatted_keywords := [("A", "first"); ("B", "second")];
           max_results := 2; update_paper_links := false;
           publish_readme := true; publish_gitpage := true;
           publish_wechat := true; show_badge := true;
           json_readme_path := "r.json"; md_readme_path := "r.md";
           json_gitpage_path := "g.json"; md_gitpage_path := "g.md";
           json_wechat_path := "w.json"; md_wechat_path := "w.md" |}
        (fun _ => Some "") "d" "d" "d"
      = (fun _ => Some "", Some e').
Proof.
  split; [reflexivity |].
  apply (main_workflow_search_failure (fun _ => inr []) (fun _ => "{}")
           (fun _ => inl ConnectionError) (fun _ => "")
           (fun q _ => if String.eqb q "second" then ([], Some SearchError)
                       else ([], None))
           (fun _ => None)
           {| formatted_keywords := [("A", "first"); ("B", "second")];
              max_results := 2; update_paper_links := false;
              publish_readme := true; publish_gitpage := true;
              publish_wechat := true; show_badge := true;
              json_readme_path := "r.json"; md_readme_path := "r.md";
              json_gitpage_path := "g.json"; md_gitpage_path := "g.md";
              json_wechat_path := "w.json"; md_wechat_path := "w.md" |}
           (fun _ => Some "") "d" "d" "d" "B" "second" SearchError);
    [reflexivity | right; now left | reflexivity].
Defined.

Lemma run_target_absent_store (json_loads : string -> result document)
    (json_dumps : document -> string)
    (requests_get : string -> result http_response)
    (str_of_json : json -> string) (write_error : string -> option exn)
    (fs : file_system)
    (update_only_links : bool) (json_path md_path : string)
    (new_data : list document) (current_date : string)
    (to_web use_title use_toc badge use_back_to_top : bool) :
  fs json_path = None ->
  run_target json_loads json_dumps requests_get str_of_json write_error fs
    update_only_links json_path md_path new_data current_date to_web
    use_title use_toc badge use_back_to_top
  = (fs, Some FileNotFoundError).
Proof.
  intros Habsent. unfold run_target.
  assert (Hload : load_store json_loads fs json_path = inl FileNotFoundError).
  { unfold load_store, read_file. now rewrite Habsent. }
  unfold update_paper_code_links, update_papers_json_file.
  rewrite Hload. now destruct update_only_links.
Qed.

(** X11. The targets are not rolled back: when the README target has
    gone through and the store file of the web-page target is missing,
    [main_workflow] ends with [FileNotFoundError], the files written
    for the README stay written, and the messaging target is not
    reached. *)
Theorem main_workflow_partial_update
    (json_loads : string -> result document) (json_dumps : document -> string)
    (requests_get : string -> result http_response)
    (str_of_json : json -> string)
    (arxiv_results : string -> Z -> list paper * option exn)
    (write_error : string -> option exn)
    (cfg : config) (fs fs1 : file_system)
    (date_readme date_gitpage date_wechat : string)
    (new_table_data new_list_data : list document) :
  (if negb (update_paper_links cfg)
   then fetch_topics requests_get str_of_json arxiv_results
          (formatted_keywords cfg) (max_results cfg)
   else inr ([], [])) = inr (new_table_data, new_list_data) ->
  publish_readme cfg = true ->
  run_target json_loads json_dumps requests_get str_of_json write_error fs
    (update_paper_links cfg) (json_readme_path cfg) (md_readme_path cfg)
    new_table_data date_readme false true true (show_badge cfg) true
  = (fs1, None) ->
  publish_gitpage cfg = true ->
  fs1 (json_gitpage_path cfg) = None ->
  main_workflow json_loads json_dumps requests_get str_of_json arxiv_results
    write_error cfg fs date_readme date_gitpage date_wechat
  = (fs1, Some FileNotFoundError)
  /\ exists paper_data,
      fs1 (md_readme_path cfg)
      = Some (render_markdown paper_data date_readme false true true
                (show_badge cfg) true).
Proof.
  intros Hfetch Hreadme Hrun Hgitpage Habsent. split.
  - unfold main_workflow. rewrite Hfetch, Hreadme, Hrun, Hgitpage.
    cbn [fst snd]. now rewrite run_target_absent_store.
  - unfold run_target in Hrun.
    destruct (if update_paper_links cfg then _ else _) as [e | fs'];
      [discriminate |].
    unfold convert_json_to_markdown in Hrun.
    destruct (load_store json_loads fs' (json_readme_path cfg))
      as [e | paper_data]; cbn [bind] in Hrun; [discriminate |].
    unfold write_file in Hrun.
    destruct (write_error (md_readme_path cfg)); [discriminate |].
    injection Hrun as <-. exists paper_data.
    unfold put_file. now rewrite String.eqb_refl.
Qed.

Lemma main_workflow_partial_update_witness :
  put_file
    (put_file (fun p => if String.eqb p "r.json" then Some "" else None)
       "r.json" "{}")
    "r.md" (render_markdown [] "d" false true true false true) "g.json" = None
  /\ main_workflow (fun _ => inr []) (fun _ => "{}")
       (fun _ => inl ConnectionError) (fun _ => "") (fun _ _ => ([], None))
       (fun _ => None)
       {| formatted_keywords := [("A", "first")];
          max_results := 2; update_paper_links := true;
          publish_readme := true; publish_gitpage := true;
          publish_wechat := true; show_badge := false;
          json_readme_path := "r.json"; md_readme_path := "r.md";
          json_gitpage_path := "g.json"; md_gitpage_path := "g.md";
          json_wechat_path := "w.json"; md_wechat_path := "w.md" |}
       (fun p => if String.eqb p "r.json" then Some "" else None) "d" "d" "d"
     = (put_file
          (put_file (fun p => if String.eqb p "r.json" then Some "" else None)
             "r.json" "{}")
          "r.md" (render_markdown [] "d" false true true false true),
        Some FileNotFoundError).
Proof.
  split; [reflexivity |].
  apply (main_workflow_partial_update (fun _ => inr []) (fun _ => "{}")
           (fun _ => inl ConnectionError) (fun _ => "") (fun _ _ => ([], None))
           (fun _ => None)
           {| formatted_keywords := [("A", "first")];
              max_results := 2; update_paper_links := true;
              publish_readme := true; publish_gitpage := true;
              publish_wechat := true; show_badge := false;
              json_readme_path := "r.json"; md_readme_path := "r.md";
              json_gitpage_path := "g.json"; md_gitpage_path := "g.md";
              json_wechat_path := "w.json"; md_wechat_path := "w.md" |}
           (fun p => if String.eqb p "r.json" then Some "" else None)
           _ "d" "d" "d" [] []); reflexivity.
Defined.

(** ** Record store: what the backfill keeps *)

(** X12. A backfill that goes through neither adds nor removes nor
    moves anything: whenever [update_paper_code_links] returns without
    an exception, on a store whose topics and identifiers are unique (as
    the keys of JSON objects are), the files are those it started with
    but for the store, and the document written to the store has the
    topics of the one read, in the same order, and under every topic the
    same identifiers in the same order; an identifier is bound after the
    pass exactly when it was before. *)
Theorem update_paper_code_links_keeps_keys
    (json_loads : string -> result document) (json_dumps : document -> string)
    (requests_get : string -> result http_response)
    (str_of_json : json -> string) (write_error : string -> option exn)
    (fs fs' : file_system) (json_file_path : string) (paper_data : document) :
  load_store json_loads fs json_file_path = inr paper_data ->
  wf_document paper_data ->
  update_paper_code_links json_loads json_dumps requests_get str_of_json
    write_error fs json_file_path = inr fs' ->
  exists patched,
    fs' = put_file fs json_file_path (json_dumps patched)
    /\ dict_keys patched = dict_keys paper_data
    /\ (forall topic,
           option_map dict_keys (dict_get patched topic)
           = option_map dict_keys (dict_get paper_data topic))
    /\ (forall topic paper_id,
           lookup_entry patched topic paper_id = None
           <-> lookup_entry paper_data topic paper_id = None).
Proof.
  intros Hload Hwf Hrun.
  exists (patch_document requests_get str_of_json paper_data).
  split.
  { unfold update_paper_code_links in Hrun. rewrite Hload in Hrun.
    cbn [bind] in Hrun.
    destruct (document_parses paper_data) eqn:Hparse.
    - rewrite (backfill_document_patch requests_get str_of_json []
                 paper_data Hwf Hparse) in Hrun.
      cbn [bind snd] in Hrun. unfold write_file in Hrun.
      destruct (write_error json_file_path); [discriminate |].
      now injection Hrun as <-.
    - rewrite (backfill_document_not_parsing requests_get str_of_json []
                 paper_data Hparse) in Hrun.
      discriminate. }
  split; [apply dict_keys_patch_document |].
  split.
  { intros topic. rewrite dict_get_patch_document.
    destruct (dict_get paper_data topic) as [papers|]; [| reflexivity].
    cbn [option_map]. now rewrite dict_keys_patch_entries. }
  intros topic paper_id. unfold lookup_entry.
  rewrite dict_get_patch_document.
  destruct (dict_get paper_data topic) as [papers|]; [| tauto].
  cbn [option_map]. rewrite dict_get_patch_entries.
  destruct (dict_get papers paper_id); cbn [option_map];
    split; intros H; congruence.
Qed.

Lemma update_paper_code_links_keeps_keys_witness :
  wf_document [("T", [("2", "|a|b|c|[2](u)|null|");
                      ("1", "|a|b|c|[1](u)|**[link](l)**|")]);
               ("S", [])]
  /\ exists patched,
      update_paper_code_links
        (fun _ => inr [("T", [("2", "|a|b|c|[2](u)|null|");
                              ("1", "|a|b|c|[1](u)|**[link](l)**|")]);
                       ("S", [])])
        (fun d => String.concat "," (dict_keys d))
        (fun _ => inl ConnectionError) (fun _ => "") (fun _ => None)
        (fun _ => Some "stored") "p.json"
      = inr (put_file (fun _ => Some "stored") "p.json"
               ((fun d : document => String.concat "," (dict_keys d)) patched))
      /\ dict_keys patched = ["T"; "S"]
      /\ option_map dict_keys (dict_get patched "T") = Some ["2"; "1"].
Proof.
  assert (Hwf : wf_document
                  [("T", [("2", "|a|b|c|[2](u)|null|");
                          ("1", "|a|b|c|[1](u)|**[link](l)**|")]);
                   ("S", [])]).
  { unfold wf_document, wf_dict.
    repeat (constructor; simpl; try (intuition discriminate)). }
  split; [exact Hwf |].
  destruct (update_paper_code_links_keeps_keys
              (fun _ => inr [("T", [("2", "|a|b|c|[2](u)|null|");
                                    ("1", "|a|b|c|[1](u)|**[link](l)**|")]);
                             ("S", [])])
              (fun d => String.concat "," (dict_keys d))
              (fun _ => inl ConnectionError) (fun _ => "") (fun _ => None)
              (fun _ => Some "stored")
              (put_file (fun _ => Some "stored") "p.json" "T,S")
              "p.json" _ eq_refl Hwf eq_refl)
    as (patched & Hfs & Hkeys & Htopic & _).
  exists patched. split.
  - transitivity (@inr exn file_system
                    (put_file (fun _ => Some "stored") "p.json" "T,S"));
      [reflexivity | now rewrite Hfs].
  - split; [exact Hkeys | exact (Htopic "T")].
Defined.

(** ** Renderer: what the formula pass changes *)

Lemma last_dollar_some (s : string) (i k : nat) :
  last_dollar s i (Some k) <> None.
Proof.
  revert i k. induction s as [|x s IH]; intros i k; simpl; [discriminate |].
  destruct (Ascii.eqb x PyStr.NEWLINE); [discriminate |].
  destruct (Ascii.eqb x "$"); apply IH.
Qed.

(** The offset [last_dollar] returns is that of the last dollar of the
    line. *)
Lemma last_dollar_span (s : string) :
  forall (i : nat) (best : option nat) (j : nat),
    last_dollar s i best = Some j ->
    (best = Some j /\ dollar_on_first_line s = false)
    \/ exists b c,
         s = b ++ String "$" c /\ j = i + String.length b
         /\ occurs PyStr.NEWLINE b = false
         /\ dollar_on_first_line c = false.
Proof.
  induction s as [|x s IH]; intros i best j H; simpl in H.
  - now left.
  - cbn [dollar_on_first_line].
    destruct (Ascii.eqb x PyStr.NEWLINE) eqn:Hnl; [now left |].
    destruct (IH _ _ _ H) as [[Hbest Hs] | (b & c & -> & -> & Hb & Hc)].
    + destruct (Ascii.eqb x "$") eqn:Hx.
      * right. exists "", s. injection Hbest as <-.
        repeat split; [now apply Ascii.eqb_eq in Hx; subst x | simpl; lia
                      | exact Hs].
      * left. now rewrite Hs.
    + right. exists (String x b), c. repeat split.
      * simpl. lia.
      * simpl. now rewrite Hnl.
      * exact Hc.
Qed.

(** A dollar that has no second dollar after it on its line has none
    whatever follows the text read so far. *)
Lemma last_dollar_none_stable (a : string) :
  forall (rest : string) (i : nat),
    last_dollar (a ++ String "$" rest) i None = None ->
    forall (r : string) (i' : nat), last_dollar (a ++ r) i' None = None.
Proof.
  induction a as [|x a IH]; intros rest i H r i'.
  - simpl in H. now apply last_dollar_some in H.
  - cbn [append last_dollar] in *.
    destruct (Ascii.eqb x PyStr.NEWLINE); [reflexivity |].
    destruct (Ascii.eqb x "$").
    + now apply last_dollar_some in H.
    + now apply (IH rest (S i)).
Qed.

(** The span [search_formula] returns: the text before it is passed over
    whatever follows, its inside has no newline, and no dollar follows it
    on its line. *)
Lemma search_formula_span (text : string) :
  forall (pos s e : nat),
    search_formula text pos = Some (s, e) ->
    exists a b c,
      text = a ++ String "$" (b ++ String "$" c)
      /\ s = pos + String.length a
      /\ e = pos + String.length a + String.length b + 2
      /\ occurs PyStr.NEWLINE b = false
      /\ dollar_on_first_line c = false
      /\ (forall (r : string) (pos' : nat),
             search_formula (a ++ r) pos'
             = search_formula r (pos' + String.length a)).
Proof.
  induction text as [|x text IH]; intros pos s e H; simpl in H.
  - discriminate.
  - assert (Hlater : search_formula text (S pos) = Some (s, e) ->
                     (Ascii.eqb x "$" = false
                      \/ last_dollar text 0 None = None) ->
                     exists a b c,
                       String x text = a ++ String "$" (b ++ String "$" c)
                       /\ s = pos + String.length a
                       /\ e = pos + String.length a + String.length b + 2
                       /\ occurs PyStr.NEWLINE b = false
                       /\ dollar_on_first_line c = false
                       /\ (forall (r : string) (pos' : nat),
                              search_formula (a ++ r) pos'
                              = search_formula r (pos' + String.length a))).
    { intros H' Hx.
      destruct (IH _ _ _ H') as (a & b & c & -> & -> & -> & Hb & Hc & Hskip).
      exists (String x a), b, c.
      repeat split; try assumption; try (simpl; lia).
      intros r pos'. cbn [append search_formula String.length].
      rewrite Hskip, Nat.add_succ_r.
      destruct Hx as [Hx | Hx]; [now rewrite Hx |].
      destruct (Ascii.eqb x "$"); [| reflexivity].
      now rewrite (last_dollar_none_stable a _ 0 Hx r 0). }
    destruct (Ascii.eqb x "$") eqn:Hx; [| apply Hlater; auto].
    destruct (last_dollar text 0 None) as [j|] eqn:Hj; [| apply Hlater; auto].
    injection H as <- <-.
    destruct (last_dollar_span _ _ _ _ Hj)
      as [[[=] _] | (b & c & -> & -> & Hb & Hc)].
    apply Ascii.eqb_eq in Hx. subst x.
    exists "", b, c. repeat split; try assumption; try (simpl; lia).
    intros r pos'. cbn [append String.length]. now rewrite Nat.add_0_r.
Qed.

Lemma format_latex_formula_at (pre body post : string) :
  search_formula (pre ++ String "$" (body ++ String "$" post)) 0
  = Some (String.length pre, String.length pre + String.length body + 2) ->
  format_latex_formula (pre ++ String "$" (body ++ String "$" post))
  = pre ++ space_before pre ++ "$" ++ PyStr.strip body ++ "$"
    ++ space_after post ++ post.
Proof.
  intros Hsearch. unfold format_latex_formula. rewrite Hsearch.
  replace (String.length pre + String.length body + 2 - String.length pre)
    with (String.length (String "$" (body ++ "$"))).
  2:{ cbn [String.length]. rewrite length_append. simpl. lia. }
  rewrite take_app_length.
  assert (Hgroup : substring (String.length pre)
                     (String.length (String "$" (body ++ "$")))
                     (pre ++ String "$" (body ++ String "$" post))
                   = String "$" (body ++ "$")).
  { rewrite substring_app_length.
    change (String "$" (body ++ String "$" post))
      with (String "$" (body ++ "$" ++ post)).
    rewrite <- append_assoc.
    apply (substring_0_app (String "$" (body ++ "$")) post). }
  rewrite Hgroup.
  assert (Hinner : substring 1 (String.length (String "$" (body ++ "$")) - 2)
                     (String "$" (body ++ "$")) = body).
  { cbn [String.length substring]. rewrite length_append. cbn [String.length].
    replace (S (String.length body + 1) - 2) with (String.length body) by lia.
    apply substring_0_app. }
  rewrite Hinner.
  assert (Htext : pre ++ String "$" (body ++ String "$" post)
                  = (pre ++ String "$" (body ++ "$")) ++ post)
    by (rewrite append_assoc; cbn [append]; now rewrite append_assoc).
  assert (Hlen : String.length pre + String.length body + 2
                 = String.length (pre ++ String "$" (body ++ "$")))
    by (rewrite length_append; cbn [String.length];
        rewrite length_append; simpl; lia).
  assert (Hdrop : PyStr.drop (String.length pre + String.length body + 2)
                    (pre ++ String "$" (body ++ String "$" post)) = post).
  { rewrite Htext, Hlen. apply drop_app_length. }
  rewrite Hdrop.
  assert (Hbefore : (if (0 <? String.length pre)%nat
                     then match String.get (String.length pre - 1)
                                  (pre ++ String "$" (body ++ String "$" post))
                          with
                          | Some c => if not_space_or_star c then " " else ""
                          | None => ""
                          end
                     else "") = space_before pre).
  { unfold space_before. destruct pre as [|x pre]; [reflexivity |].
    cbn [String.length Nat.ltb Nat.leb].
    now rewrite (get_last_char (String x pre)) by discriminate. }
  rewrite Hbefore.
  assert (Hafter : (if (String.length pre + String.length body + 2
                        <? String.length
                             (pre ++ String "$" (body ++ String "$" post)))%nat
                    then match String.get
                                 (String.length pre + String.length body + 2)
                                 (pre ++ String "$" (body ++ String "$" post))
                         with
                         | Some c => if not_space_or_star c then " " else ""
                         | None => ""
                         end
                    else "") = space_after post).
  { rewrite Htext, Hlen. clear Htext Hlen Hsearch Hgroup Hinner Hdrop Hbefore.
    generalize (pre ++ String "$" (body ++ "$")). intros m.
    rewrite get_app_length, length_append.
    unfold space_after. destruct post as [|c post].
    - replace (_ <? _)%nat with false; [reflexivity |].
      symmetry. apply Nat.ltb_ge. cbn [String.length]. lia.
    - replace (_ <? _)%nat with true.
      + cbn [String.get]. reflexivity.
      + symmetry. apply Nat.ltb_lt.
        change (String.length (String c post)) with (S (String.length post)).
        lia. }
  rewrite Hafter. reflexivity.
Qed.

(** Either the text has no formula and is returned as it is, or it is
    cut at the span found and put together again as the code does. *)
Lemma format_latex_formula_shape (text : string) :
  format_latex_formula text = text
  \/ exists a b c,
       text = a ++ String "$" (b ++ String "$" c)
       /\ occurs PyStr.NEWLINE b = false
       /\ dollar_on_first_line c = false
       /\ (forall (r : string) (pos' : nat),
              search_formula (a ++ r) pos'
              = search_formula r (pos' + String.length a))
       /\ format_latex_formula text
          = a ++ space_before a ++ "$" ++ PyStr.strip b ++ "$"
            ++ space_after c ++ c.
Proof.
  destruct (search_formula text 0) as [[s e]|] eqn:Hsearch.
  - right.
    destruct (search_formula_span _ _ _ _ Hsearch)
      as (a & b & c & -> & -> & -> & Hb & Hc & Hskip).
    exists a, b, c. repeat split; try assumption.
    now apply format_latex_formula_at.
  - left. unfold format_latex_formula. now rewrite Hsearch.
Qed.

Lemma list_ascii_of_string_append (a b : string) :
  list_ascii_of_string (a ++ b)
  = (list_ascii_of_string a ++ list_ascii_of_string b)%list.
Proof. induction a as [|x a IH]; simpl; [reflexivity | now rewrite IH]. Qed.

Lemma visible_append (a b : string) :
  visible (a ++ b) = (visible a ++ visible b)%list.
Proof.
  unfold visible. now rewrite list_ascii_of_string_append, filter_app.
Qed.

Lemma visible_lstrip (s : string) : visible (PyStr.lstrip s) = visible s.
Proof.
  induction s as [|x s IH]; [reflexivity |].
  cbn [PyStr.lstrip]. destruct (PyStr.isspace x) eqn:Hx; [| reflexivity].
  rewrite IH. unfold visible. simpl. now rewrite Hx.
Qed.

Lemma visible_rev (s : string) : visible (PyStr.rev s) = List.rev (visible s).
Proof.
  induction s as [|x s IH]; [reflexivity |].
  rewrite rev_cons, visible_append, IH.
  change (String x s) with (String x "" ++ s).
  rewrite visible_append, rev_app_distr. f_equal.
  unfold visible. simpl. now destruct (PyStr.isspace x).
Qed.

Lemma visible_strip (s : string) : visible (PyStr.strip s) = visible s.
Proof.
  unfold PyStr.strip.
  now rewrite visible_rev, visible_lstrip, visible_rev, visible_lstrip,
    List.rev_involutive.
Qed.

Lemma visible_space_before (a : string) : visible (space_before a) = [].
Proof.
  unfold space_before. destruct (last_char a) as [c|]; [| reflexivity].
  now destruct (not_space_or_star c).
Qed.

Lemma visible_space_after (c : string) : visible (space_after c) = [].
Proof.
  destruct c as [|x c]; [reflexivity |].
  simpl. now destruct (not_space_or_star x).
Qed.

(** X13. The formula pass changes nothing but whitespace: the characters
    of a text that are not whitespace come out the same and in the same
    order, so no cell separator, link or digit of a row is touched. *)
Theorem format_latex_formula_keeps_visible (text : string) :
  visible (format_latex_formula text) = visible text.
Proof.
  destruct (format_latex_formula_shape text)
    as [-> | (a & b & c & -> & _ & _ & _ & ->)]; [reflexivity |].
  change (a ++ String "$" (b ++ String "$" c))
    with (a ++ "$" ++ b ++ "$" ++ c).
  rewrite !visible_append, visible_strip, visible_space_before,
    visible_space_after.
  reflexivity.
Qed.

Lemma lstrip_idempotent (s : string) :
  PyStr.lstrip (PyStr.lstrip s) = PyStr.lstrip s.
Proof.
  induction s as [|x s IH]; [reflexivity |].
  cbn [PyStr.lstrip]. destruct (PyStr.isspace x) eqn:Hx; [exact IH |].
  cbn [PyStr.lstrip]. now rewrite Hx.
Qed.

Lemma strip_idempotent (s : string) :
  PyStr.strip (PyStr.strip s) = PyStr.strip s.
Proof.
  unfold PyStr.strip.
  assert (Hhead : PyStr.lstrip (PyStr.rev (PyStr.lstrip (PyStr.rev (PyStr.lstrip s))))
                  = PyStr.rev (PyStr.lstrip (PyStr.rev (PyStr.lstrip s)))).
  { assert (Ht : PyStr.lstrip s = ""
                 \/ exists x m, PyStr.lstrip s = String x m
                                /\ PyStr.isspace x = false).
    { induction s as [|x s IH]; [now left |].
      cbn [PyStr.lstrip]. destruct (PyStr.isspace x) eqn:Hx; [exact IH |].
      right. now exists x, s. }
    destruct Ht as [-> | (x & m & -> & Hx)]; [reflexivity |].
    rewrite rev_cons.
    destruct (lstrip_before_visible (PyStr.rev m) "" x Hx) as [w ->].
    rewrite rev_append. cbn [PyStr.rev PyStr.rev_onto append PyStr.lstrip].
    now rewrite Hx. }
  now rewrite Hhead, rev_involutive, lstrip_idempotent.
Qed.

Lemma last_char_append_one (a : string) (x : ascii) :
  last_char (a ++ String x "") = Some x.
Proof.
  induction a as [|y a IH]; [reflexivity |].
  cbn [append]. destruct a as [|z a]; [reflexivity |].
  exact IH.
Qed.

Lemma space_before_settled (a : string) :
  space_before (a ++ space_before a) = "".
Proof.
  unfold space_before at 2.
  destruct (last_char a) as [c|] eqn:Hlast.
  - destruct (not_space_or_star c) eqn:Hc.
    + unfold space_before. now rewrite last_char_append_one.
    + rewrite append_nil_r. unfold space_before. now rewrite Hlast, Hc.
  - rewrite append_nil_r. unfold space_before. now rewrite Hlast.
Qed.

Lemma space_after_settled (c : string) :
  space_after (space_after c ++ c) = "".
Proof.
  destruct c as [|x c]; [reflexivity |].
  cbn [space_after]. destruct (not_space_or_star x) eqn:Hx; [reflexivity |].
  cbn [append space_after]. now rewrite Hx.
Qed.

Lemma dollar_on_first_line_space_after (c : string) :
  dollar_on_first_line c = false ->
  dollar_on_first_line (space_after c ++ c) = false.
Proof.
  intros Hc. destruct c as [|x c]; [reflexivity |].
  cbn [space_after]. destruct (not_space_or_star x); [| exact Hc].
  cbn [append]. cbn [dollar_on_first_line] in *. exact Hc.
Qed.

(** X14. The formula pass is idempotent: a text that has been through it
    is left as it is by a second pass, so rendering a store again cannot
    pile up spaces around a formula. *)
Theorem format_latex_formula_idempotent (text : string) :
  format_latex_formula (format_latex_formula text)
  = format_latex_formula text.
Proof.
  destruct (format_latex_formula_shape text)
    as [Hsame | (a & b & c & -> & Hb & Hc & Hskip & Hfmt)].
  - now rewrite !Hsame.
  - rewrite Hfmt.
    assert (Hsearch :
              search_formula
                ((a ++ space_before a)
                 ++ String "$" (PyStr.strip b
                                ++ String "$" (space_after c ++ c))) 0
              = Some (String.length (a ++ space_before a),
                      String.length (a ++ space_before a)
                      + String.length (PyStr.strip b) + 2)).
    { rewrite append_assoc, Hskip, length_append. cbn [Nat.add].
      assert (Hlast : last_dollar
                        (PyStr.strip b ++ String "$" (space_after c ++ c))
                        0 None
                      = Some (String.length (PyStr.strip b))).
      { rewrite last_dollar_through by now apply occurs_strip.
        now rewrite last_dollar_rest_of_line
          by now apply dollar_on_first_line_space_after. }
      unfold space_before. destruct (last_char a) as [x|].
      - destruct (not_space_or_star x);
          cbn [append search_formula String.length];
          rewrite ?Ascii.eqb_refl, Hlast; simpl;
          f_equal; f_equal; lia.
      - cbn [append search_formula String.length].
        rewrite Ascii.eqb_refl, Hlast. f_equal. f_equal; lia. }
    apply format_latex_formula_at in Hsearch.
    rewrite space_before_settled, strip_idempotent, space_after_settled
      in Hsearch.
    cbn [append] in Hsearch.
    replace (a ++ space_before a ++ "$" ++ PyStr.strip b ++ "$"
             ++ space_after c ++ c)
      with ((a ++ space_before a)
            ++ String "$" (PyStr.strip b ++ String "$" (space_after c ++ c)))
      by now rewrite append_assoc.
    rewrite Hsearch. reflexivity.
Qed.

(** ** Workflow: a run that goes through *)

Lemma load_store_write_same (json_loads : string -> result document)
    (fs : file_system) (path content : string) :
  PyStr.truthy content = true ->
  load_store json_loads (put_file fs path content) path
  = json_loads content.
Proof.
  intros Hcontent. unfold load_store, read_file, put_file.
  rewrite String.eqb_refl. cbn [bind]. now rewrite Hcontent.
Qed.

Lemma load_store_write_other (json_loads : string -> result document)
    (fs : file_system) (path other content : string) :
  other <> path ->
  load_store json_loads (put_file fs path content) other
  = load_store json_loads fs other.
Proof.
  intros Hne. unfold load_store, read_file, put_file.
  now rewrite (proj2 (String.eqb_neq other path) Hne).
Qed.

Lemma run_target_merge (json_loads : string -> result document)
    (json_dumps : document -> string)
    (requests_get : string -> result http_response)
    (str_of_json : json -> string) (write_error : string -> option exn)
    (fs : file_system)
    (json_path md_path : string) (new_data : list document)
    (current_date : string)
    (to_web use_title use_toc badge use_back_to_top : bool)
    (stored : document) :
  load_store json_loads fs json_path = inr stored ->
  write_error json_path = None ->
  write_error md_path = None ->
  PyStr.truthy (json_dumps (merge_batch stored new_data)) = true ->
  json_loads (json_dumps (merge_batch stored new_data))
  = inr (merge_batch stored new_data) ->
  run_target json_loads json_dumps requests_get str_of_json write_error fs
    false json_path md_path new_data current_date to_web use_title use_toc
    badge use_back_to_top
  = (put_file
       (put_file fs json_path (json_dumps (merge_batch stored new_data)))
       md_path
       (render_markdown (merge_batch stored new_data) current_date to_web
          use_title use_toc badge use_back_to_top),
     None).
Proof.
  intros Hload Hjson Hmd Htruthy Hback.
  unfold run_target, update_papers_json_file, convert_json_to_markdown,
    write_file.
  rewrite Hload, Hjson. cbn [bind].
  rewrite (load_store_write_same json_loads fs json_path _ Htruthy), Hback.
  cbn [bind]. now rewrite Hmd.
Qed.

(** X15. A fetch run that goes through.  With the three targets on six
    different paths, each of which can be opened for writing, stores that
    load, and a JSON library that reads back what it wrote,
    [main_workflow] ends without an exception; each store then holds the
    merge of what it held with the batch fetched (the table mappings for
    the README and the web page, the list mappings for the messaging
    document), each Markdown file is the rendering of the store beside it
    with the options of its target, and no other file is touched. *)
Theorem main_workflow_publishes_merge
    (json_loads : string -> result document) (json_dumps : document -> string)
    (requests_get : string -> result http_response)
    (str_of_json : json -> string)
    (arxiv_results : string -> Z -> list paper * option exn)
    (write_error : string -> option exn)
    (cfg : config) (fs : file_system)
    (date_readme date_gitpage date_wechat : string)
    (tables lists : list document)
    (readme gitpage wechat : document) :
  update_paper_links cfg = false ->
  publish_readme cfg = true ->
  publish_gitpage cfg = true ->
  publish_wechat cfg = true ->
  NoDup [json_readme_path cfg; md_readme_path cfg; json_gitpage_path cfg;
         md_gitpage_path cfg; json_wechat_path cfg; md_wechat_path cfg] ->
  (forall p,
      In p [json_readme_path cfg; md_readme_path cfg; json_gitpage_path cfg;
            md_gitpage_path cfg; json_wechat_path cfg; md_wechat_path cfg] ->
      write_error p = None) ->
  fetch_topics requests_get str_of_json arxiv_results
    (formatted_keywords cfg) (max_results cfg) = inr (tables, lists) ->
  load_store json_loads fs (json_readme_path cfg) = inr readme ->
  load_store json_loads fs (json_gitpage_path cfg) = inr gitpage ->
  load_store json_loads fs (json_wechat_path cfg) = inr wechat ->
  (forall d, PyStr.truthy (json_dumps d) = true) ->
  json_loads (json_dumps (merge_batch readme tables))
  = inr (merge_batch readme tables) ->
  json_loads (json_dumps (merge_batch gitpage tables))
  = inr (merge_batch gitpage tables) ->
  json_loads (json_dumps (merge_batch wechat lists))
  = inr (merge_batch wechat lists) ->
  exists fs',
    main_workflow json_loads json_dumps requests_get str_of_json
      arxiv_results write_error cfg fs date_readme date_gitpage date_wechat
    = (fs', None)
    /\ fs' (json_readme_path cfg)
       = Some (json_dumps (merge_batch readme tables))
    /\ fs' (md_readme_path cfg)
       = Some (render_markdown (merge_batch readme tables) date_readme
                 false true true (show_badge cfg) true)
    /\ fs' (json_gitpage_path cfg)
       = Some (json_dumps (merge_batch gitpage tables))
    /\ fs' (md_gitpage_path cfg)
       = Some (render_markdown (merge_batch gitpage tables) date_gitpage
                 true true false (show_badge cfg) false)
    /\ fs' (json_wechat_path cfg)
       = Some (json_dumps (merge_batch wechat lists))
    /\ fs' (md_wechat_path cfg)
       = Some (render_markdown (merge_batch wechat lists) date_wechat
                 false false false (show_badge cfg) false)
    /\ (forall p,
           ~ In p [json_readme_path cfg; md_readme_path cfg;
                   json_gitpage_path cfg; md_gitpage_path cfg;
                   json_wechat_path cfg; md_wechat_path cfg] ->
           fs' p = fs p).
Proof.
  intros Hmode Hr Hg Hw Hpaths Hopen Hfetch Hload_r Hload_g Hload_w Htruthy
    Hback_r Hback_g Hback_w.
  assert (Hne : forall i j, (i < j < 6)%nat ->
                  nth i [json_readme_path cfg; md_readme_path cfg;
                         json_gitpage_path cfg; md_gitpage_path cfg;
                         json_wechat_path cfg; md_wechat_path cfg] ""
                  <> nth j [json_readme_path cfg; md_readme_path cfg;
                            json_gitpage_path cfg; md_gitpage_path cfg;
                            json_wechat_path cfg; md_wechat_path cfg] "").
  { intros i j Hij Heq.
    apply (proj1 (NoDup_nth _ "") Hpaths) in Heq; simpl; lia. }
  assert (Hjr_mr := Hne 0 1 ltac:(lia)). assert (Hjr_jg := Hne 0 2 ltac:(lia)).
  assert (Hjr_mg := Hne 0 3 ltac:(lia)). assert (Hjr_jw := Hne 0 4 ltac:(lia)).
  assert (Hjr_mw := Hne 0 5 ltac:(lia)). assert (Hmr_jg := Hne 1 2 ltac:(lia)).
  assert (Hmr_mg := Hne 1 3 ltac:(lia)). assert (Hmr_jw := Hne 1 4 ltac:(lia)).
  assert (Hmr_mw := Hne 1 5 ltac:(lia)). assert (Hjg_mg := Hne 2 3 ltac:(lia)).
  assert (Hjg_jw := Hne 2 4 ltac:(lia)). assert (Hjg_mw := Hne 2 5 ltac:(lia)).
  assert (Hmg_jw := Hne 3 4 ltac:(lia)). assert (Hmg_mw := Hne 3 5 ltac:(lia)).
  assert (Hjw_mw := Hne 4 5 ltac:(lia)).
  cbn [nth] in *. clear Hne.
  assert (Hopen_jr := Hopen (json_readme_path cfg) ltac:(simpl; tauto)).
  assert (Hopen_mr := Hopen (md_readme_path cfg) ltac:(simpl; tauto)).
  assert (Hopen_jg := Hopen (json_gitpage_path cfg) ltac:(simpl; tauto)).
  assert (Hopen_mg := Hopen (md_gitpage_path cfg) ltac:(simpl; tauto)).
  assert (Hopen_jw := Hopen (json_wechat_path cfg) ltac:(simpl; tauto)).
  assert (Hopen_mw := Hopen (md_wechat_path cfg) ltac:(simpl; tauto)).
  eexists. split.
  { unfold main_workflow. rewrite Hmode, Hr, Hg, Hw. cbn [negb].
    rewrite Hfetch.
    rewrite (run_target_merge _ _ _ _ _ fs _ _ tables _ _ _ _ _ _ readme
               Hload_r Hopen_jr Hopen_mr (Htruthy _) Hback_r).
    cbn [fst snd].
    rewrite (run_target_merge _ _ _ _ _ _ _ _ tables _ _ _ _ _ _ gitpage);
      [| rewrite !load_store_write_other by congruence; exact Hload_g
       | exact Hopen_jg | exact Hopen_mg | apply Htruthy | exact Hback_g].
    cbn [fst snd].
    rewrite (run_target_merge _ _ _ _ _ _ _ _ lists _ _ _ _ _ _ wechat);
      [| rewrite !load_store_write_other by congruence; exact Hload_w
       | exact Hopen_jw | exact Hopen_mw | apply Htruthy | exact Hback_w].
    reflexivity. }
  unfold put_file.
  repeat split;
    try (rewrite ?String.eqb_refl,
           ?(proj2 (String.eqb_neq _ _) Hjr_mr),
           ?(proj2 (String.eqb_neq _ _) Hjr_jg),
           ?(proj2 (String.eqb_neq _ _) Hjr_mg),
           ?(proj2 (String.eqb_neq _ _) Hjr_jw),
           ?(proj2 (String.eqb_neq _ _) Hjr_mw),
           ?(proj2 (String.eqb_neq _ _) Hmr_jg),
           ?(proj2 (String.eqb_neq _ _) Hmr_mg),
           ?(proj2 (String.eqb_neq _ _) Hmr_jw),
           ?(proj2 (String.eqb_neq _ _) Hmr_mw),
           ?(proj2 (String.eqb_neq _ _) Hjg_mg),
           ?(proj2 (String.eqb_neq _ _) Hjg_jw),
           ?(proj2 (String.eqb_neq _ _) Hjg_mw),
           ?(proj2 (String.eqb_neq _ _) Hmg_jw),
           ?(proj2 (String.eqb_neq _ _) Hmg_mw),
           ?(proj2 (String.eqb_neq _ _) Hjw_mw);
         reflexivity).
  intros p Hp. cbn [In] in Hp.
  repeat match goal with
         | |- context [String.eqb p ?q] =>
             destruct (String.eqb_spec p q) as [-> | _]; [tauto |]
         end.
  reflexivity.
Qed.

Lemma main_workflow_publishes_merge_witness :
  exists fs',
    main_workflow
      (fun s => if String.eqb s "{B,A}"
                then inr [("B", [("1", "|d|t|a|[1](u)|null|")]); ("A", [])]
                else if String.eqb s "{B}"
                     then inr [("B", [("1", "|d|t|a|[1](u)|null|")])]
                     else inl JSONDecodeError)
      (fun d => "{" ++ String.concat "," (dict_keys d) ++ "}")
      (fun _ => inl ConnectionError) (fun _ => "") (fun _ _ => ([], None))
      (fun _ => None)
      {| formatted_keywords := [("A", "first")];
         max_results := 2; update_paper_links := false;
         publish_readme := true; publish_gitpage := true;
         publish_wechat := true; show_badge := false;
         json_readme_path := "r.json"; md_readme_path := "r.md";
         json_gitpage_path := "g.json"; md_gitpage_path := "g.md";
         json_wechat_path := "w.json"; md_wechat_path := "w.md" |}
      (fun _ => Some "{B}") "d" "d" "d"
    = (fs', None)
    /\ fs' "r.json" = Some "{B,A}"
    /\ fs' "w.md"
       = Some (render_markdown
                 [("B", [("1", "|d|t|a|[1](u)|null|")]); ("A", [])]
                 "d" false false false false false)
    /\ fs' "other" = Some "{B}".
Proof.
  destruct (main_workflow_publishes_merge
              (fun s => if String.eqb s "{B,A}"
                        then inr [("B", [("1", "|d|t|a|[1](u)|null|")]);
                                  ("A", [])]
                        else if String.eqb s "{B}"
                             then inr [("B", [("1", "|d|t|a|[1](u)|null|")])]
                             else inl JSONDecodeError)
              (fun d => "{" ++ String.concat "," (dict_keys d) ++ "}")
              (fun _ => inl ConnectionError) (fun _ => "")
              (fun _ _ => ([], None)) (fun _ => None)
              {| formatted_keywords := [("A", "first")];
                 max_results := 2; update_paper_links := false;
                 publish_readme := true; publish_gitpage := true;
                 publish_wechat := true; show_badge := false;
                 json_readme_path := "r.json"; md_readme_path := "r.md";
                 json_gitpage_path := "g.json"; md_gitpage_path := "g.md";
                 json_wechat_path := "w.json"; md_wechat_path := "w.md" |}
              (fun _ => Some "{B}") "d" "d" "d"
              [[("A", [])]] [[("A", [])]]
              [("B", [("1", "|d|t|a|[1](u)|null|")])]
              [("B", [("1", "|d|t|a|[1](u)|null|")])]
              [("B", [("1", "|d|t|a|[1](u)|null|")])])
    as (fs' & Hrun & Hjson & _ & _ & _ & _ & Hmd & Hother);
    try reflexivity.
  - repeat constructor; simpl; intuition discriminate.
  - exists fs'. split; [exact Hrun |]. split; [exact Hjson |].
    split; [exact Hmd |].
    apply (Hother "other"). simpl. intuition discriminate.
Defined.

(** ** Configuration: from the keywords to the batch *)

Lemma process_config_keywords_from (keywords : dict (list string)) :
  forall acc : dict string,
    NoDup (dict_keys acc ++ dict_keys keywords)%list ->
    fold_left
      (fun formatted_keywords topic_config =>
         dict_set formatted_keywords (fst topic_config)
           (parse_filter_keywords (snd topic_config)))
      keywords acc
    = (acc ++ map (fun topic_config =>
                     (fst topic_config,
                      parse_filter_keywords (snd topic_config)))
                keywords)%list.
Proof.
  induction keywords as [|[topic filters] rest IH]; intros acc Hwf;
    cbn [fold_left map fst snd].
  - now rewrite app_nil_r.
  - assert (Hfresh : dict_get acc topic = None).
    { apply dict_get_none. intros Hin.
      apply NoDup_remove_2 in Hwf. apply Hwf, in_or_app. now left. }
    rewrite (dict_set_absent acc topic _ Hfresh), IH.
    + now rewrite <- app_assoc.
    + unfold dict_keys in *. rewrite map_app, <- app_assoc. exact Hwf.
Qed.

Lemma fetch_daily_arxiv_papers_topic
    (requests_get : string -> result http_response)
    (str_of_json : json -> string)
    (arxiv_results : string -> Z -> list paper * option exn)
    (topic search_query : string) (count : Z) (data : document * document) :
  fetch_daily_arxiv_papers requests_get str_of_json arxiv_results topic
    search_query count = inr data ->
  dict_keys (fst data) = [topic] /\ dict_keys (snd data) = [topic].
Proof.
  unfold fetch_daily_arxiv_papers.
  destruct (arxiv_results search_query count) as [found failure].
  destruct (fold_left _ found _) as [table items].
  destruct failure; [discriminate |].
  intros [= <-]. now split.
Qed.

Lemma fetch_topics_topics
    (requests_get : string -> result http_response)
    (str_of_json : json -> string)
    (arxiv_results : string -> Z -> list paper * option exn)
    (count : Z) (keywords : list (string * string)) :
  forall tables lists,
    fetch_topics requests_get str_of_json arxiv_results keywords count
    = inr (tables, lists) ->
    map dict_keys tables = map (fun kw => [fst kw]) keywords
    /\ map dict_keys lists = map (fun kw => [fst kw]) keywords.
Proof.
  induction keywords as [|[topic search_query] rest IH]; intros tables lists;
    cbn [fetch_topics].
  - intros [= <- <-]. now split.
  - destruct (fetch_daily_arxiv_papers requests_get str_of_json arxiv_results
                topic search_query count) as [e | data] eqn:Hone;
      cbn [bind]; [discriminate |].
    destruct (fetch_topics requests_get str_of_json arxiv_results rest count)
      as [e | [more_tables more_lists]]; cbn [bind fst snd]; [discriminate |].
    intros [= <- <-].
    destruct (fetch_daily_arxiv_papers_topic _ _ _ _ _ _ _ Hone) as [Ht Hl].
    destruct (IH _ _ eq_refl) as [IHt IHl].
    cbn [map fst]. now rewrite Ht, Hl, IHt, IHl.
Qed.

(** X16. From the configuration to the batch.  The topics of the
    configuration keep their order and each gets the query string of its
    own filters; when the fetch over them goes through, the batch holds
    one mapping per configured topic, in that order, each with that topic
    as its only key, whether or not an item was found for it. *)
Theorem configured_topics_are_fetched
    (requests_get : string -> result http_response)
    (str_of_json : json -> string)
    (arxiv_results : string -> Z -> list paper * option exn)
    (keywords : dict (list string)) (count : Z)
    (tables lists : list document) :
  wf_dict keywords ->
  fetch_topics requests_get str_of_json arxiv_results
    (process_config_keywords keywords) count = inr (tables, lists) ->
  process_config_keywords keywords
  = map (fun topic_config =>
           (fst topic_config, parse_filter_keywords (snd topic_config)))
      keywords
  /\ map dict_keys tables = map (fun topic => [topic]) (dict_keys keywords)
  /\ map dict_keys lists = map (fun topic => [topic]) (dict_keys keywords).
Proof.
  intros Hwf Hfetch.
  assert (Hconfig : process_config_keywords keywords
                    = map (fun topic_config =>
                             (fst topic_config,
                              parse_filter_keywords (snd topic_config)))
                        keywords).
  { unfold process_config_keywords.
    now rewrite (process_config_keywords_from keywords [] Hwf). }
  split; [exact Hconfig |].
  rewrite Hconfig in Hfetch.
  destruct (fetch_topics_topics _ _ _ _ _ _ _ Hfetch) as [Ht Hl].
  unfold dict_keys at 2 4. rewrite Ht, Hl, !map_map. now split.
Qed.

Lemma configured_topics_are_fetched_witness :
  wf_dict [("SLAM", ["SLAM"; "3D reconstruction"]); ("NeRF", ["NeRF"])]
  /\ map dict_keys [[("SLAM", [])]; [("NeRF", @nil (string * string))]]
     = [["SLAM"]; ["NeRF"]].
Proof.
  assert (Hwf : wf_dict
                  [("SLAM", ["SLAM"; "3D reconstruction"]); ("NeRF", ["NeRF"])]).
  { unfold wf_dict. repeat constructor; simpl; intuition discriminate. }
  split; [exact Hwf |].
  exact (proj1 (proj2
    (configured_topics_are_fetched (fun _ => inl ConnectionError)
       (fun _ => "") (fun _ _ => ([], None))
       [("SLAM", ["SLAM"; "3D reconstruction"]); ("NeRF", ["NeRF"])] 5
       [[("SLAM", [])]; [("NeRF", [])]] [[("SLAM", [])]; [("NeRF", [])]]
       Hwf eq_refl))).
Defined.
